(** * Food-delivery analytics: data generator and metrics engine

    A shallow embedding of [database/setup_database.py] (the synthetic data
    generator) and [python_analytics/analytics_engine.py] (the metrics
    engine), with the properties of the specification stated against it.

    Conventions of the embedding:
    - SQLite [REAL] columns and Python floats are exact rationals ([Q]);
      floating-point representation error is not modelled.
    - timestamps are rationals counting days, so that a difference of two
      timestamps is what [JULIANDAY(a) - JULIANDAY(b)] computes.
    - Python exceptions are the [Err] case of [result]; the random sources
      (Python's [random], NumPy's global generator, Faker) are one explicit
      state threaded through the generator. *)

From Stdlib Require Import ZArith QArith Qround Qabs Qminmax List Bool Lia Lqa.
From Stdlib Require Import Permutation Sorted Ascii.
From stdpp Require Import gmap strings pretty.
Import ListNotations.

Local Open Scope Q_scope.
Local Open Scope string_scope.
Local Open Scope list_scope.

(** ** Exceptions *)

Inductive exn : Type :=
| ValueError
| KeyError
| IndexError
| TypeError
| OperationalError.

Inductive result (A : Type) : Type :=
| Ok (a : A)
| Err (e : exn).
Arguments Ok {A} a.
Arguments Err {A} e.

Definition rbind {A B} (m : result A) (k : A -> result B) : result B :=
  match m with
  | Ok a => k a
  | Err e => Err e
  end.

Definition raises {A} (m : result A) : Prop := exists e, m = Err e.

(** ** Currency rounding: Python's [round(x, 2)] *)

(** Round to the nearest integer, ties to the even neighbour. *)
Definition round_half_even (x : Q) : Z :=
  let f := Qfloor x in
  let r := x - inject_Z f in
  match Qcompare r (1 # 2) with
  | Lt => f
  | Gt => (f + 1)%Z
  | Eq => if Z.even f then f else (f + 1)%Z
  end.

Definition round2 (x : Q) : Q := inject_Z (round_half_even (x * 100)) / 100.

Definition Qsum (l : list Q) : Q := fold_right Qplus 0 l.

Definition Qlt_bool (x y : Q) : bool := negb (Qle_bool y x).

(** ** The relational data model

    One record per table of [database/sqlite_schema.sql], restricted to the
    columns the generator writes and the metrics engine reads. Key columns
    are [Z]; [REAL] columns are [Q]; a nullable column is an [option]. *)

Definition timestamp := Q.

Record customer : Type := {
  c_customer_id : Z;
  c_name : string;
  c_loyalty_tier : string;
  c_is_active : Z
}.

Record restaurant : Type := {
  r_restaurant_id : Z;
  r_name : string;
  r_city : string;
  r_cuisine_type : string;
  r_rating : Q;
  r_is_active : Z;
  r_created_date : timestamp
}.

(** A menu item as [generate_menu_items] builds it (no key yet). *)
Record menu_item_row : Type := {
  mi_restaurant_id : Z;
  mi_item_name : string;
  mi_description : string;
  mi_price : Q;
  mi_category : string;
  mi_is_available : Z;
  mi_calories : Z;
  mi_prep_time_minutes : Z;
  mi_created_date : timestamp;
  mi_cost_to_make : Q;
  mi_is_popular : Z
}.

(** A row of [menu_items] as read back from the store: the key the table
    assigned, and the inserted columns. *)
Record menu_item : Type := {
  mi_item_id : Z;
  mi_row : menu_item_row
}.

Record order : Type := {
  o_order_id : Z;
  o_customer_id : Z;
  o_restaurant_id : Z;
  o_order_date : timestamp;
  o_total_amount : Q;
  o_status : string;
  o_delivery_fee : Q;
  o_tax_amount : Q;
  o_tip_amount : Q;
  o_delivery_time_minutes : option Z;
  o_payment_method : string;
  o_order_source : string;
  o_discount_amount : Q
}.

Record order_item : Type := {
  oi_order_id : Z;
  oi_item_id : Z;
  oi_quantity : Z;
  oi_unit_price : Q;
  oi_special_instructions : option string;
  oi_item_rating : option Z
}.

(** [datetime.replace(hour=h, minute=m)] on a timestamp counted in days:
    the date and the seconds within the minute are kept. *)
Definition replace_hour_minute (t : timestamp) (h m : Z) : timestamp :=
  let d := Qfloor t in
  let secs := (t - inject_Z d) * 86400 in
  let within_minute := secs - 60 * inject_Z (Qfloor (secs / 60)) in
  inject_Z d + (inject_Z (h * 3600 + m * 60) + within_minute) / 86400.

(** ** The store and its query language

    The SQL the engine sends, as list functions: one combinator per clause.
    Row order where SQL leaves it open is the order of first appearance. *)

Record database : Type := {
  customers : list customer;
  restaurants : list restaurant;
  menu_items : list menu_item;
  orders : list order;
  order_items : list order_item
}.

Module Sql.

(** [a LEFT JOIN b ON on]: every row of [a] with each matching row of [b],
    or once with nulls when none matches. *)
Definition left_join_row {A B} (on : A -> B -> bool) (b : list B) (x : A)
  : list (A * option B) :=
  match List.filter (on x) b with
  | [] => [(x, None)]
  | matches => map (fun y => (x, Some y)) matches
  end.

Definition left_join {A B} (on : A -> B -> bool) (a : list A) (b : list B)
  : list (A * option B) :=
  flat_map (left_join_row on b) a.

(** [a JOIN b ON on]. *)
Definition join {A B} (on : A -> B -> bool) (a : list A) (b : list B)
  : list (A * B) :=
  flat_map (fun x => map (fun y => (x, y)) (List.filter (on x) b)) a.

(** [GROUP BY key]: the rows of each key, keys in order of first
    appearance, rows in input order. *)
Fixpoint add_to_group {K A} (same : K -> K -> bool) (k : K) (x : A)
    (groups : list (K * list A)) : list (K * list A) :=
  match groups with
  | [] => [(k, [x])]
  | (k', xs) :: rest =>
      if same k' k then (k', xs ++ [x]) :: rest
      else (k', xs) :: add_to_group same k x rest
  end.

Definition group_by {K A} (same : K -> K -> bool) (key : A -> K)
    (rows : list A) : list (K * list A) :=
  fold_left (fun groups x => add_to_group same (key x) x groups) rows [].

(** Aggregates skip nulls; over no value, [COUNT] is 0 and the others are
    null. *)
Definition non_null {A} (column : list (option A)) : list A :=
  flat_map (fun v => match v with Some x => [x] | None => [] end) column.

Definition count {A} (column : list (option A)) : Z :=
  Z.of_nat (length (non_null column)).

Definition count_distinct (column : list (option Z)) : Z :=
  Z.of_nat (length (nodup Z.eq_dec (non_null column))).

Definition sum (column : list (option Q)) : option Q :=
  match non_null column with
  | [] => None
  | values => Some (Qsum values)
  end.

Definition avg (column : list (option Q)) : option Q :=
  match non_null column with
  | [] => None
  | values => Some (Qsum values / inject_Z (Z.of_nat (length values)))
  end.

Definition max (column : list (option Q)) : option Q :=
  match non_null column with
  | [] => None
  | v :: values => Some (fold_left Qmax values v)
  end.

Definition coalesce {A} (v : option A) (d : A) : A :=
  match v with
  | Some x => x
  | None => d
  end.

(** [ORDER BY f DESC], as a stable insertion sort. *)
Fixpoint insert_desc {A} (f : A -> Q) (x : A) (sorted : list A) : list A :=
  match sorted with
  | [] => [x]
  | y :: rest =>
      if Qle_bool (f y) (f x) then x :: y :: rest
      else y :: insert_desc f x rest
  end.

Definition order_by_desc {A} (f : A -> Q) (rows : list A) : list A :=
  fold_right (insert_desc f) [] rows.

(** An ascending sort by a total preorder, as a stable insertion sort. *)
Fixpoint insert_by {A} (leb : A -> A -> bool) (x : A) (sorted : list A)
  : list A :=
  match sorted with
  | [] => [x]
  | y :: rest =>
      if leb x y then x :: y :: rest else y :: insert_by leb x rest
  end.

Definition sort_by {A} (leb : A -> A -> bool) (l : list A) : list A :=
  fold_right (insert_by leb) [] l.

(** A column of the right-hand side of a left join. *)
Definition right_column {A B C} (f : B -> C) (rows : list (A * option B))
  : list (option C) :=
  map (fun row => option_map f (snd row)) rows.

End Sql.

(** ** The metrics engine's queries ([FoodDeliveryAnalytics]) *)

Module Queries.

(** *** [get_customer_analytics]: the [customer_metrics] CTE *)

Record customer_metrics : Type := {
  cm_customer_id : Z;
  cm_name : string;
  cm_loyalty_tier : string;
  cm_order_frequency : Z;
  cm_avg_order_value : Q;
  cm_total_spent : Q;
  cm_days_since_last_order : option Q
}.

Record customer_analytics_row : Type := {
  ca_metrics : customer_metrics;
  ca_estimated_clv : Q;
  ca_customer_status : string
}.

(** [ON c.customer_id = o.customer_id AND o.status = 'completed'] *)
Definition customer_order (c : customer) (o : order) : bool :=
  (c_customer_id c =? o_customer_id o)%Z && String.eqb (o_status o) "completed".

(** [GROUP BY c.customer_id, c.name, c.loyalty_tier] *)
Definition customer_key (c : customer) : Z * string * string :=
  (c_customer_id c, c_name c, c_loyalty_tier c).

Definition same_customer_key (k1 k2 : Z * string * string) : bool :=
  let '(id1, name1, tier1) := k1 in
  let '(id2, name2, tier2) := k2 in
  (id1 =? id2)%Z && String.eqb name1 name2 && String.eqb tier1 tier2.

Definition customer_metrics_of (now : timestamp)
    (group : (Z * string * string) * list (customer * option order))
  : customer_metrics :=
  let '((customer_id, name, loyalty_tier), rows) := group in
  {| cm_customer_id := customer_id;
     cm_name := name;
     cm_loyalty_tier := loyalty_tier;
     cm_order_frequency := Sql.count (Sql.right_column o_order_id rows);
     cm_avg_order_value :=
       Sql.coalesce (Sql.avg (Sql.right_column o_total_amount rows)) 0;
     cm_total_spent :=
       Sql.coalesce (Sql.sum (Sql.right_column o_total_amount rows)) 0;
     cm_days_since_last_order :=
       option_map (fun last => now - last)
         (Sql.max (Sql.right_column o_order_date rows)) |}.

Definition customer_metrics_cte (now : timestamp) (db : database)
  : list customer_metrics :=
  map (customer_metrics_of now)
    (Sql.group_by same_customer_key (fun row => customer_key (fst row))
       (Sql.left_join customer_order (customers db) (orders db))).

Definition estimated_clv (m : customer_metrics) : Q :=
  if (0 <? cm_order_frequency m)%Z
  then inject_Z (cm_order_frequency m) * cm_avg_order_value m * 12
  else 0.

Definition customer_status (m : customer_metrics) : string :=
  match cm_days_since_last_order m with
  | None => "Never Ordered"
  | Some days =>
      if Qle_bool days 30 then "Active"
      else if Qle_bool days 90 then "At Risk"
      else "Churned"
  end.

Definition clv_query (now : timestamp) (db : database)
  : list customer_analytics_row :=
  map (fun m => {| ca_metrics := m;
                   ca_estimated_clv := estimated_clv m;
                   ca_customer_status := customer_status m |})
    (customer_metrics_cte now db).

(** *** [get_restaurant_performance]: the [restaurant_metrics] CTE *)

Record restaurant_metrics : Type := {
  rm_restaurant_id : Z;
  rm_restaurant_name : string;
  rm_city : string;
  rm_cuisine_type : string;
  rm_rating : Q;
  rm_total_orders : Z;
  rm_unique_customers : Z;
  rm_total_revenue : Q;
  rm_avg_order_value : Q;
  rm_avg_delivery_time : Q
}.

Record restaurant_performance_row : Type := {
  rp_metrics : restaurant_metrics;
  rp_revenue_per_customer : Q
}.

(** [ON r.restaurant_id = o.restaurant_id AND o.status = 'completed'] *)
Definition restaurant_order (r : restaurant) (o : order) : bool :=
  (r_restaurant_id r =? o_restaurant_id o)%Z
  && String.eqb (o_status o) "completed".

(** [GROUP BY r.restaurant_id, r.name, r.city, r.cuisine_type, r.rating] *)
Definition restaurant_key (r : restaurant)
  : Z * string * string * string * Q :=
  (r_restaurant_id r, r_name r, r_city r, r_cuisine_type r, r_rating r).

Definition same_restaurant_key (k1 k2 : Z * string * string * string * Q)
  : bool :=
  let '(id1, name1, city1, cuisine1, rating1) := k1 in
  let '(id2, name2, city2, cuisine2, rating2) := k2 in
  (id1 =? id2)%Z && String.eqb name1 name2 && String.eqb city1 city2
  && String.eqb cuisine1 cuisine2 && Qeq_bool rating1 rating2.

Definition restaurant_metrics_of
    (group : (Z * string * string * string * Q)
             * list (restaurant * option order))
  : restaurant_metrics :=
  let '((restaurant_id, name, city, cuisine_type, rating), rows) := group in
  {| rm_restaurant_id := restaurant_id;
     rm_restaurant_name := name;
     rm_city := city;
     rm_cuisine_type := cuisine_type;
     rm_rating := rating;
     rm_total_orders := Sql.count_distinct (Sql.right_column o_order_id rows);
     rm_unique_customers :=
       Sql.count_distinct (Sql.right_column o_customer_id rows);
     rm_total_revenue :=
       Sql.coalesce (Sql.sum (Sql.right_column o_total_amount rows)) 0;
     rm_avg_order_value :=
       Sql.coalesce (Sql.avg (Sql.right_column o_total_amount rows)) 0;
     rm_avg_delivery_time :=
       Sql.coalesce
         (Sql.avg
            (map (fun row =>
                    match snd row with
                    | Some o => option_map inject_Z (o_delivery_time_minutes o)
                    | None => None
                    end) rows)) 0 |}.

Definition restaurant_metrics_cte (db : database) : list restaurant_metrics :=
  map restaurant_metrics_of
    (Sql.group_by same_restaurant_key (fun row => restaurant_key (fst row))
       (List.filter (fun row => (r_is_active (fst row) =? 1)%Z)
          (Sql.left_join restaurant_order (restaurants db) (orders db)))).

Definition revenue_per_customer (m : restaurant_metrics) : Q :=
  if (0 <? rm_unique_customers m)%Z
  then rm_total_revenue m / inject_Z (rm_unique_customers m)
  else 0.

Definition performance_query (db : database)
  : list restaurant_performance_row :=
  Sql.order_by_desc (fun row => rm_total_revenue (rp_metrics row))
    (map (fun m => {| rp_metrics := m;
                      rp_revenue_per_customer := revenue_per_customer m |})
       (restaurant_metrics_cte db)).

(** *** [get_menu_analytics] *)

Record menu_analytics_row : Type := {
  ma_item_id : Z;
  ma_item_name : string;
  ma_price : Q;
  ma_category : string;
  ma_restaurant_name : string;
  ma_cuisine_type : string;
  ma_times_ordered : Z;
  ma_total_quantity_sold : Q;
  ma_total_revenue : Q;
  ma_avg_rating : Q;
  ma_profit_margin_pct : option Q
}.

(** [GROUP BY mi.item_id, mi.item_name, mi.price, mi.category, r.name,
    r.cuisine_type] *)
Definition same_menu_key (x y : menu_item * restaurant) : bool :=
  (mi_item_id (fst x) =? mi_item_id (fst y))%Z
  && String.eqb (mi_item_name (mi_row (fst x))) (mi_item_name (mi_row (fst y)))
  && Qeq_bool (mi_price (mi_row (fst x))) (mi_price (mi_row (fst y)))
  && String.eqb (mi_category (mi_row (fst x))) (mi_category (mi_row (fst y)))
  && String.eqb (r_name (snd x)) (r_name (snd y))
  && String.eqb (r_cuisine_type (snd x)) (r_cuisine_type (snd y)).

(** [order_item_id], the key of [order_items], is never null on a joined
    row, so [COUNT(oi.order_item_id)] counts the joined order items. *)
Definition menu_analytics_of
    (group : (menu_item * restaurant)
             * list ((menu_item * restaurant) * option order_item))
  : menu_analytics_row :=
  let '((mi, r), rows) := group in
  let item := mi_row mi in
  {| ma_item_id := mi_item_id mi;
     ma_item_name := mi_item_name item;
     ma_price := mi_price item;
     ma_category := mi_category item;
     ma_restaurant_name := r_name r;
     ma_cuisine_type := r_cuisine_type r;
     ma_times_ordered := Sql.count (Sql.right_column oi_order_id rows);
     ma_total_quantity_sold :=
       Sql.coalesce
         (Sql.sum (Sql.right_column (fun oi => inject_Z (oi_quantity oi)) rows))
         0;
     ma_total_revenue :=
       Sql.coalesce
         (Sql.sum
            (Sql.right_column
               (fun oi => inject_Z (oi_quantity oi) * oi_unit_price oi) rows))
         0;
     ma_avg_rating :=
       Sql.coalesce
         (Sql.avg
            (map (fun row =>
                    match snd row with
                    | Some oi => option_map inject_Z (oi_item_rating oi)
                    | None => None
                    end) rows)) 0;
     ma_profit_margin_pct :=
       if Qlt_bool 0 (mi_cost_to_make item)
       then Some ((mi_price item - mi_cost_to_make item) / mi_price item * 100)
       else None |}.

Definition menu_query (db : database) : list menu_analytics_row :=
  Sql.order_by_desc ma_total_revenue
    (map menu_analytics_of
       (Sql.group_by same_menu_key fst
          (List.filter
             (fun row => (mi_is_available (mi_row (fst (fst row))) =? 1)%Z)
             (Sql.left_join
                (fun (x : menu_item * restaurant) oi =>
                   (mi_item_id (fst x) =? oi_item_id oi)%Z)
                (Sql.join
                   (fun mi r =>
                      (mi_restaurant_id (mi_row mi) =? r_restaurant_id r)%Z)
                   (menu_items db) (restaurants db))
                (order_items db))))).

(** *** [get_time_series_data] *)

(** Timestamps count days from 1970-01-01 00:00, a Thursday. *)
Definition date_of (t : timestamp) : Z := Qfloor t.
Definition hour_of (t : timestamp) : Z :=
  Qfloor ((t - inject_Z (Qfloor t)) * 24).
Definition weekday_of (t : timestamp) : Z := ((Qfloor t + 4) mod 7)%Z.

Record time_series_row : Type := {
  ts_order_date : Z;
  ts_hour_of_day : Z;
  ts_day_of_week : Z;
  ts_order_count : Z;
  ts_daily_revenue : Q;
  ts_avg_order_value : Q;
  ts_unique_customers : Z;
  ts_avg_delivery_time : option Q
}.

Definition time_key (o : order) : Z * Z * Z :=
  (date_of (o_order_date o), hour_of (o_order_date o),
   weekday_of (o_order_date o)).

Definition same_time_key (k1 k2 : Z * Z * Z) : bool :=
  let '(d1, h1, w1) := k1 in
  let '(d2, h2, w2) := k2 in
  (d1 =? d2)%Z && (h1 =? h2)%Z && (w1 =? w2)%Z.

Definition time_series_of (group : (Z * Z * Z) * list order)
  : time_series_row :=
  let '((date, hour, weekday), os) := group in
  {| ts_order_date := date;
     ts_hour_of_day := hour;
     ts_day_of_week := weekday;
     ts_order_count := Z.of_nat (length os);
     ts_daily_revenue := Qsum (map o_total_amount os);
     ts_avg_order_value :=
       Qsum (map o_total_amount os) / inject_Z (Z.of_nat (length os));
     ts_unique_customers :=
       Sql.count_distinct (map (fun o => Some (o_customer_id o)) os);
     ts_avg_delivery_time :=
       Sql.avg (map (fun o => option_map inject_Z (o_delivery_time_minutes o))
                  os) |}.

(** [ORDER BY order_date, hour_of_day] *)
Definition before (a b : time_series_row) : bool :=
  (ts_order_date a <? ts_order_date b)%Z
  || ((ts_order_date a =? ts_order_date b)%Z
      && (ts_hour_of_day a <=? ts_hour_of_day b)%Z).

Definition time_series_query (now : timestamp) (db : database)
  : list time_series_row :=
  Sql.sort_by before
    (map time_series_of
       (Sql.group_by same_time_key time_key
          (List.filter
             (fun o => String.eqb (o_status o) "completed"
                       && (date_of now - 90 <=? date_of (o_order_date o))%Z)
             (orders db)))).

End Queries.

(** ** The data generator ([FoodDeliveryDBSetup]) *)

Module Generator.

(** A catalog entry: name, description, category, base calories. *)
Definition catalog_item : Type := (string * string * string * Z)%type.

Definition cuisine_items : gmap string (list catalog_item) :=
  list_to_map [
    ("Italian", [
      ("Margherita Pizza", "Classic pizza with tomato, mozzarella, and basil", "Pizza", 450%Z);
      ("Pepperoni Pizza", "Pizza with pepperoni and mozzarella cheese", "Pizza", 520%Z);
      ("Spaghetti Carbonara", "Pasta with eggs, cheese, and pancetta", "Pasta", 380%Z);
      ("Chicken Parmigiana", "Breaded chicken with marinara and mozzarella", "Main", 650%Z);
      ("Caesar Salad", "Romaine lettuce with Caesar dressing", "Salad", 280%Z);
      ("Tiramisu", "Classic Italian dessert", "Dessert", 320%Z)]);
    ("Chinese", [
      ("Sweet and Sour Chicken", "Battered chicken with sweet and sour sauce", "Main", 480%Z);
      ("Beef and Broccoli", "Stir-fried beef with broccoli", "Main", 420%Z);
      ("Fried Rice", "Wok-fried rice with vegetables and egg", "Rice", 350%Z);
      ("Spring Rolls", "Crispy vegetable spring rolls", "Appetizer", 180%Z);
      ("Hot and Sour Soup", "Traditional Chinese soup", "Soup", 120%Z);
      ("Kung Pao Chicken", "Spicy chicken with peanuts", "Main", 450%Z)]);
    ("Mexican", [
      ("Chicken Tacos", "Soft tacos with grilled chicken", "Tacos", 320%Z);
      ("Beef Burrito", "Large burrito with seasoned beef", "Burrito", 580%Z);
      ("Guacamole and Chips", "Fresh guacamole with tortilla chips", "Appetizer", 250%Z);
      ("Quesadilla", "Grilled tortilla with cheese", "Main", 420%Z);
      ("Churros", "Fried dough with cinnamon sugar", "Dessert", 280%Z);
      ("Chicken Fajitas", "Sizzling chicken with peppers", "Main", 480%Z)]);
    ("Indian", [
      ("Chicken Tikka Masala", "Creamy tomato curry with chicken", "Curry", 520%Z);
      ("Biryani", "Fragrant rice with spices and meat", "Rice", 480%Z);
      ("Naan Bread", "Traditional Indian flatbread", "Bread", 180%Z);
      ("Samosas", "Fried pastries with spiced filling", "Appetizer", 220%Z);
      ("Dal Curry", "Lentil curry with spices", "Curry", 280%Z);
      ("Mango Lassi", "Yogurt drink with mango", "Beverage", 150%Z)]);
    ("American", [
      ("Classic Burger", "Beef patty with lettuce, tomato, onion", "Burger", 650%Z);
      ("BBQ Ribs", "Slow-cooked ribs with BBQ sauce", "Main", 780%Z);
      ("Buffalo Wings", "Spicy chicken wings", "Appetizer", 420%Z);
      ("Mac and Cheese", "Creamy macaroni and cheese", "Side", 380%Z);
      ("Apple Pie", "Classic American dessert", "Dessert", 320%Z);
      ("Grilled Chicken Salad", "Mixed greens with grilled chicken", "Salad", 350%Z)]);
    ("Thai", [
      ("Pad Thai", "Stir-fried noodles with tamarind sauce", "Noodles", 420%Z);
      ("Green Curry", "Spicy coconut curry", "Curry", 380%Z);
      ("Tom Yum Soup", "Spicy and sour soup", "Soup", 180%Z);
      ("Mango Sticky Rice", "Sweet dessert with mango", "Dessert", 280%Z);
      ("Thai Basil Chicken", "Stir-fried chicken with basil", "Main", 450%Z);
      ("Papaya Salad", "Spicy green papaya salad", "Salad", 220%Z)]);
    ("Japanese", [
      ("California Roll", "Sushi roll with crab and avocado", "Sushi", 280%Z);
      ("Chicken Teriyaki", "Grilled chicken with teriyaki sauce", "Main", 420%Z);
      ("Miso Soup", "Traditional soybean soup", "Soup", 80%Z);
      ("Tempura", "Battered and fried vegetables", "Appetizer", 320%Z);
      ("Ramen", "Japanese noodle soup", "Noodles", 450%Z);
      ("Mochi Ice Cream", "Sweet rice cake with ice cream", "Dessert", 180%Z)])
  ].

(** Default items for cuisines not in the table. *)
Definition default_items : list catalog_item := [
  ("House Special", "Chef's signature dish", "Main", 480%Z);
  ("Soup of the Day", "Daily fresh soup", "Soup", 150%Z);
  ("Garden Salad", "Fresh mixed greens", "Salad", 220%Z);
  ("Grilled Chicken", "Simply grilled chicken breast", "Main", 380%Z);
  ("Dessert Special", "Chef's dessert creation", "Dessert", 250%Z)
].

Definition statuses : list string :=
  ["completed"; "completed"; "completed"; "completed"; "cancelled"; "pending"].
Definition payment_methods : list string :=
  ["credit_card"; "debit_card"; "paypal"; "cash"; "apple_pay"].
Definition order_sources : list string := ["app"; "website"; "phone"].

Definition hour_weights : list Q :=
  [0.5; 0.3; 0.2; 0.2; 0.3; 0.5; 0.8; 1.0; 1.2; 1.5; 2.0; 3.0;
   3.5; 2.5; 1.8; 1.5; 1.8; 2.5; 3.8; 4.0; 3.2; 2.0; 1.2; 0.8].


(** The ambient random state (Python's [random] module, NumPy's global
    generator and Faker, all seeded in [__init__]) with the draws the
    generator makes and the ranges the libraries document for them. *)
Class RandomSource : Type := {
  rng : Type;
  (** [random.random()]: a float in [0, 1). *)
  py_random : rng -> Q * rng;
  py_random_range : forall g, 0 <= fst (py_random g) < 1;
  (** [random._randbelow(n)]: an integer in [0, n), for positive [n]. *)
  py_randbelow : Z -> rng -> Z * rng;
  py_randbelow_range :
    forall n g, (0 < n)%Z -> (0 <= fst (py_randbelow n g) < n)%Z;
  (** [np.random.random_sample()]: the uniform draw behind
      [np.random.choice(a, p=...)]. *)
  np_random_sample : rng -> Q * rng;
  (** The bounded integer draw behind NumPy's sampling without
      replacement, which [DataFrame.sample] uses. *)
  np_randbelow : nat -> rng -> nat * rng;
  np_randbelow_range :
    forall n g, (0 < n)%nat -> (fst (np_randbelow n g) < n)%nat;
  (** [np.random.exponential(scale)]. *)
  np_exponential : Q -> rng -> Q * rng;
  (** [fake.sentence()]. *)
  fake_sentence : rng -> string * rng
}.

Section WithRandomSource.

Context {RS : RandomSource}.

(** A computation that draws from the random state and may raise. *)
Definition gen (A : Type) : Type := rng -> result (A * rng).

Definition gret {A} (a : A) : gen A := fun g => Ok (a, g).

Definition gbind {A B} (m : gen A) (k : A -> gen B) : gen B :=
  fun g => match m g with
           | Ok (a, g') => k a g'
           | Err e => Err e
           end.

Definition draw {A} (f : rng -> A * rng) : gen A := fun g => Ok (f g).

Definition gfail {A} (e : exn) : gen A := fun _ => Err e.

Notation "'do' x <- m ; k" := (gbind m (fun x => k))
  (at level 10, x name, m at level 100, k at level 200).

Fixpoint gmapM {A B} (f : A -> gen B) (l : list A) : gen (list B) :=
  match l with
  | [] => gret []
  | x :: t => do y <- f x ; do ys <- gmapM f t ; gret (y :: ys)
  end.

(** *** Library draws *)

(** [random.uniform(a, b)] is [a + (b - a) * random()]. *)
Definition uniform (a b : Q) : gen Q :=
  do u <- draw py_random ; gret (a + (b - a) * u).

(** [random.randint(a, b)] is [a + _randbelow(b - a + 1)]. *)
Definition randint (a b : Z) : gen Z :=
  do r <- draw (py_randbelow (b - a + 1)) ; gret (a + r)%Z.

(** [random.choice(seq)]: [seq[_randbelow(len(seq))]]; an empty sequence
    is an [IndexError]. *)
Definition choice {A} (seq : list A) : gen A :=
  match seq with
  | [] => gfail IndexError
  | x :: _ =>
      do i <- draw (py_randbelow (Z.of_nat (length seq))) ;
      gret (nth (Z.to_nat i) seq x)
  end.

(** [random.sample(population, k)], the pool algorithm CPython uses for
    small populations: draw a position below the live length, take the
    element, move the last live element into the hole. *)
Fixpoint sample_pool {A} (k : nat) (pool : list A) : gen (list A) :=
  match k with
  | O => gret []
  | S k' =>
      do j <- draw (py_randbelow (Z.of_nat (length pool))) ;
      match nth_error pool (Z.to_nat j), nth_error pool (length pool - 1) with
      | Some x, Some y =>
          do rest <- sample_pool k'
                       (firstn (length pool - 1) (<[Z.to_nat j := y]> pool)) ;
          gret (x :: rest)
      | _, _ => gfail IndexError
      end
  end.

Definition sample {A} (population : list A) (k : nat) : gen (list A) :=
  if (length population <? k)%nat then gfail ValueError
  else sample_pool k population.

(** [np.searchsorted(cdf, u, side='right')] over the running sum of [p]. *)
Fixpoint searchsorted (p : list Q) (acc u : Q) : nat :=
  match p with
  | [] => O
  | w :: ps =>
      if Qle_bool (acc + w) u then S (searchsorted ps (acc + w) u) else O
  end.

(** [np.random.choice(a, p=p)]: [a] must be non-empty, [p] as long as
    [a] and summing to one; the element is the one at
    [searchsorted(cumsum(p), u, side='right')]. *)
Definition np_choice {A} (a : list A) (p : list Q) : gen A :=
  match a with
  | [] => gfail ValueError
  | x :: xs =>
      if negb (length a =? length p)%nat then gfail ValueError
      else if negb (Qeq_bool (Qsum p) 1) then gfail ValueError
      else
        do u <- draw np_random_sample ;
        gret (nth (searchsorted p 0 u) a (List.last xs x))
  end.

(** Removing the element at a position. *)
Fixpoint remove_nth {A} (i : nat) (l : list A) : list A :=
  match l, i with
  | [], _ => []
  | _ :: t, O => t
  | x :: t, S i' => x :: remove_nth i' t
  end.

(** Drawing [n] rows without replacement. *)
Fixpoint draw_rows {A} (n : nat) (rows : list A) : gen (list A) :=
  match n with
  | O => gret []
  | S n' =>
      do i <- draw (np_randbelow (length rows)) ;
      match nth_error rows i with
      | Some x => do rest <- draw_rows n' (remove_nth i rows) ; gret (x :: rest)
      | None => gfail IndexError
      end
  end.

(** [df.sample(n)]: [n] rows without replacement; a sample larger than
    the frame is a [ValueError]. *)
Definition df_sample {A} (rows : list A) (n : nat) : gen (list A) :=
  if (length rows <? n)%nat then gfail ValueError
  else draw_rows n rows.

(** [df.sample(1).iloc[0]]. *)
Definition df_sample_one {A} (rows : list A) : gen A :=
  do s <- df_sample rows 1 ;
  match s with
  | x :: _ => gret x
  | [] => gfail IndexError
  end.


(** *** [generate_menu_items] *)

(** The body of the inner loop: one menu item of [restaurant]. *)
Definition generate_menu_item (restaurant : restaurant) (it : catalog_item)
  : gen menu_item_row :=
  let '(item_name, description, category, base_calories) := it in
  do base_price <- uniform 8.99 24.99 ;
  do ratio <- uniform 0.25 0.45 ;
  let cost_to_make := base_price * ratio in
  let base_date := r_created_date restaurant in
  do is_available <- choice [1; 1; 1; 1; 0]%Z ;
  do calories_delta <- randint (-50) 100 ;
  do prep_time <- randint 10 30 ;
  do days <- randint 1 30 ;
  do is_popular <- choice [0; 0; 0; 1]%Z ;
  gret {| mi_restaurant_id := r_restaurant_id restaurant;
          mi_item_name := item_name;
          mi_description := description;
          mi_price := round2 base_price;
          mi_category := category;
          mi_is_available := is_available;
          mi_calories := (base_calories + calories_delta)%Z;
          mi_prep_time_minutes := prep_time;
          mi_created_date := base_date + inject_Z days;
          mi_cost_to_make := round2 cost_to_make;
          mi_is_popular := is_popular |}.

(** [while len(selected_items) < num_items: selected_items.append(...)]:
    [missing] is [num_items - len(selected_items)] on entry, and every
    turn appends one item. *)
Fixpoint pad_selected (missing : nat) (selected_items : list catalog_item)
  : gen (list catalog_item) :=
  match missing with
  | O => gret selected_items
  | S m =>
      do extra <- choice default_items ;
      pad_selected m (selected_items ++ [extra])
  end.

Definition generate_restaurant_menu (restaurant : restaurant)
  : gen (list menu_item_row) :=
  let cuisine := r_cuisine_type restaurant in
  let items := default default_items (cuisine_items !! cuisine) in
  do num_items <- randint 6 12 ;
  let num_items := Z.to_nat num_items in
  do selected_items <- sample items (Nat.min (length items) num_items) ;
  do selected_items <-
    pad_selected (num_items - length selected_items) selected_items ;
  gmapM (generate_menu_item restaurant) selected_items.

Definition generate_menu_items (restaurants_df : list restaurant)
  : gen (list menu_item_row) :=
  do per_restaurant <- gmapM generate_restaurant_menu restaurants_df ;
  gret (concat per_restaurant).

(** *** [generate_orders_and_items] *)

(** The body of [for _, item in selected_items.iterrows()]. *)
Definition generate_order_item (order_id : Z) (status : string)
    (item : menu_item) : gen order_item :=
  do quantity <- np_choice [1; 2; 3]%Z [0.7; 0.25; 0.05] ;
  let unit_price := mi_price (mi_row item) in
  do r <- draw py_random ;
  do special_instructions <-
    (if Qlt_bool r 0.1
     then do sentence <- draw fake_sentence ; gret (Some sentence)
     else gret None) ;
  do item_rating <-
    (if String.eqb status "completed"
     then do r' <- draw py_random ;
          if Qlt_bool r' 0.7
          then do stars <- randint 3 5 ; gret (Some stars)
          else gret None
     else gret None) ;
  gret {| oi_order_id := order_id;
          oi_item_id := mi_item_id item;
          oi_quantity := quantity;
          oi_unit_price := unit_price;
          oi_special_instructions := special_instructions;
          oi_item_rating := item_rating |}.

(** The loop over the selected items, with its two accumulators. *)
Fixpoint order_items_loop (order_id : Z) (status : string)
    (selected_items : list menu_item)
    (subtotal : Q) (current_order_items : list order_item)
  : gen (Q * list order_item) :=
  match selected_items with
  | [] => gret (subtotal, current_order_items)
  | item :: rest =>
      do order_item <- generate_order_item order_id status item ;
      let item_total :=
        inject_Z (oi_quantity order_item) * oi_unit_price order_item in
      order_items_loop order_id status rest
        (subtotal + item_total) (current_order_items ++ [order_item])
  end.

(** One turn of the loop over [order_id]; [None] is the [continue] taken
    when the restaurant has no available item. *)
Definition generate_order (now : timestamp)
    (customers_df : list customer) (restaurants_df : list restaurant)
    (menu_items_df : list menu_item) (order_id : Z)
  : gen (option (order * list order_item)) :=
  do customer <- df_sample_one customers_df ;
  do restaurant <- df_sample_one restaurants_df ;
  do days_ago <- draw (np_exponential 30) ;
  let days_ago := Qmin days_ago 180 in
  let order_date := now - days_ago in
  do hour <- np_choice (map Z.of_nat (seq 0 24))
               (map (fun w => w / Qsum hour_weights) hour_weights) ;
  do minute <- randint 0 59 ;
  let order_date := replace_hour_minute order_date hour minute in
  do status <- choice statuses ;
  let restaurant_items :=
    List.filter
      (fun mi => (mi_restaurant_id (mi_row mi) =? r_restaurant_id restaurant)%Z
                 && (mi_is_available (mi_row mi) =? 1)%Z)
      menu_items_df in
  if (length restaurant_items =? 0)%nat then gret None
  else
    do num_items <- np_choice [1; 2; 3; 4; 5]%nat [0.3; 0.35; 0.2; 0.1; 0.05] ;
    do selected_items <-
      df_sample restaurant_items (Nat.min num_items (length restaurant_items)) ;
    do looped <- order_items_loop order_id status selected_items 0 [] ;
    let '(subtotal, current_order_items) := looped in
    do fee <- uniform 1.99 4.99 ;
    let delivery_fee := round2 fee in
    let tax_rate := 0.08 in
    let tax_amount := round2 (subtotal * tax_rate) in
    do tip_amount <-
      (if String.eqb status "completed"
       then do pct <- uniform 0.1 0.25 ; gret (round2 (subtotal * pct))
       else gret 0) ;
    do r <- draw py_random ;
    do discount_amount <-
      (if Qlt_bool r 0.2
       then do pct <- uniform 0 0.15 ; gret (round2 (subtotal * pct))
       else gret 0) ;
    let total_amount :=
      subtotal + delivery_fee + tax_amount + tip_amount - discount_amount in
    do delivery_time_minutes <-
      (if String.eqb status "completed"
       then do minutes <- randint 20 60 ; gret (Some minutes)
       else gret None) ;
    do payment_method <- choice payment_methods ;
    do order_source <- choice order_sources ;
    gret (Some
      ({| o_order_id := order_id;
          o_customer_id := c_customer_id customer;
          o_restaurant_id := r_restaurant_id restaurant;
          o_order_date := order_date;
          o_total_amount := round2 total_amount;
          o_status := status;
          o_delivery_fee := delivery_fee;
          o_tax_amount := tax_amount;
          o_tip_amount := tip_amount;
          o_delivery_time_minutes := delivery_time_minutes;
          o_payment_method := payment_method;
          o_order_source := order_source;
          o_discount_amount := discount_amount |},
       current_order_items)).

(** [for order_id in range(first, first + count)], appending to the two
    result lists. *)
Fixpoint orders_loop (now : timestamp)
    (customers_df : list customer) (restaurants_df : list restaurant)
    (menu_items_df : list menu_item)
    (count : nat) (order_id : Z)
    (orders : list order) (order_items : list order_item)
  : gen (list order * list order_item) :=
  match count with
  | O => gret (orders, order_items)
  | S count' =>
      do generated <-
        generate_order now customers_df restaurants_df menu_items_df order_id ;
      match generated with
      | None =>
          orders_loop now customers_df restaurants_df menu_items_df
            count' (order_id + 1) orders order_items
      | Some (order, current_order_items) =>
          orders_loop now customers_df restaurants_df menu_items_df
            count' (order_id + 1)
            (orders ++ [order]) (order_items ++ current_order_items)
      end
  end.

Definition generate_orders_and_items (now : timestamp)
    (customers_df : list customer) (restaurants_df : list restaurant)
    (menu_items_df : list menu_item) (num_orders : nat)
  : gen (list order * list order_item) :=
  orders_loop now customers_df restaurants_df menu_items_df
    num_orders 1 [] [].

End WithRandomSource.

End Generator.

(** ** Data frames

    The part of pandas the engine uses: a frame is its column labels and
    its rows, a cell is null (NaN / None), an integer, a float or a
    string. *)

Inductive value : Type :=
| VNull
| VInt (z : Z)
| VReal (q : Q)
| VStr (s : string).

Module Frame.

Record t : Type := {
  columns : list string;
  rows : list (list value)
}.

(** [pd.DataFrame()] *)
Definition empty : t := {| columns := []; rows := [] |}.

Definition len (df : t) : nat := length (rows df).

Fixpoint index_of (c : string) (cols : list string) : option nat :=
  match cols with
  | [] => None
  | c' :: rest =>
      if String.eqb c' c then Some O else option_map S (index_of c rest)
  end.

Definition cell (i : nat) (row : list value) : value := nth i row VNull.

(** [df[c]]: a missing label is a [KeyError]. *)
Definition getitem (df : t) (c : string) : result (list value) :=
  match index_of c (columns df) with
  | Some i => Ok (map (cell i) (rows df))
  | None => Err KeyError
  end.

Fixpoint zip_with {A B C} (f : A -> B -> C) (l : list A) (l' : list B)
  : list C :=
  match l, l' with
  | x :: t, y :: t' => f x y :: zip_with f t t'
  | _, _ => []
  end.

(** [df[c] = series]: overwrite the column, or append a new last one; a
    series of another length is a [ValueError]. *)
Definition setitem (df : t) (c : string) (series : list value) : result t :=
  if negb (length series =? length (rows df))%nat then Err ValueError
  else match index_of c (columns df) with
       | Some i =>
           Ok {| columns := columns df;
                 rows := zip_with (fun row v => <[i := v]> row)
                           (rows df) series |}
       | None =>
           Ok {| columns := columns df ++ [c];
                 rows := zip_with (fun row v => row ++ [v]) (rows df) series |}
       end.

(** [df[[c1; ...; cn]]] *)
Fixpoint positions (cols : list string) (wanted : list string)
  : result (list nat) :=
  match wanted with
  | [] => Ok []
  | c :: rest =>
      match index_of c cols with
      | Some i => rbind (positions cols rest) (fun ixs => Ok (i :: ixs))
      | None => Err KeyError
      end
  end.

Definition project (df : t) (wanted : list string) : result t :=
  rbind (positions (columns df) wanted) (fun ixs =>
  Ok {| columns := wanted;
        rows := map (fun row => map (fun i => cell i row) ixs) (rows df) |}).

(** [df[mask]] with a boolean mask computed from one column. *)
Definition where_ (df : t) (c : string) (p : value -> bool) : result t :=
  match index_of c (columns df) with
  | Some i =>
      Ok {| columns := columns df;
            rows := List.filter (fun row => p (cell i row)) (rows df) |}
  | None => Err KeyError
  end.

(** [series.fillna(v)] *)
Definition fillna (v : value) (series : list value) : list value :=
  map (fun x => match x with VNull => v | _ => x end) series.

(** [df.iloc[0]]: the first row, labelled; out of bounds on an empty
    frame. *)
Definition iloc0 (df : t) : result (list (string * value)) :=
  match rows df with
  | row :: _ => Ok (combine (columns df) row)
  | [] => Err IndexError
  end.

(** [row[c]] on a labelled row. *)
Fixpoint row_get (row : list (string * value)) (c : string) : result value :=
  match row with
  | [] => Err KeyError
  | (c', v) :: rest => if String.eqb c' c then Ok v else row_get rest c
  end.

Definition value_eqb (a b : value) : bool :=
  match a, b with
  | VInt x, VInt y => (x =? y)%Z
  | VReal x, VReal y => Qeq_bool x y
  | VInt x, VReal y | VReal y, VInt x => Qeq_bool (inject_Z x) y
  | VStr x, VStr y => String.eqb x y
  | _, _ => false
  end.

(** [left.merge(right, on=key, how='left')]: every left row with each
    right row of the same key, or once with nulls; a label the two frames
    share besides the key is suffixed [_x] on the left and [_y] on the
    right. *)
Definition suffixed (others : list string) (key suffix : string)
    (cols : list string) : list string :=
  map (fun c => if negb (String.eqb c key)
                   && existsb (String.eqb c) others
                then String.append c suffix else c) cols.

Definition drop_position {A} (i : nat) (l : list A) : list A :=
  firstn i l ++ skipn (S i) l.

Definition merge_left (left right : t) (key : string) : result t :=
  match index_of key (columns left), index_of key (columns right) with
  | Some i, Some j =>
      let right_cols := drop_position j (columns right) in
      Ok {| columns :=
              suffixed (columns right) key "_x" (columns left)
              ++ suffixed (columns left) key "_y" right_cols;
            rows :=
              flat_map
                (fun l =>
                   match List.filter
                           (fun r => value_eqb (cell i l) (cell j r))
                           (rows right) with
                   | [] => [l ++ map (fun _ => VNull) right_cols]
                   | matches => map (fun r => l ++ drop_position j r) matches
                   end)
                (rows left) |}
  | _, _ => Err KeyError
  end.

(** The numeric content of a cell, as [float(x)] gives it. *)
Definition to_Q (v : value) : option Q :=
  match v with
  | VInt z => Some (inject_Z z)
  | VReal q => Some q
  | _ => None
  end.

(** [series.mean()], [series.max()], [series.sum()]: nulls are skipped;
    the mean and the maximum of nothing are NaN. *)
Definition numbers (series : list value) : list Q :=
  flat_map (fun v => match to_Q v with Some q => [q] | None => [] end) series.

Definition mean (series : list value) : option Q :=
  match numbers series with
  | [] => None
  | qs => Some (Qsum qs / inject_Z (Z.of_nat (length qs)))
  end.

Definition max (series : list value) : option Q :=
  match numbers series with
  | [] => None
  | q :: qs => Some (fold_left Qmax qs q)
  end.

Definition sum (series : list value) : Q := Qsum (numbers series).

(** The order of group keys: numbers by value, strings
    lexicographically. *)
Definition value_leb (a b : value) : bool :=
  match a, b with
  | VStr x, VStr y => String.leb x y
  | VStr _, _ => false
  | _, VStr _ => true
  | _, _ => match to_Q a, to_Q b with
            | Some x, Some y => Qle_bool x y
            | None, _ => true
            | _, None => false
            end
  end.

Fixpoint distinct (l : list value) : list value :=
  match l with
  | [] => []
  | v :: rest =>
      v :: List.filter (fun w => negb (value_eqb v w)) (distinct rest)
  end.

Definition is_null (v : value) : bool :=
  match v with
  | VNull => true
  | _ => false
  end.

Inductive aggregation : Type :=
| AggSum
| AggMean.

Definition aggregate (how : aggregation) (series : list value) : value :=
  match how with
  | AggSum => VReal (sum series)
  | AggMean => match mean series with
               | Some q => VReal q
               | None => VNull
               end
  end.

(** [df.groupby(key).agg({column: how, ...}).reset_index()]: one row per
    key that occurs (null keys are dropped), keys ascending; the key
    column first, then the aggregated columns. *)
Definition groupby_agg (df : t) (key : string)
    (aggs : list (string * aggregation)) : result t :=
  match index_of key (columns df) with
  | None => Err KeyError
  | Some k =>
      rbind (positions (columns df) (map fst aggs)) (fun ixs =>
      let keys :=
        Sql.sort_by value_leb
          (distinct (List.filter (fun v => negb (is_null v))
                       (map (cell k) (rows df)))) in
      Ok {| columns := key :: map fst aggs;
            rows :=
              map (fun kv =>
                     let group :=
                       List.filter (fun row => value_eqb kv (cell k row))
                         (rows df) in
                     kv :: map (fun ia =>
                                  aggregate (snd ia)
                                    (map (cell (fst ia)) group))
                             (combine ixs (map snd aggs)))
                keys |})
  end.

(** [series.rolling(window, min_periods=1).mean()] *)
Definition rolling_mean (window : nat) (xs : list Q) : list Q :=
  map (fun i =>
         let first := (S i - window)%nat in
         let values := firstn (S i - first) (skipn first xs) in
         Qsum values / inject_Z (Z.of_nat (length values)))
    (seq 0 (length xs)).

(** [series.idxmax()]: the position of the first largest value; over
    nothing, a [ValueError]. *)
Fixpoint argmax_from (best : Q) (best_i i : nat) (xs : list Q) : nat :=
  match xs with
  | [] => best_i
  | x :: rest =>
      if Qlt_bool best x then argmax_from x i (S i) rest
      else argmax_from best best_i (S i) rest
  end.

Definition idxmax (series : list value) : result nat :=
  match numbers series with
  | [] => Err ValueError
  | x :: rest => Ok (argmax_from x 0 1 rest)
  end.

End Frame.

(** ** The metrics engine ([FoodDeliveryAnalytics]) *)

Module Engine.

(** scikit-learn, as [customer_segmentation] uses it: standardising the
    feature matrix and clustering it with
    [KMeans(n_clusters, random_state=42, n_init=10)], which makes the
    labels a function of the matrix; and the mean silhouette coefficient. *)
Class Clustering : Type := {
  fit_predict : nat -> list (list Q) -> result (list Z);
  silhouette : list (list Q) -> list Z -> Q
}.

(** What [data_cache] holds under a name: a frame, the forecast record,
    the peak-hours record, or the list of insights. *)
Inductive cached : Type :=
| CFrame (df : Frame.t)
| CForecast (historical forecast : Frame.t) (model_score : option Q)
| CPeak (hourly daily : Frame.t)
| CInsights (insights : list string).

(** The engine: the store behind [db_path] as a connection finds it (or
    the error connecting or reading raises), the store's clock, and the
    cache. *)
Record t : Type := {
  store : result database;
  now : timestamp;
  data_cache : gmap string cached
}.

Definition cache_put (self : t) (name : string) (v : cached) : t :=
  {| store := store self; now := now self;
     data_cache := <[name := v]> (data_cache self) |}.

(** A method of the engine: it may raise, and it may update the cache. *)
Definition op (A : Type) : Type := t -> result (A * t).

(** The meaning of a SQL string: what the store answers, given its clock,
    its tables and the bound parameters; malformed SQL is an error. *)
Definition sql_query : Type :=
  timestamp -> database -> list value -> result Frame.t.

Definition try_except {A} (body : result A) (handler : exn -> result A)
  : result A :=
  match body with
  | Ok a => Ok a
  | Err e => handler e
  end.

(** *** [execute_query] *)

Definition execute_query (self : t) (query : sql_query)
    (params : option (list value)) : result Frame.t :=
  try_except
    (rbind (store self) (fun conn =>
     rbind (match params with
            | Some (p :: ps) => query (now self) conn (p :: ps)
            | _ => query (now self) conn []
            end) (fun result =>
     Ok result)))
    (fun e => Ok Frame.empty).

(** *** The four queries as frames *)

Definition opt_real (v : option Q) : value :=
  match v with
  | Some q => VReal q
  | None => VNull
  end.

Definition customer_columns : list string :=
  ["customer_id"; "name"; "loyalty_tier"; "order_frequency";
   "avg_order_value"; "total_spent"; "days_since_last_order";
   "estimated_clv"; "customer_status"].

Definition customer_frame (rows : list Queries.customer_analytics_row)
  : Frame.t :=
  {| Frame.columns := customer_columns;
     Frame.rows :=
       map (fun row =>
              let m := Queries.ca_metrics row in
              [VInt (Queries.cm_customer_id m);
               VStr (Queries.cm_name m);
               VStr (Queries.cm_loyalty_tier m);
               VInt (Queries.cm_order_frequency m);
               VReal (Queries.cm_avg_order_value m);
               VReal (Queries.cm_total_spent m);
               opt_real (Queries.cm_days_since_last_order m);
               VReal (Queries.ca_estimated_clv row);
               VStr (Queries.ca_customer_status row)]) rows |}.

Definition clv_query : sql_query :=
  fun now db _ => Ok (customer_frame (Queries.clv_query now db)).

Definition restaurant_frame (rows : list Queries.restaurant_performance_row)
  : Frame.t :=
  {| Frame.columns :=
       ["restaurant_id"; "restaurant_name"; "city"; "cuisine_type"; "rating";
        "total_orders"; "unique_customers"; "total_revenue";
        "avg_order_value"; "avg_delivery_time"; "revenue_per_customer"];
     Frame.rows :=
       map (fun row =>
              let m := Queries.rp_metrics row in
              [VInt (Queries.rm_restaurant_id m);
               VStr (Queries.rm_restaurant_name m);
               VStr (Queries.rm_city m);
               VStr (Queries.rm_cuisine_type m);
               VReal (Queries.rm_rating m);
               VInt (Queries.rm_total_orders m);
               VInt (Queries.rm_unique_customers m);
               VReal (Queries.rm_total_revenue m);
               VReal (Queries.rm_avg_order_value m);
               VReal (Queries.rm_avg_delivery_time m);
               VReal (Queries.rp_revenue_per_customer row)]) rows |}.

Definition performance_query : sql_query :=
  fun _ db _ => Ok (restaurant_frame (Queries.performance_query db)).

Definition menu_frame (rows : list Queries.menu_analytics_row) : Frame.t :=
  {| Frame.columns :=
       ["item_id"; "item_name"; "price"; "category"; "restaurant_name";
        "cuisine_type"; "times_ordered"; "total_quantity_sold";
        "total_revenue"; "avg_rating"; "profit_margin_pct"];
     Frame.rows :=
       map (fun row =>
              [VInt (Queries.ma_item_id row);
               VStr (Queries.ma_item_name row);
               VReal (Queries.ma_price row);
               VStr (Queries.ma_category row);
               VStr (Queries.ma_restaurant_name row);
               VStr (Queries.ma_cuisine_type row);
               VInt (Queries.ma_times_ordered row);
               VReal (Queries.ma_total_quantity_sold row);
               VReal (Queries.ma_total_revenue row);
               VReal (Queries.ma_avg_rating row);
               opt_real (Queries.ma_profit_margin_pct row)]) rows |}.

Definition menu_query : sql_query :=
  fun _ db _ => Ok (menu_frame (Queries.menu_query db)).

(** [strftime('%H', ...)] and [strftime('%w', ...)] give text. *)
Definition two_digits (z : Z) : string :=
  if (z <? 10)%Z then String.append "0" (pretty z) else pretty z.

Definition time_series_frame (rows : list Queries.time_series_row)
  : Frame.t :=
  {| Frame.columns :=
       ["order_date"; "hour_of_day"; "day_of_week"; "order_count";
        "daily_revenue"; "avg_order_value"; "unique_customers";
        "avg_delivery_time"];
     Frame.rows :=
       map (fun row =>
              [VInt (Queries.ts_order_date row);
               VStr (two_digits (Queries.ts_hour_of_day row));
               VStr (pretty (Queries.ts_day_of_week row));
               VInt (Queries.ts_order_count row);
               VReal (Queries.ts_daily_revenue row);
               VReal (Queries.ts_avg_order_value row);
               VInt (Queries.ts_unique_customers row);
               opt_real (Queries.ts_avg_delivery_time row)]) rows |}.

Definition time_series_query : sql_query :=
  fun now db _ => Ok (time_series_frame (Queries.time_series_query now db)).

(** *** The loaders *)

Definition load (name : string) (query : sql_query) : op Frame.t :=
  fun self =>
    rbind (execute_query self query None) (fun data =>
    Ok (data, cache_put self name (CFrame data))).

Definition get_customer_analytics : op Frame.t :=
  load "customer_analytics" clv_query.

Definition get_restaurant_performance : op Frame.t :=
  load "restaurant_performance" performance_query.

Definition get_menu_analytics : op Frame.t :=
  load "menu_analytics" menu_query.

(** [pd.to_datetime] leaves a date as it is in this model; reading and
    writing the column still needs the column. *)
Definition get_time_series_data : op Frame.t :=
  fun self =>
    rbind (execute_query self time_series_query None) (fun time_data =>
    rbind (Frame.getitem time_data "order_date") (fun dates =>
    rbind (Frame.setitem time_data "order_date" dates) (fun time_data =>
    Ok (time_data, cache_put self "time_series" (CFrame time_data))))).

(** [self.data_cache[name]] where the engine expects a frame. *)
Definition cached_frame (self : t) (name : string) : result Frame.t :=
  match data_cache self !! name with
  | Some (CFrame df) => Ok df
  | Some _ => Err TypeError
  | None => Err KeyError
  end.

(** [if name not in self.data_cache: loader()] *)
Definition ensure {A} (name : string) (loader : op A) : op unit :=
  fun self =>
    match data_cache self !! name with
    | Some _ => Ok (tt, self)
    | None => rbind (loader self) (fun r => Ok (tt, snd r))
    end.

(** *** [customer_segmentation] *)

Notation "'do' x <- m ; k" := (rbind m (fun x => k))
  (at level 10, x name, m at level 100, k at level 200).

Definition features : list string :=
  ["order_frequency"; "avg_order_value"; "total_spent";
   "days_since_last_order"].

(** [series > 0], cell by cell. *)
Definition positive (v : value) : bool :=
  match Frame.to_Q v with
  | Some q => Qlt_bool 0 q
  | None => false
  end.

Fixpoint all_some {A} (l : list (option A)) : option (list A) :=
  match l with
  | [] => Some []
  | Some x :: rest => option_map (cons x) (all_some rest)
  | None :: _ => None
  end.

(** [df[features].values] as the estimators accept it: a matrix of
    numbers; a null or a string in it is a [ValueError]. *)
Definition feature_matrix (df : Frame.t) : result (list (list Q)) :=
  do sub <- Frame.project df features ;
  match all_some (map (fun row => all_some (map Frame.to_Q row))
                    (Frame.rows sub)) with
  | Some X => Ok X
  | None => Err ValueError
  end.

(** [silhouette_score]: defined only for more than one label and fewer
    labels than samples. *)
Definition silhouette_score `{Clustering} (X : list (list Q))
    (labels : list Z) : result Q :=
  let n_labels := length (nodup Z.eq_dec labels) in
  if (1 <? n_labels)%nat && (n_labels <? length X)%nat
  then Ok (silhouette X labels)
  else Err ValueError.

Definition Qmean (l : list Q) : Q := Qsum l / inject_Z (Z.of_nat (length l)).

(** [active_customers.groupby('cluster')[features].mean()]: per label
    that occurs, the mean of each feature over the rows carrying it. *)
Definition cluster_summary (X : list (list Q)) (labels : list Z)
  : list (Z * list Q) :=
  let labelled := combine labels X in
  map (fun c =>
         let members :=
           map snd (List.filter (fun lx => (fst lx =? c)%Z) labelled) in
         (c, map (fun i => Qmean (map (fun row => nth i row 0) members))
               (seq 0 (length features))))
    (nodup Z.eq_dec labels).

(** [cluster_summary.loc[cluster, feature]] *)
Fixpoint loc (summary : list (Z * list Q)) (cluster : Z) (feature : nat)
  : result Q :=
  match summary with
  | [] => Err KeyError
  | (c, means) :: rest =>
      if (c =? cluster)%Z then Ok (nth feature means 0)
      else loc rest cluster feature
  end.

(** [series.median()]: the middle of the sorted values, or the mean of
    the two middle ones; NaN over nothing. *)
Definition median (l : list Q) : option Q :=
  let sorted := Sql.sort_by Qle_bool l in
  let n := length sorted in
  match n with
  | O => None
  | _ =>
      if Nat.even n
      then Some ((nth (n / 2 - 1) sorted 0 + nth (n / 2) sorted 0) / 2)
      else Some (nth (n / 2) sorted 0)
  end.

(** [x >= m] where [m] may be NaN, in which case it is false. *)
Definition at_least (x : Q) (m : option Q) : bool :=
  match m with
  | Some y => Qle_bool y x
  | None => false
  end.

Definition summary_column (summary : list (Z * list Q)) (feature : nat)
  : list Q :=
  map (fun entry => nth feature (snd entry) 0) summary.

(** The body of [for cluster in range(n_clusters)]. *)
Definition segment_name (summary : list (Z * list Q)) (cluster : Z)
  : result string :=
  do freq <- loc summary cluster 0 ;
  do value <- loc summary cluster 1 ;
  do recency <- loc summary cluster 3 ;
  if at_least freq (median (summary_column summary 0))
     && at_least value (median (summary_column summary 1))
  then if Qle_bool recency 30 then Ok "Champions" else Ok "Loyal Customers"
  else if at_least freq (median (summary_column summary 0))
  then Ok "Frequent Customers"
  else if at_least value (median (summary_column summary 1))
  then Ok "High Value Customers"
  else Ok "Occasional Customers".

Fixpoint segment_names_from (summary : list (Z * list Q))
    (clusters : list nat) : result (list (Z * string)) :=
  match clusters with
  | [] => Ok []
  | cluster :: rest =>
      do name <- segment_name summary (Z.of_nat cluster) ;
      do names <- segment_names_from summary rest ;
      Ok ((Z.of_nat cluster, name) :: names)
  end.

Definition segment_names (n_clusters : nat) (summary : list (Z * list Q))
  : result (list (Z * string)) :=
  segment_names_from summary (seq 0 n_clusters).

(** [series.map(segment_names)]: a label without a name maps to NaN. *)
Definition map_names (names : list (Z * string)) (label : Z) : value :=
  match List.find (fun entry => (fst entry =? label)%Z) names with
  | Some entry => VStr (snd entry)
  | None => VNull
  end.

Definition customer_segmentation `{Clustering} (n_clusters : nat)
  : op Frame.t :=
  fun self =>
    do loaded <- ensure "customer_analytics" get_customer_analytics self ;
    let self := snd loaded in
    do customer_data <- cached_frame self "customer_analytics" ;
    do days <- Frame.getitem customer_data "days_since_last_order" ;
    do customer_data <-
      Frame.setitem customer_data "days_since_last_order"
        (Frame.fillna (VInt 999) days) ;
    do active_customers <-
      Frame.where_ customer_data "order_frequency" positive ;
    if (Frame.len active_customers <? n_clusters)%nat
    then Ok (customer_data, self)
    else
      do X <- feature_matrix active_customers ;
      do labels <- fit_predict n_clusters X ;
      do active_customers <-
        Frame.setitem active_customers "cluster" (map VInt labels) ;
      do silhouette_avg <- silhouette_score X labels ;
      let summary := cluster_summary X labels in
      do names <- segment_names n_clusters summary ;
      do active_customers <-
        Frame.setitem active_customers "segment_name"
          (map (map_names names) labels) ;
      do right <-
        Frame.project active_customers
          ["customer_id"; "cluster"; "segment_name"] ;
      do customer_data <- Frame.merge_left customer_data right "customer_id" ;
      do segment <- Frame.getitem customer_data "segment_name" ;
      do customer_data <-
        Frame.setitem customer_data "segment_name"
          (Frame.fillna (VStr "Never Ordered") segment) ;
      let self := cache_put self "customer_segments" (CFrame customer_data) in
      let self := cache_put self "customer_analytics" (CFrame customer_data) in
      do summary_columns <-
        Frame.project customer_data
          ["segment_name"; "customer_id"; "total_spent"; "order_frequency";
           "avg_order_value"] ;
      Ok (customer_data, self).

(** *** [revenue_forecasting] *)

(** [LinearRegression] on one feature, by least squares: the fitted slope
    and intercept. Fitting needs a sample; a feature that does not vary
    gets slope 0. *)
Record linear_model : Type := {
  coef : Q;
  intercept : Q
}.

Definition fit (x y : list Q) : result linear_model :=
  match x with
  | [] => Err ValueError
  | _ =>
      let x_mean := Qmean x in
      let y_mean := Qmean y in
      let sxx := Qsum (map (fun xi => (xi - x_mean) * (xi - x_mean)) x) in
      let sxy :=
        Qsum (Frame.zip_with (fun xi yi => (xi - x_mean) * (yi - y_mean)) x y) in
      let slope := if Qeq_bool sxx 0 then 0 else sxy / sxx in
      Ok {| coef := slope; intercept := y_mean - slope * x_mean |}
  end.

Definition predict (model : linear_model) (x : list Q) : list Q :=
  map (fun xi => intercept model + coef model * xi) x.

(** [model.score(X, y)], the coefficient of determination: NaN with fewer
    than two samples; with a constant target, 1 for a perfect fit and 0
    otherwise. *)
Definition score (model : linear_model) (x y : list Q) : option Q :=
  if (length y <? 2)%nat then None
  else
    let y_mean := Qmean y in
    let ss_res :=
      Qsum (Frame.zip_with (fun p yi => (yi - p) * (yi - p))
              (predict model x) y) in
    let ss_tot := Qsum (map (fun yi => (yi - y_mean) * (yi - y_mean)) y) in
    if Qeq_bool ss_tot 0
    then Some (if Qeq_bool ss_res 0 then 1 else 0)
    else Some (1 - ss_res / ss_tot).

Definition reals (l : list Q) : list value := map VReal l.

Definition revenue_forecasting (days_ahead : nat) : op cached :=
  fun self =>
    do loaded <- ensure "time_series" get_time_series_data self ;
    let self := snd loaded in
    do time_data <- cached_frame self "time_series" ;
    do daily_revenue <-
      Frame.groupby_agg time_data "order_date"
        [("daily_revenue", Frame.AggSum); ("order_count", Frame.AggSum);
         ("unique_customers", Frame.AggSum)] ;
    do revenue <- Frame.getitem daily_revenue "daily_revenue" ;
    do daily_revenue <-
      Frame.setitem daily_revenue "revenue_7day_ma"
        (reals (Frame.rolling_mean 7 (Frame.numbers revenue))) ;
    do revenue <- Frame.getitem daily_revenue "daily_revenue" ;
    do daily_revenue <-
      Frame.setitem daily_revenue "revenue_14day_ma"
        (reals (Frame.rolling_mean 14 (Frame.numbers revenue))) ;
    do dates <- Frame.getitem daily_revenue "order_date" ;
    let start :=
      match Frame.numbers dates with
      | [] => 0
      | d :: ds => fold_left Qmin ds d
      end in
    do daily_revenue <-
      Frame.setitem daily_revenue "days_since_start"
        (reals (map (fun d => d - start) (Frame.numbers dates))) ;
    do days <- Frame.getitem daily_revenue "days_since_start" ;
    let X := Frame.numbers days in
    do revenue <- Frame.getitem daily_revenue "daily_revenue" ;
    let y := Frame.numbers revenue in
    do model <- fit X y ;
    let last_day := Sql.coalesce (Frame.max days) 0 in
    let ahead := map (fun i => inject_Z (Z.of_nat i)) (seq 1 days_ahead) in
    let future_days := map (fun i => last_day + i) ahead in
    let future_revenue := predict model future_days in
    do dates <- Frame.getitem daily_revenue "order_date" ;
    let last_date := Sql.coalesce (Frame.max dates) 0 in
    let future_dates := map (fun i => last_date + i) ahead in
    let forecast_df :=
      {| Frame.columns :=
           ["order_date"; "predicted_revenue"; "days_since_start"];
         Frame.rows :=
           Frame.zip_with (fun d pf => [VReal d; VReal (fst pf); VReal (snd pf)])
             future_dates (combine future_revenue future_days) |} in
    let forecast :=
      CForecast daily_revenue forecast_df (score model X y) in
    Ok (forecast, cache_put self "revenue_forecast" forecast).

(** *** [peak_hours_analysis] *)

Definition day_names : list string :=
  ["Sunday"; "Monday"; "Tuesday"; "Wednesday"; "Thursday"; "Friday";
   "Saturday"].

(** [int(x)] on the text of a weekday number. *)
Definition digit_of (c : ascii) : option Z :=
  let n := Z.of_nat (nat_of_ascii c) in
  if (48 <=? n)%Z && (n <=? 57)%Z then Some (n - 48)%Z else None.

Fixpoint int_from (acc : Z) (s : string) : option Z :=
  match s with
  | EmptyString => Some acc
  | String c rest =>
      match digit_of c with
      | Some d => int_from (10 * acc + d) rest
      | None => None
      end
  end.

(** [day_names[int(x)]]: text that is not a number is a [ValueError], a
    number past the list an [IndexError]. *)
Definition day_name (v : value) : result value :=
  match v with
  | VStr (String c rest) =>
      match int_from 0 (String c rest) with
      | Some n =>
          match nth_error day_names (Z.to_nat n) with
          | Some name => Ok (VStr name)
          | None => Err IndexError
          end
      | None => Err ValueError
      end
  | VInt n =>
      match nth_error day_names (Z.to_nat n) with
      | Some name => Ok (VStr name)
      | None => Err IndexError
      end
  | _ => Err ValueError
  end.

Fixpoint map_result {A B} (f : A -> result B) (l : list A) : result (list B) :=
  match l with
  | [] => Ok []
  | x :: rest =>
      do y <- f x ;
      do ys <- map_result f rest ;
      Ok (y :: ys)
  end.

Definition summary_aggs : list (string * Frame.aggregation) :=
  [("order_count", Frame.AggSum); ("daily_revenue", Frame.AggSum);
   ("avg_order_value", Frame.AggMean); ("unique_customers", Frame.AggSum);
   ("avg_delivery_time", Frame.AggMean)].

(** The three largest rows by a column are only printed; what remains of
    [nlargest(3, by)[shown]] is that both columns must exist. *)
Definition nlargest_shown (df : Frame.t) (by_ shown : string) : result unit :=
  do ranked <- Frame.getitem df by_ ;
  do printed <- Frame.getitem df shown ;
  Ok tt.

Definition peak_hours_analysis : op cached :=
  fun self =>
    do loaded <- ensure "time_series" get_time_series_data self ;
    let self := snd loaded in
    do time_data <- cached_frame self "time_series" ;
    do hourly_summary <-
      Frame.groupby_agg time_data "hour_of_day" summary_aggs ;
    do daily_summary <-
      Frame.groupby_agg time_data "day_of_week" summary_aggs ;
    do weekdays <- Frame.getitem daily_summary "day_of_week" ;
    do names <- map_result day_name weekdays ;
    do daily_summary <- Frame.setitem daily_summary "day_name" names ;
    let peak := CPeak hourly_summary daily_summary in
    let self := cache_put self "peak_hours" peak in
    do peak_hours <- nlargest_shown hourly_summary "order_count" "hour_of_day" ;
    do peak_days <- nlargest_shown daily_summary "order_count" "day_name" ;
    Ok (peak, self).

(** *** [generate_business_insights] *)

(** [f"{x:.2f}"] *)
Definition two_decimals (q : Q) : string :=
  let cents := round_half_even (q * 100) in
  let sign := if (cents <? 0)%Z then "-" else "" in
  let magnitude := Z.abs cents in
  String.append sign
    (String.append (pretty (magnitude / 100)%Z)
       (String.append "." (two_digits (magnitude mod 100)%Z))).

Definition format_2f (v : option Q) : string :=
  match v with
  | Some q => two_decimals q
  | None => "nan"
  end.

(** [f"{row[c]:.2f}"]: text cannot be formatted as a float. *)
Definition format_cell_2f (v : value) : result string :=
  match v with
  | VStr _ => Err ValueError
  | _ => Ok (format_2f (Frame.to_Q v))
  end.

(** [f"{row[c]}"] *)
Definition format_cell (v : value) : string :=
  match v with
  | VNull => "nan"
  | VInt z => pretty z
  | VReal q => two_decimals q
  | VStr s => s
  end.

Definition is_text (s : string) (v : value) : bool :=
  match v with
  | VStr s' => String.eqb s' s
  | _ => false
  end.

Fixpoint concat_strings (l : list string) : string :=
  match l with
  | [] => ""
  | s :: rest => String.append s (concat_strings rest)
  end.

Definition customer_insights (self : t) : result (list string) :=
  match data_cache self !! "customer_analytics" with
  | None => Ok []
  | Some entry =>
      do customer_data <-
        match entry with CFrame df => Ok df | _ => Err TypeError end ;
      do clv <- Frame.getitem customer_data "estimated_clv" ;
      let avg_clv := Frame.mean clv in
      do spent <- Frame.getitem customer_data "total_spent" ;
      let top_customer_value := Frame.max spent in
      do active <-
        Frame.where_ customer_data "customer_status" (is_text "Active") ;
      do at_risk <-
        Frame.where_ customer_data "customer_status" (is_text "At Risk") ;
      Ok [concat_strings ["💰 Average customer lifetime value: $";
                          format_2f avg_clv];
          concat_strings ["🌟 Highest spending customer: $";
                          format_2f top_customer_value];
          concat_strings ["✅ Active customers: ";
                          pretty (Frame.len active)];
          concat_strings ["⚠️ At-risk customers: ";
                          pretty (Frame.len at_risk)]]
  end.

Definition restaurant_insights (self : t) : result (list string) :=
  match data_cache self !! "restaurant_performance" with
  | None => Ok []
  | Some entry =>
      do restaurant_data <-
        match entry with CFrame df => Ok df | _ => Err TypeError end ;
      do top_restaurant <- Frame.iloc0 restaurant_data ;
      do ratings <- Frame.getitem restaurant_data "rating" ;
      let avg_rating := Frame.mean ratings in
      do top_name <- Frame.row_get top_restaurant "restaurant_name" ;
      do top_revenue <- Frame.row_get top_restaurant "total_revenue" ;
      do top_revenue <- format_cell_2f top_revenue ;
      Ok [concat_strings ["🏆 Top performing restaurant: ";
                          format_cell top_name; " ($"; top_revenue; ")"];
          concat_strings ["⭐ Average restaurant rating: ";
                          format_2f avg_rating]]
  end.

Definition peak_insights (self : t) : result (list string) :=
  match data_cache self !! "peak_hours" with
  | None => Ok []
  | Some entry =>
      do hourly_data <-
        match entry with CPeak hourly _ => Ok hourly | _ => Err TypeError end ;
      do counts <- Frame.getitem hourly_data "order_count" ;
      do busiest <- Frame.idxmax counts ;
      do hours <- Frame.getitem hourly_data "hour_of_day" ;
      match nth_error hours busiest with
      | Some peak_hour =>
          Ok [concat_strings ["⏰ Peak ordering hour: ";
                              format_cell peak_hour; ":00"]]
      | None => Err KeyError
      end
  end.

Definition menu_insights (self : t) : result (list string) :=
  match data_cache self !! "menu_analytics" with
  | None => Ok []
  | Some entry =>
      do menu_data <-
        match entry with CFrame df => Ok df | _ => Err TypeError end ;
      do top_item <- Frame.iloc0 menu_data ;
      do item_name <- Frame.row_get top_item "item_name" ;
      do revenue <- Frame.row_get top_item "total_revenue" ;
      do revenue <- format_cell_2f revenue ;
      Ok [concat_strings ["🍕 Best selling item: "; format_cell item_name;
                          " ($"; revenue; " revenue)"]]
  end.

Definition generate_business_insights : op (list string) :=
  fun self =>
    do customer <- customer_insights self ;
    do restaurant <- restaurant_insights self ;
    do peak <- peak_insights self ;
    do menu <- menu_insights self ;
    let insights := customer ++ restaurant ++ peak ++ menu in
    Ok (insights, cache_put self "insights" (CInsights insights)).

(** *** [run_complete_analysis] *)

(** "Load all data": the four loaders in turn. *)
Definition load_all_data : op unit :=
  fun self =>
    do customers <- get_customer_analytics self ;
    do restaurants <- get_restaurant_performance (snd customers) ;
    do menu <- get_menu_analytics (snd restaurants) ;
    do series <- get_time_series_data (snd menu) ;
    Ok (tt, snd series).

(** The pipeline up to the insights; the dashboard figure and the export
    that follow only read the cache. The [except] clause re-raises. *)
Definition run_complete_analysis `{Clustering} : op (list string) :=
  fun self =>
    do loaded <- load_all_data self ;
    do segments <- customer_segmentation 4 (snd loaded) ;
    do forecast <- revenue_forecasting 7 (snd segments) ;
    do peak <- peak_hours_analysis (snd forecast) ;
    generate_business_insights (snd peak).

End Engine.

(** ** Vocabulary of the generated data set *)

(** The price and cost bounds of a menu item, with one cent of slack for
    the two roundings. *)
Definition menu_item_bounds (mi : menu_item_row) : Prop :=
  8.99 <= mi_price mi <= 24.99 /\
  0.25 * mi_price mi - 0.01 <= mi_cost_to_make mi
    <= 0.45 * mi_price mi + 0.01.

(** The order items of an order: the rows of [order_items] carrying its
    [order_id]. *)
Definition order_lines (order_items : list order_item) (o : order)
  : list order_item :=
  List.filter (fun oi => (oi_order_id oi =? o_order_id o)%Z) order_items.

Definition line_total (oi : order_item) : Q :=
  inject_Z (oi_quantity oi) * oi_unit_price oi.

(** The subtotal of an order: the sum of [quantity * unit_price] over its
    items. *)
Definition order_subtotal (lines : list order_item) : Q :=
  fold_right Qplus 0 (map line_total lines).

(** The menu item an order item references, as a row of [menu_items]. *)
Definition references (menu_items_df : list menu_item) (o : order)
    (oi : order_item) : Prop :=
  exists mi, In mi menu_items_df /\
             mi_item_id mi = oi_item_id oi /\
             mi_restaurant_id (mi_row mi) = o_restaurant_id o /\
             mi_is_available (mi_row mi) = 1%Z.

(** The available menu items of a restaurant, as [generate_orders_and_items]
    selects them. *)
Definition available_items (menu_items_df : list menu_item) (rid : Z)
  : list menu_item :=
  List.filter
    (fun mi => (mi_restaurant_id (mi_row mi) =? rid)%Z
               && (mi_is_available (mi_row mi) =? 1)%Z)
    menu_items_df.

(** What one turn of the order loop establishes for the order it appends
    and the order items it appends with it. *)
Record order_ok (menu_items_df : list menu_item) (order_id : Z)
    (o : order) (lines : list order_item) : Prop := {
  ok_order_id : o_order_id o = order_id;
  ok_line_ids : Forall (fun oi => oi_order_id oi = order_id) lines;
  ok_total :
    Qabs (o_total_amount o -
          (order_subtotal lines + o_delivery_fee o + o_tax_amount o
           + o_tip_amount o - o_discount_amount o)) <= 1 # 200;
  ok_delivery :
    if String.eqb (o_status o) "completed"
    then exists m, o_delivery_time_minutes o = Some m /\ (20 <= m <= 60)%Z
    else o_delivery_time_minutes o = None;
  ok_selected :
    exists selected rest,
      map oi_item_id lines = map mi_item_id selected /\
      Permutation (available_items menu_items_df (o_restaurant_id o))
                  (selected ++ rest);
  ok_count : (1 <= length lines <= 5)%nat
}.

(** ** Vocabulary of the metrics *)

(** The completed orders of a customer, and of a restaurant. *)
Definition completed (o : order) : bool := String.eqb (o_status o) "completed".

Definition completed_orders_of_customer (db : database) (c : customer)
  : list order :=
  List.filter (fun o => completed o && (o_customer_id o =? c_customer_id c)%Z)
    (orders db).

Definition completed_orders_of_restaurant (db : database) (r : restaurant)
  : list order :=
  List.filter
    (fun o => completed o && (o_restaurant_id o =? r_restaurant_id r)%Z)
    (orders db).

(** The mean of a list of amounts, 0 over no amount. *)
Definition mean (l : list Q) : Q :=
  match l with
  | [] => 0
  | _ => Qsum l / inject_Z (Z.of_nat (length l))
  end.

(** [last] is a most recent order of [os]. *)
Definition latest (os : list order) (last : order) : Prop :=
  In last os /\ forall o, In o os -> o_order_date o <= o_order_date last.

(** The delivery times recorded on a list of orders. *)
Definition delivery_times (os : list order) : list Q :=
  flat_map (fun o => match o_delivery_time_minutes o with
                     | Some minutes => [inject_Z minutes]
                     | None => []
                     end) os.

(** The number of distinct customers of a list of orders. *)
Definition distinct_customers (os : list order) : Z :=
  Z.of_nat (length (nodup Z.eq_dec (map o_customer_id os))).

Definition active_restaurants (db : database) : list restaurant :=
  List.filter (fun r => (r_is_active r =? 1)%Z) (restaurants db).

(** ** Vocabulary of the segmentation *)

(** The rows of the feature matrix that carry a label. *)
Definition members (X : list (list Q)) (labels : list Z) (c : Z)
  : list (list Q) :=
  map snd (List.filter (fun lx => (fst lx =? c)%Z) (combine labels X)).



(** Feature [i] over the whole population. *)
Definition population (X : list (list Q)) (i : nat) : list Q :=
  map (fun row => nth i row 0) X.


(** The labels of the segmented table. *)
Definition segmented_columns : list string :=
  Engine.customer_columns ++ ["cluster"; "segment_name"].

(** The rows of a customer table with a positive order frequency, its
    fourth column. *)
Definition active_rows (df : Frame.t) : list (list value) :=
  List.filter (fun row => Engine.positive (Frame.cell 3 row)) (Frame.rows df).

(** ** A concrete random source

    A linear congruential generator, used to run the generator on concrete
    inputs. *)

Module Lcg.

Definition modulus : Z := 2147483648.

Definition next (g : Z) : Z := ((g * 1103515245 + 12345) mod modulus)%Z.

Definition unit_draw (g : Z) : Q * Z := (Qmake (next g) (Z.to_pos modulus), next g).

Definition below (n : Z) (g : Z) : Z * Z := ((next g / 65536) mod n, next g)%Z.

Definition below_nat (n : nat) (g : Z) : nat * Z :=
  (Z.to_nat ((next g / 65536) mod Z.of_nat n), next g).

Definition exponential (scale : Q) (g : Z) : Q * Z :=
  (scale * Qmake (next g) (Z.to_pos (modulus / 4)), next g).

Definition sentence (g : Z) : string * Z := ("Extra napkins please.", next g).

End Lcg.

(** ** A small concrete data set *)

Module Demo.

Definition customers : list customer := [
  {| c_customer_id := 1; c_name := "Ada"; c_loyalty_tier := "Gold";
     c_is_active := 1 |};
  {| c_customer_id := 2; c_name := "Ben"; c_loyalty_tier := "Bronze";
     c_is_active := 1 |};
  {| c_customer_id := 3; c_name := "Cleo"; c_loyalty_tier := "Silver";
     c_is_active := 0 |};
  {| c_customer_id := 4; c_name := "Dev"; c_loyalty_tier := "Bronze";
     c_is_active := 1 |};
  {| c_customer_id := 5; c_name := "Eve"; c_loyalty_tier := "Platinum";
     c_is_active := 1 |}
].

Definition restaurants : list restaurant := [
  {| r_restaurant_id := 1; r_name := "Mama's Kitchen"; r_city := "New York";
     r_cuisine_type := "Italian"; r_rating := 4.5; r_is_active := 1;
     r_created_date := 19000 |};
  {| r_restaurant_id := 2; r_name := "Dragon Palace"; r_city := "Chicago";
     r_cuisine_type := "Korean"; r_rating := 3.9; r_is_active := 1;
     r_created_date := 19100 |}
].

Definition item (id rid : Z) (name : string) (price cost : Q) (available : Z)
  : menu_item :=
  {| mi_item_id := id;
     mi_row := {| mi_restaurant_id := rid; mi_item_name := name;
                  mi_description := ""; mi_price := price;
                  mi_category := "Main"; mi_is_available := available;
                  mi_calories := 400; mi_prep_time_minutes := 15;
                  mi_created_date := 19200; mi_cost_to_make := cost;
                  mi_is_popular := 0 |} |}.

Definition menu_items : list menu_item := [
  item 1 1 "Margherita Pizza" 12.50 4.00 1;
  item 2 1 "Tiramisu" 8.99 3.10 1;
  item 3 1 "Caesar Salad" 9.75 2.90 0;
  item 4 2 "House Special" 18.00 6.30 1;
  item 5 2 "Garden Salad" 10.25 3.00 1;
  item 6 2 "Soup of the Day" 9.10 2.50 1
].

Definition now : timestamp := 20000.

Definition order_row (id cid rid : Z) (date : timestamp) (total : Q)
    (status : string) (minutes : option Z) : order :=
  {| o_order_id := id; o_customer_id := cid; o_restaurant_id := rid;
     o_order_date := date; o_total_amount := total; o_status := status;
     o_delivery_fee := 2.99; o_tax_amount := 1.50; o_tip_amount := 0;
     o_delivery_time_minutes := minutes; o_payment_method := "cash";
     o_order_source := "app"; o_discount_amount := 0 |}.

Definition orders : list order := [
  order_row 1 1 1 19990 31.67 "completed" (Some 35%Z);
  order_row 2 1 2 19950 15.02 "completed" (Some 50%Z);
  order_row 3 2 1 19900 40.00 "completed" (Some 25%Z);
  order_row 4 2 2 19999 22.10 "pending" None;
  order_row 5 1 1 19995 18.31 "completed" (Some 45%Z);
  order_row 6 4 2 19960 27.40 "completed" (Some 30%Z);
  order_row 7 5 1 19985 12.80 "completed" (Some 22%Z);
  order_row 8 5 2 19998 55.25 "completed" (Some 41%Z)
].

Definition order_items : list order_item := [
  {| oi_order_id := 1; oi_item_id := 1; oi_quantity := 2;
     oi_unit_price := 12.50; oi_special_instructions := None;
     oi_item_rating := Some 5%Z |};
  {| oi_order_id := 2; oi_item_id := 5; oi_quantity := 1;
     oi_unit_price := 10.25; oi_special_instructions := None;
     oi_item_rating := None |};
  {| oi_order_id := 3; oi_item_id := 2; oi_quantity := 3;
     oi_unit_price := 8.99; oi_special_instructions := None;
     oi_item_rating := Some 4%Z |}
].

Definition db : database :=
  Build_database customers restaurants menu_items orders order_items.



(** A stand-in for the clustering library, to run the engine: sample [i]
    goes to cluster [i mod n_clusters]; like [KMeans], it rejects a matrix
    with fewer samples than clusters. *)
Definition round_robin : Engine.Clustering :=
  {| Engine.fit_predict := fun n_clusters X =>
       if (n_clusters =? 0)%nat || (length X <? n_clusters)%nat
       then Err ValueError
       else Ok (map (fun i => Z.of_nat (i mod n_clusters))
                  (seq 0 (length X)));
     Engine.silhouette := fun _ _ => 0.5 |}.

(** A freshly constructed engine on the small store. *)
Definition engine : Engine.t :=
  {| Engine.store := Ok db;
     Engine.now := now;
     Engine.data_cache := ∅ |}.

(** A store whose schema was created and never populated, and a freshly
    constructed engine on it. *)
Definition empty_db : database := Build_database [] [] [] [] [].

Definition empty_engine : Engine.t :=
  {| Engine.store := Ok empty_db;
     Engine.now := now;
     Engine.data_cache := ∅ |}.

(** An engine whose store cannot be reached. *)
Definition unavailable : Engine.t :=
  {| Engine.store := Err OperationalError;
     Engine.now := now;
     Engine.data_cache := ∅ |}.

End Demo.

(** A menu without any available item. *)
Definition sold_out : list menu_item :=
  [Demo.item 1 1 "Margherita Pizza" 12.50 4.00 0;
   Demo.item 2 2 "House Special" 18.00 6.30 0].

(** ** Vocabulary of the time series *)

(** The completed orders of the last 90 days, the rows the time series is
    computed from. *)
Definition recent_completed_orders (now : timestamp) (db : database)
  : list order :=
  List.filter
    (fun o => completed o
              && (Queries.date_of now - 90 <=? Queries.date_of (o_order_date o))%Z)
    (orders db).

(** The orders of a list placed on a date in an hour. *)
Definition orders_at (date hour : Z) (os : list order) : list order :=
  List.filter
    (fun o => (Queries.date_of (o_order_date o) =? date)%Z
              && (Queries.hour_of (o_order_date o) =? hour)%Z) os.

Definition Zsum (l : list Z) : Z := fold_right Z.add 0%Z l.

(** Date first, then hour: the order of the time series. *)
Definition by_date_and_hour (a b : Queries.time_series_row) : Prop :=
  (Queries.ts_order_date a < Queries.ts_order_date b)%Z \/
  (Queries.ts_order_date a = Queries.ts_order_date b /\
   (Queries.ts_hour_of_day a <= Queries.ts_hour_of_day b)%Z).

(** ** Vocabulary of the menu analytics *)

(** The order items that name a menu item, whatever the status of their
    order. *)
Definition lines_of_item (db : database) (mi : menu_item) : list order_item :=
  List.filter (fun oi => (mi_item_id mi =? oi_item_id oi)%Z) (order_items db).

(** The ratings given on a list of order items. *)
Definition item_ratings (lines : list order_item) : list Q :=
  flat_map (fun oi => match oi_item_rating oi with
                      | Some stars => [inject_Z stars]
                      | None => []
                      end) lines.

(** The menu items the analytics list: available, and of a restaurant of
    the table. *)
Definition listed_items (db : database) : list menu_item :=
  List.filter
    (fun mi => (mi_is_available (mi_row mi) =? 1)%Z
               && existsb (fun r => (mi_restaurant_id (mi_row mi)
                                     =? r_restaurant_id r)%Z)
                    (restaurants db))
    (menu_items db).

(** ** Vocabulary of the engine *)

(** The rows of the customer value metrics with a completed order. *)
Definition active_customer_rows (now : timestamp) (db : database)
  : list Queries.customer_analytics_row :=
  List.filter
    (fun row => (0 <? Queries.cm_order_frequency (Queries.ca_metrics row))%Z)
    (Queries.clv_query now db).

(** A row of the customer table with a missing recency filled by 999. *)
Definition fill_recency (row : list value) : list value :=
  <[6%nat := match Frame.cell 6 row with
             | VNull => VInt 999
             | _ => Frame.cell 6 row
             end]> row.

(** The customer table as the segmentation returns it when it does not
    segment. *)
Definition unsegmented (data : Frame.t) : Frame.t :=
  {| Frame.columns := Frame.columns data;
     Frame.rows := map fill_recency (Frame.rows data) |}.


(** ** Vocabulary of the forecast *)

(** The dates of the completed orders of the last 90 days. *)
Definition window_dates (now : timestamp) (db : database) : list Z :=
  map (fun o => Queries.date_of (o_order_date o))
    (recent_completed_orders now db).

Definition greatest (z : Z) (l : list Z) : Prop :=
  In z l /\ forall x, In x l -> (x <= z)%Z.

Definition least (z : Z) (l : list Z) : Prop :=
  In z l /\ forall x, In x l -> (z <= x)%Z.

Definition daily_columns : list string :=
  ["order_date"; "daily_revenue"; "order_count"; "unique_customers";
   "revenue_7day_ma"; "revenue_14day_ma"; "days_since_start"].


(** The orders of a list placed on a date. *)
Definition orders_on (date : Z) (os : list order) : list order :=
  List.filter (fun o => (Queries.date_of (o_order_date o) =? date)%Z) os.





(** * Properties *)

(** ** Currency rounding *)

Lemma round_half_even_close (x : Q) :
  Qabs (inject_Z (round_half_even x) - x) <= 1 # 2.
Proof.
  unfold round_half_even.
  pose proof (Qfloor_le x) as Hlo.
  pose proof (Qlt_floor x) as Hhi.
  rewrite inject_Z_plus in Hhi. change (inject_Z 1) with 1 in Hhi.
  apply Qabs_Qle_condition.
  destruct (Qcompare (x - inject_Z (Qfloor x)) (1 # 2)) eqn:Hc.
  - apply Qeq_alt in Hc.
    destruct (Z.even (Qfloor x));
      [|rewrite inject_Z_plus; change (inject_Z 1) with 1]; split; lra.
  - apply Qlt_alt in Hc. split; lra.
  - apply Qgt_alt in Hc. rewrite inject_Z_plus.
    change (inject_Z 1) with 1. split; lra.
Qed.

Lemma round2_close (x : Q) : Qabs (round2 x - x) <= 1 # 200.
Proof.
  unfold round2.
  pose proof (round_half_even_close (x * 100)) as H.
  apply Qabs_Qle_condition in H. apply Qabs_Qle_condition.
  set (n := inject_Z (round_half_even (x * 100))) in *.
  unfold Qdiv. change (/ 100) with (1 # 100).
  split; lra.
Qed.

Lemma round_half_even_mono_Z (x : Q) (k : Z) :
  inject_Z k <= x -> (k <= round_half_even x)%Z.
Proof.
  intros H. unfold round_half_even.
  assert (k <= Qfloor x)%Z as Hk.
  { rewrite <- (Qfloor_Z k). now apply Qfloor_resp_le. }
  destruct (Qcompare _ _); [destruct (Z.even _)|..]; lia.
Qed.

Lemma round_half_even_le_Z (x : Q) (k : Z) :
  x <= inject_Z k -> (round_half_even x <= k)%Z.
Proof.
  intros H. unfold round_half_even.
  assert (Qfloor x <= k)%Z as Hk.
  { rewrite <- (Qfloor_Z k). now apply Qfloor_resp_le. }
  destruct (Z.eq_dec (Qfloor x) k) as [->|Hne].
  - assert (x - inject_Z k <= 0) as Hr by lra.
    destruct (Qcompare (x - inject_Z k) (1 # 2)) eqn:Hc.
    + apply Qeq_alt in Hc. lra.
    + lia.
    + apply Qgt_alt in Hc. lra.
  - destruct (Qcompare _ _); [destruct (Z.even _)|..]; lia.
Qed.

(** ** The concrete random source meets the documented ranges *)

Lemma Lcg_next_range (g : Z) : (0 <= Lcg.next g < Lcg.modulus)%Z.
Proof. unfold Lcg.next. apply Z.mod_pos_bound. reflexivity. Qed.

Lemma Lcg_unit_draw_range (g : Z) : 0 <= fst (Lcg.unit_draw g) < 1.
Proof.
  pose proof (Lcg_next_range g) as H. unfold Lcg.modulus in H.
  unfold Lcg.unit_draw, Qle, Qlt. simpl. lia.
Qed.

Lemma Lcg_below_range (n g : Z) :
  (0 < n)%Z -> (0 <= fst (Lcg.below n g) < n)%Z.
Proof. intros Hn. unfold Lcg.below. simpl. now apply Z.mod_pos_bound. Qed.

Lemma Lcg_below_nat_range (n : nat) (g : Z) :
  (0 < n)%nat -> (fst (Lcg.below_nat n g) < n)%nat.
Proof.
  intros Hn. unfold Lcg.below_nat. simpl.
  pose proof (Z.mod_pos_bound (Lcg.next g / 65536) (Z.of_nat n)) as H.
  lia.
Qed.

Definition lcg_source : Generator.RandomSource := {|
  Generator.rng := Z;
  Generator.py_random := Lcg.unit_draw;
  Generator.py_random_range := Lcg_unit_draw_range;
  Generator.py_randbelow := Lcg.below;
  Generator.py_randbelow_range := Lcg_below_range;
  Generator.np_random_sample := Lcg.unit_draw;
  Generator.np_randbelow := Lcg.below_nat;
  Generator.np_randbelow_range := Lcg_below_nat_range;
  Generator.np_exponential := Lcg.exponential;
  Generator.fake_sentence := Lcg.sentence
|}.

(** ** The generator monad *)

Section GeneratorProperties.

Import Generator.
Context {RS : RandomSource}.

Lemma gbind_Ok {A B} (m : gen A) (k : A -> gen B) g b g' :
  gbind m k g = Ok (b, g') ->
  exists a g1, m g = Ok (a, g1) /\ k a g1 = Ok (b, g').
Proof.
  unfold gbind. destruct (m g) as [[a g1]|e]; [eauto|discriminate].
Qed.

Lemma gret_Ok {A} (a b : A) g g' : gret a g = Ok (b, g') -> b = a /\ g' = g.
Proof. unfold gret. intros H. inversion H. auto. Qed.

Lemma draw_Ok {A} (f : rng -> A * rng) g a g' :
  draw f g = Ok (a, g') -> a = fst (f g) /\ g' = snd (f g).
Proof. unfold draw. intros H. inversion H as [E]. rewrite E. auto. Qed.

Lemma gmapM_Forall {A B} (f : A -> gen B) (P : B -> Prop) :
  (forall x g y g', f x g = Ok (y, g') -> P y) ->
  forall l g ys g', gmapM f l g = Ok (ys, g') -> Forall P ys.
Proof.
  intros Hf. induction l as [|x t IH]; simpl; intros g ys g' H.
  - apply gret_Ok in H as [-> _]. constructor.
  - apply gbind_Ok in H as (y & g1 & Hy & H).
    apply gbind_Ok in H as (ys' & g2 & Hys & H).
    apply gret_Ok in H as [-> _].
    constructor; eauto.
Qed.

Lemma uniform_range (a b : Q) g x g' :
  a <= b -> uniform a b g = Ok (x, g') -> a <= x <= b.
Proof.
  intros Hab H. unfold uniform in H.
  apply gbind_Ok in H as (u & g1 & Hu & H).
  apply draw_Ok in Hu as [-> _]. apply gret_Ok in H as [-> _].
  pose proof (py_random_range g) as [H0 H1].
  split; nra.
Qed.

Lemma randint_range (a b : Z) g x g' :
  (a <= b)%Z -> randint a b g = Ok (x, g') -> (a <= x <= b)%Z.
Proof.
  intros Hab H. unfold randint in H.
  apply gbind_Ok in H as (r & g1 & Hr & H).
  apply draw_Ok in Hr as [-> _]. apply gret_Ok in H as [-> _].
  pose proof (py_randbelow_range (b - a + 1) g ltac:(lia)). lia.
Qed.

(** Peel one [do] off a successful run. *)
Ltac gstep H x g Hx :=
  apply gbind_Ok in H as (x & g & Hx & H).

Lemma round2_between (lo hi : Z) (x : Q) :
  inject_Z lo / 100 <= x <= inject_Z hi / 100 ->
  inject_Z lo / 100 <= round2 x <= inject_Z hi / 100.
Proof.
  intros [Hlo Hhi]. unfold round2.
  assert (inject_Z lo <= x * 100) as Hl.
  { unfold Qdiv in Hlo. change (/ 100) with (1 # 100) in Hlo. lra. }
  assert (x * 100 <= inject_Z hi) as Hh.
  { unfold Qdiv in Hhi. change (/ 100) with (1 # 100) in Hhi. lra. }
  apply round_half_even_mono_Z in Hl. apply round_half_even_le_Z in Hh.
  rewrite Zle_Qle in Hl, Hh.
  unfold Qdiv. change (/ 100) with (1 # 100). split; lra.
Qed.

Lemma generate_menu_item_bounds restaurant it g mi g' :
  generate_menu_item restaurant it g = Ok (mi, g') -> menu_item_bounds mi.
Proof.
  destruct it as [[[item_name description] category] base_calories].
  unfold generate_menu_item. intros H.
  gstep H base_price g1 Hp. gstep H ratio g2 Hr.
  gstep H avail g3 Ha. gstep H cal g4 Hc. gstep H prep g5 Hpr.
  gstep H days g6 Hd. gstep H pop g7 Hpop.
  apply gret_Ok in H as [-> _].
  apply uniform_range in Hp; [|lra]. apply uniform_range in Hr; [|lra].
  unfold menu_item_bounds; simpl.
  pose proof (round2_close base_price) as Hcp.
  pose proof (round2_close (base_price * ratio)) as Hcc.
  apply Qabs_Qle_condition in Hcp, Hcc.
  split.
  - apply (round2_between 899 2499). exact Hp.
  - split; nra.
Qed.

Lemma generate_restaurant_menu_bounds restaurant g items g' :
  generate_restaurant_menu restaurant g = Ok (items, g') ->
  Forall menu_item_bounds items.
Proof.
  unfold generate_restaurant_menu. intros H.
  gstep H n g1 Hn. gstep H sel g2 Hs. gstep H sel' g3 Hs'.
  eapply gmapM_Forall; [|exact H].
  intros x g0 y g0'. apply generate_menu_item_bounds.
Qed.

(** *** Sampling without replacement *)

Lemma remove_nth_perm {A} (l : list A) i x :
  nth_error l i = Some x -> Permutation l (x :: remove_nth i l).
Proof.
  revert i. induction l as [|y t IH]; intros [|i] H; simpl in *;
    try discriminate.
  - inversion H. reflexivity.
  - rewrite (IH _ H) at 1. apply perm_swap.
Qed.

Lemma draw_rows_spec {A} n : forall (rows : list A) g sel g',
  draw_rows n rows g = Ok (sel, g') ->
  length sel = n /\ exists rest, Permutation rows (sel ++ rest).
Proof.
  induction n as [|n IH]; simpl; intros rows g sel g' H.
  - apply gret_Ok in H as [-> _]. split; [reflexivity|].
    exists rows. reflexivity.
  - gstep H i g1 Hi.
    destruct (nth_error rows i) as [x|] eqn:Hx; [|discriminate].
    gstep H rest g2 Hrest. apply gret_Ok in H as [-> _].
    apply IH in Hrest as [Hlen [others Hperm]].
    split; [simpl; congruence|].
    exists others. rewrite (remove_nth_perm _ _ _ Hx). simpl.
    now apply perm_skip.
Qed.

Lemma df_sample_spec {A} (rows : list A) n g sel g' :
  df_sample rows n g = Ok (sel, g') ->
  length sel = n /\ exists rest, Permutation rows (sel ++ rest).
Proof.
  unfold df_sample. destruct (length rows <? n)%nat; [discriminate|].
  apply draw_rows_spec.
Qed.

Lemma np_choice_In {A} (a : list A) p g x g' :
  np_choice a p g = Ok (x, g') -> In x a.
Proof.
  unfold np_choice. destruct a as [|y ys]; [discriminate|].
  destruct (negb _); [discriminate|]. destruct (negb _); [discriminate|].
  intros H. gstep H u g1 Hu. apply gret_Ok in H as [-> _].
  destruct (Nat.lt_ge_cases (searchsorted p 0 u) (length (y :: ys))) as [Hlt|Hge].
  - now apply nth_In.
  - rewrite nth_overflow by exact Hge.
    destruct ys as [|z zs]; [now left|].
    right.
    change (In (List.last (z :: zs) y) (z :: zs)).
    clear. revert z. induction zs as [|w ws IH]; intros z.
    + now left.
    + right. apply IH.
Qed.

(** *** One order *)

Lemma generate_order_item_spec order_id status item g oi g' :
  generate_order_item order_id status item g = Ok (oi, g') ->
  oi_order_id oi = order_id /\
  oi_item_id oi = mi_item_id item /\
  oi_unit_price oi = mi_price (mi_row item) /\
  In (oi_quantity oi) [1; 2; 3]%Z.
Proof.
  unfold generate_order_item. intros H.
  gstep H quantity g1 Hq. gstep H r g2 Hr.
  gstep H special g3 Hs. gstep H rating g4 Hrt.
  apply gret_Ok in H as [-> _]. simpl.
  apply np_choice_In in Hq. auto.
Qed.

Lemma order_subtotal_app (l1 l2 : list order_item) :
  order_subtotal (l1 ++ l2) == order_subtotal l1 + order_subtotal l2.
Proof.
  unfold order_subtotal. induction l1 as [|x t IH]; simpl.
  - lra.
  - rewrite map_app in *. rewrite IH. lra.
Qed.

Lemma order_items_loop_spec order_id status :
  forall selected subtotal acc g subtotal' items g',
    order_items_loop order_id status selected subtotal acc g
      = Ok ((subtotal', items), g') ->
    exists new,
      items = acc ++ new /\
      subtotal' == subtotal + order_subtotal new /\
      map oi_item_id new = map mi_item_id selected /\
      Forall (fun oi => oi_order_id oi = order_id) new.
Proof.
  induction selected as [|item rest IH]; simpl;
    intros subtotal acc g subtotal' items g' H.
  - apply gret_Ok in H as [E _]. inversion E; subst.
    exists []. rewrite app_nil_r. repeat split; auto.
    unfold order_subtotal; simpl; lra.
  - gstep H oi g1 Hoi.
    apply generate_order_item_spec in Hoi as (Hid & Hitem & _ & _).
    apply IH in H as (new & -> & Hsub & Hmap & Hall).
    exists (oi :: new). rewrite <- app_assoc. simpl.
    repeat split.
    + rewrite Hsub. change (oi :: new) with ([oi] ++ new).
      rewrite order_subtotal_app. unfold order_subtotal at 2, line_total.
      simpl. lra.
    + congruence.
    + constructor; assumption.
Qed.

Lemma generate_order_spec now customers_df restaurants_df menu_items_df
    order_id g o lines g' :
  generate_order now customers_df restaurants_df menu_items_df order_id g
    = Ok (Some (o, lines), g') ->
  order_ok menu_items_df order_id o lines.
Proof.
  unfold generate_order. intros H.
  gstep H cst g1 Hc. gstep H rst g2 Hr.
  gstep H days_ago g3 Hd. gstep H hour g4 Hh. gstep H minute g5 Hm.
  gstep H status g6 Hst.
  fold (available_items menu_items_df (r_restaurant_id rst)) in H.
  set (restaurant_items :=
         available_items menu_items_df (r_restaurant_id rst)) in *.
  destruct (length restaurant_items =? 0)%nat eqn:Hlen.
  { apply gret_Ok in H as [E _]. discriminate. }
  apply Nat.eqb_neq in Hlen.
  gstep H num_items g7 Hn. gstep H selected g8 Hsel.
  gstep H looped g9 Hloop. destruct looped as [subtotal items].
  gstep H fee g10 Hfee. gstep H tip g11 Htip. gstep H r g12 Hrnd.
  gstep H discount g13 Hdisc. gstep H minutes g14 Hmin.
  gstep H payment g15 Hpay. gstep H source g16 Hsrc.
  apply gret_Ok in H as [E _]. inversion E; subst o lines; clear E.
  clear Hc Hr Hd Hh Hm Hst Hfee Htip Hrnd Hdisc Hpay Hsrc.
  apply np_choice_In in Hn.
  apply df_sample_spec in Hsel as [Hsellen [rest Hperm]].
  apply order_items_loop_spec in Hloop as (new & -> & Hsub & Hmap & Hall).
  rewrite app_nil_l.
  assert (length new = length selected) as Hnewlen.
  { rewrite <- (length_map oi_item_id new), Hmap. apply length_map. }
  constructor;
    cbn [o_order_id o_restaurant_id o_total_amount o_status o_delivery_fee
         o_tax_amount o_tip_amount o_delivery_time_minutes
         o_discount_amount].
  - reflexivity.
  - exact Hall.
  - match goal with |- Qabs (round2 ?t - _) <= _ =>
      pose proof (round2_close t) as Hc' end.
    apply Qabs_Qle_condition in Hc'. apply Qabs_Qle_condition.
    split; lra.
  - destruct (String.eqb status "completed").
    + gstep Hmin m gm Hm'. apply gret_Ok in Hmin as [-> _].
      apply randint_range in Hm'; [|lia]. eauto.
    + apply gret_Ok in Hmin as [-> _]. reflexivity.
  - exists selected, rest. split; assumption.
  - rewrite Hnewlen, Hsellen.
    simpl in Hn. lia.
Qed.

(** *** The loop over order ids *)

Lemma filter_keeps_all {A} (f : A -> bool) (l : list A) :
  Forall (fun x => f x = true) l -> List.filter f l = l.
Proof.
  induction 1 as [|x t Hx _ IH]; simpl; [reflexivity|].
  now rewrite Hx, IH.
Qed.

Lemma filter_keeps_none {A} (f : A -> bool) (l : list A) :
  Forall (fun x => f x = false) l -> List.filter f l = [].
Proof.
  induction 1 as [|x t Hx _ IH]; simpl; [reflexivity|].
  now rewrite Hx, IH.
Qed.

Lemma orders_loop_spec now customers_df restaurants_df menu_items_df :
  forall count order_id orders0 items0 g orders order_items g',
    orders_loop now customers_df restaurants_df menu_items_df
      count order_id orders0 items0 g = Ok ((orders, order_items), g') ->
    exists new_orders new_items,
      orders = orders0 ++ new_orders /\
      order_items = items0 ++ new_items /\
      Forall (fun oi => (order_id <= oi_order_id oi)%Z) new_items /\
      Forall (fun o => (order_id <= o_order_id o)%Z /\
                       order_ok menu_items_df (o_order_id o) o
                         (order_lines new_items o)) new_orders.
Proof.
  induction count as [|count IH]; simpl;
    intros order_id orders0 items0 g orders order_items g' H.
  - apply gret_Ok in H as [E _]. inversion E; subst.
    exists [], []. rewrite !app_nil_r. repeat split; constructor.
  - gstep H generated g1 Hgen.
    destruct generated as [[o lines]|].
    + apply generate_order_spec in Hgen.
      apply IH in H as (new_orders & new_items & -> & -> & Hitems & Horders).
      exists (o :: new_orders), (lines ++ new_items).
      rewrite <- !app_assoc. simpl.
      pose proof (ok_order_id _ _ _ _ Hgen) as Hid.
      pose proof (ok_line_ids _ _ _ _ Hgen) as Hlines.
      repeat split.
      * apply Forall_app. split.
        -- eapply List.Forall_impl; [|exact Hlines]. simpl. intros; lia.
        -- eapply List.Forall_impl; [|exact Hitems]. simpl. intros; lia.
      * constructor.
        -- split; [lia|]. rewrite Hid. unfold order_lines.
           rewrite List.filter_app, filter_keeps_all, filter_keeps_none.
           ++ now rewrite app_nil_r.
           ++ eapply List.Forall_impl; [|exact Hitems]. simpl.
              intros oi Hoi. apply Z.eqb_neq. lia.
           ++ eapply List.Forall_impl; [|exact Hlines]. simpl.
              intros oi Hoi. apply Z.eqb_eq. congruence.
        -- eapply List.Forall_impl; [|exact Horders]. simpl.
           intros o' [Hge Hok]. split; [lia|].
           unfold order_lines in *.
           rewrite List.filter_app, filter_keeps_none; [exact Hok|].
           eapply List.Forall_impl; [|exact Hlines]. simpl.
           intros oi Hoi. apply Z.eqb_neq. lia.
    + apply IH in H as (new_orders & new_items & -> & -> & Hitems & Horders).
      exists new_orders, new_items. repeat split; auto.
      * eapply List.Forall_impl; [|exact Hitems]. simpl. intros; lia.
      * eapply List.Forall_impl; [|exact Horders]. simpl.
        intros o' [Hge Hok]. split; [lia|exact Hok].
Qed.

Lemma generate_orders_and_items_ok now customers_df restaurants_df
    menu_items_df num_orders g orders order_items g' :
  generate_orders_and_items now customers_df restaurants_df menu_items_df
    num_orders g = Ok ((orders, order_items), g') ->
  forall o, In o orders ->
    order_ok menu_items_df (o_order_id o) o (order_lines order_items o).
Proof.
  unfold generate_orders_and_items. intros H o Ho.
  apply orders_loop_spec in H as (new_orders & new_items & -> & -> & _ & Hall).
  simpl in Ho. rewrite List.Forall_forall in Hall.
  now apply Hall.
Qed.

End GeneratorProperties.

(** ** Properties of the generated data set *)

Section GeneratedData.

Import Generator.
Context {RS : RandomSource}.

Lemma NoDup_map_filter {A B} (f : A -> B) (p : A -> bool) (l : list A) :
  List.NoDup (map f l) -> List.NoDup (map f (List.filter p l)).
Proof.
  induction l as [|x t IH]; simpl; intros H; [constructor|].
  apply List.NoDup_cons_iff in H as [Hx Ht].
  destruct (p x); simpl; auto.
  apply List.NoDup_cons; auto.
  intros Hin. apply Hx.
  apply in_map_iff in Hin as (y & Hy & Hin).
  apply List.filter_In in Hin as [Hin _].
  apply in_map_iff. eauto.
Qed.

(** C7: every generated menu item has its price in [8.99, 24.99] and its
    cost between 25% and 45% of its price, up to one cent of rounding. *)
Theorem generated_menu_item_cost_ratio
    (restaurants_df : list restaurant) (g : rng)
    (menu_items : list menu_item_row) (g' : rng) :
  generate_menu_items restaurants_df g = Ok (menu_items, g') ->
  forall mi, In mi menu_items ->
    8.99 <= mi_price mi <= 24.99 /\
    0.25 * mi_price mi - 0.01 <= mi_cost_to_make mi
      <= 0.45 * mi_price mi + 0.01.
Proof.
  unfold generate_menu_items. intros H mi Hmi.
  apply gbind_Ok in H as (per_restaurant & g1 & Hper & H).
  apply gret_Ok in H as [-> _].
  apply in_concat in Hmi as (items & Hitems & Hmi).
  assert (Forall (Forall menu_item_bounds) per_restaurant) as Hall.
  { eapply gmapM_Forall; [|exact Hper].
    intros r g0 y g0'. apply generate_restaurant_menu_bounds. }
  rewrite List.Forall_forall in Hall. specialize (Hall _ Hitems).
  rewrite List.Forall_forall in Hall. exact (Hall _ Hmi).
Qed.

(** C4: the total of every generated order is the subtotal of its items
    plus fee, tax and tip, minus the discount, up to half a cent. *)
Theorem generated_order_total_amount
    (now : timestamp) (customers_df : list customer)
    (restaurants_df : list restaurant) (menu_items_df : list menu_item)
    (num_orders : nat) (g : rng)
    (orders : list order) (order_items : list order_item) (g' : rng) :
  generate_orders_and_items now customers_df restaurants_df menu_items_df
    num_orders g = Ok ((orders, order_items), g') ->
  forall o, In o orders ->
    Qabs (o_total_amount o -
          (order_subtotal (order_lines order_items o) + o_delivery_fee o
           + o_tax_amount o + o_tip_amount o - o_discount_amount o))
      <= 1 # 200.
Proof.
  intros H o Ho.
  exact (ok_total _ _ _ _ (generate_orders_and_items_ok _ _ _ _ _ _ _ _ _ H o Ho)).
Qed.

(** C9: the items of every generated order reference pairwise distinct
    menu items, each an available item of the order's restaurant, and
    there are between one and five of them. *)
Theorem generated_order_items_distinct
    (now : timestamp) (customers_df : list customer)
    (restaurants_df : list restaurant) (menu_items_df : list menu_item)
    (num_orders : nat) (g : rng)
    (orders : list order) (order_items : list order_item) (g' : rng) :
  List.NoDup (map mi_item_id menu_items_df) ->
  generate_orders_and_items now customers_df restaurants_df menu_items_df
    num_orders g = Ok ((orders, order_items), g') ->
  forall o, In o orders ->
    List.NoDup (map oi_item_id (order_lines order_items o)) /\
    (forall oi, In oi (order_lines order_items o) ->
                references menu_items_df o oi) /\
    (1 <= length (order_lines order_items o) <= 5)%nat.
Proof.
  intros Hkey H o Ho.
  pose proof (generate_orders_and_items_ok _ _ _ _ _ _ _ _ _ H o Ho) as Hok.
  destruct (ok_selected _ _ _ _ Hok) as (selected & rest & Hmap & Hperm).
  pose proof (ok_count _ _ _ _ Hok) as Hcount.
  assert (List.NoDup (map mi_item_id selected)) as Hnd.
  { apply (NoDup_map_filter mi_item_id) with
      (p := fun mi => (mi_restaurant_id (mi_row mi) =? o_restaurant_id o)%Z
                      && (mi_is_available (mi_row mi) =? 1)%Z) in Hkey.
    fold (available_items menu_items_df (o_restaurant_id o)) in Hkey.
    apply (Permutation_map mi_item_id) in Hperm.
    apply (Permutation_NoDup Hperm) in Hkey.
    rewrite map_app in Hkey. now apply NoDup_app_remove_r in Hkey. }
  repeat split; try lia.
  - now rewrite Hmap.
  - intros oi Hoi.
    apply (in_map oi_item_id) in Hoi. rewrite Hmap in Hoi.
    apply in_map_iff in Hoi as (mi & Hid & Hmi).
    assert (In mi (available_items menu_items_df (o_restaurant_id o))) as Hav.
    { apply (Permutation_in mi (Permutation_sym Hperm)).
      apply in_or_app. now left. }
    apply List.filter_In in Hav as [Hin Hcond].
    apply andb_true_iff in Hcond as [Hr Ha].
    apply Z.eqb_eq in Hr, Ha.
    exists mi. auto.
Qed.

(** C10: a generated order has no delivery time exactly when it is not
    completed, and a completed order has one between 20 and 60 minutes. *)
Theorem generated_order_delivery_time
    (now : timestamp) (customers_df : list customer)
    (restaurants_df : list restaurant) (menu_items_df : list menu_item)
    (num_orders : nat) (g : rng)
    (orders : list order) (order_items : list order_item) (g' : rng) :
  generate_orders_and_items now customers_df restaurants_df menu_items_df
    num_orders g = Ok ((orders, order_items), g') ->
  forall o, In o orders ->
    (o_delivery_time_minutes o = None <-> o_status o <> "completed") /\
    (o_status o = "completed" ->
     exists m, o_delivery_time_minutes o = Some m /\ (20 <= m <= 60)%Z).
Proof.
  intros H o Ho.
  pose proof (ok_delivery _ _ _ _
                (generate_orders_and_items_ok _ _ _ _ _ _ _ _ _ H o Ho)) as Hd.
  destruct (String.eqb_spec (o_status o) "completed") as [Heq|Hne].
  - destruct Hd as (m & Hm & Hrange). split.
    + split; [congruence|contradiction].
    + eauto.
  - split; [tauto|contradiction].
Qed.

End GeneratedData.


(** *** The generator run on the small data set *)

Definition demo_seed : Generator.rng (RandomSource := lcg_source) := 2024%Z.

Lemma generated_menu_item_cost_ratio_witness :
  exists menu_items g' mi,
    Generator.generate_menu_items Demo.restaurants demo_seed
      = Ok (menu_items, g') /\
    In mi menu_items /\
    8.99 <= mi_price mi <= 24.99 /\
    0.25 * mi_price mi - 0.01 <= mi_cost_to_make mi
      <= 0.45 * mi_price mi + 0.01.
Proof.
  eexists _, _, _.
  split; [vm_compute; reflexivity|].
  split; [left; reflexivity|].
  eapply (generated_menu_item_cost_ratio Demo.restaurants demo_seed).
  - vm_compute. reflexivity.
  - left. reflexivity.
Defined.

Lemma generated_order_total_amount_witness :
  exists orders order_items g' o,
    Generator.generate_orders_and_items Demo.now Demo.customers
      Demo.restaurants Demo.menu_items 3 demo_seed
      = Ok ((orders, order_items), g') /\
    In o orders /\
    Qabs (o_total_amount o -
          (order_subtotal (order_lines order_items o) + o_delivery_fee o
           + o_tax_amount o + o_tip_amount o - o_discount_amount o))
      <= 1 # 200.
Proof.
  eexists _, _, _, _.
  split; [vm_compute; reflexivity|].
  split; [left; reflexivity|].
  eapply (generated_order_total_amount Demo.now Demo.customers
            Demo.restaurants Demo.menu_items 3 demo_seed).
  - vm_compute. reflexivity.
  - left. reflexivity.
Defined.

Lemma generated_order_items_distinct_witness :
  exists orders order_items g' o,
    List.NoDup (map mi_item_id Demo.menu_items) /\
    Generator.generate_orders_and_items Demo.now Demo.customers
      Demo.restaurants Demo.menu_items 3 demo_seed
      = Ok ((orders, order_items), g') /\
    In o orders /\
    List.NoDup (map oi_item_id (order_lines order_items o)) /\
    (forall oi, In oi (order_lines order_items o) ->
                references Demo.menu_items o oi) /\
    (1 <= length (order_lines order_items o) <= 5)%nat.
Proof.
  assert (List.NoDup (map mi_item_id Demo.menu_items)) as Hkey.
  { simpl. repeat (apply List.NoDup_cons; [simpl; lia|]). apply List.NoDup_nil. }
  eexists _, _, _, _.
  split; [exact Hkey|].
  split; [vm_compute; reflexivity|].
  split; [left; reflexivity|].
  eapply (generated_order_items_distinct Demo.now Demo.customers
            Demo.restaurants Demo.menu_items 3 demo_seed _ _ _ Hkey).
  - vm_compute. reflexivity.
  - left. reflexivity.
Defined.

Lemma generated_order_delivery_time_witness :
  exists orders order_items g' o,
    Generator.generate_orders_and_items Demo.now Demo.customers
      Demo.restaurants Demo.menu_items 3 demo_seed
      = Ok ((orders, order_items), g') /\
    In o orders /\
    (o_delivery_time_minutes o = None <-> o_status o <> "completed") /\
    (o_status o = "completed" ->
     exists m, o_delivery_time_minutes o = Some m /\ (20 <= m <= 60)%Z).
Proof.
  eexists _, _, _, _.
  split; [vm_compute; reflexivity|].
  split; [left; reflexivity|].
  eapply (generated_order_delivery_time Demo.now Demo.customers
            Demo.restaurants Demo.menu_items 3 demo_seed).
  - vm_compute. reflexivity.
  - left. reflexivity.
Defined.

(** ** The query combinators *)

Section GroupBy.

Context {K A : Type} (same : K -> K -> bool) (key : A -> K).

Let step (groups : list (K * list A)) (x : A) : list (K * list A) :=
  Sql.add_to_group same (key x) x groups.

Lemma add_to_group_new (k : K) (x : A) (groups : list (K * list A)) :
  Forall (fun g => same (fst g) k = false) groups ->
  Sql.add_to_group same k x groups = groups ++ [(k, [x])].
Proof.
  induction 1 as [|[k' xs] rest Hk _ IH]; simpl; [reflexivity|].
  simpl in Hk. now rewrite Hk, IH.
Qed.

Lemma add_to_group_last (k0 k : K) (x : A) (xs : list A)
    (groups : list (K * list A)) :
  Forall (fun g => same (fst g) k = false) groups ->
  same k0 k = true ->
  Sql.add_to_group same k x (groups ++ [(k0, xs)])
    = groups ++ [(k0, xs ++ [x])].
Proof.
  intros Hnew Hsame.
  induction Hnew as [|[k' ys] rest Hk _ IH]; simpl.
  - now rewrite Hsame.
  - simpl in Hk. now rewrite Hk, IH.
Qed.

Lemma fold_same_key (k : K) (groups : list (K * list A)) :
  same k k = true ->
  Forall (fun g => same (fst g) k = false) groups ->
  forall ys xs,
    Forall (fun y => key y = k) ys ->
    fold_left step ys (groups ++ [(k, xs)]) = groups ++ [(k, xs ++ ys)].
Proof using Type.
  intros Hrefl Hnew. induction ys as [|y ys IH]; intros xs Hys; simpl.
  - now rewrite app_nil_r.
  - apply List.Forall_cons_iff in Hys as [Hy Hrest].
    unfold step at 2. rewrite Hy.
    rewrite add_to_group_last by assumption.
    rewrite IH by assumption. now rewrite <- app_assoc.
Qed.

(** A list of rows made of consecutive blocks, one per key. *)
Definition blocked (blocks : list (K * list A)) : Prop :=
  Forall (fun b => snd b <> [] /\ Forall (fun y => key y = fst b) (snd b)
                   /\ same (fst b) (fst b) = true) blocks /\
  ForallOrdPairs (fun b1 b2 => same (fst b1) (fst b2) = false) blocks.

Lemma fold_blocks (blocks : list (K * list A)) :
  blocked blocks ->
  forall groups,
    Forall (fun g => Forall (fun b => same (fst g) (fst b) = false) blocks)
      groups ->
    fold_left step (concat (map snd blocks)) groups = groups ++ blocks.
Proof using Type.
  intros [Hall Hpairs].
  induction blocks as [|[k b] rest IH]; intros groups Hgroups; simpl.
  - now rewrite app_nil_r.
  - apply List.Forall_cons_iff in Hall as [(Hne & Hkeys & Hrefl) Hall'].
    inversion Hpairs as [|? ? Hk Hpairs']; subst.
    simpl in Hne, Hkeys, Hrefl.
    destruct b as [|x t]; [contradiction|].
    apply List.Forall_cons_iff in Hkeys as [Hx Ht].
    rewrite fold_left_app. simpl.
    assert (Forall (fun g => same (fst g) k = false) groups) as Hnew.
    { eapply List.Forall_impl; [|exact Hgroups]. simpl.
      intros g Hg. now inversion Hg. }
    change (step groups x) with (Sql.add_to_group same (key x) x groups).
    rewrite Hx, add_to_group_new by assumption.
    rewrite fold_same_key by assumption.
    rewrite IH; [now rewrite <- app_assoc|assumption|assumption|].
    apply Forall_app. split.
    + eapply List.Forall_impl; [|exact Hgroups]. simpl.
      intros g Hg. now inversion Hg.
    + constructor; [|constructor]. exact Hk.
Qed.

Lemma group_by_blocks (blocks : list (K * list A)) :
  blocked blocks ->
  Sql.group_by same key (concat (map snd blocks)) = blocks.
Proof using Type.
  intros H. unfold Sql.group_by.
  change (fold_left step (concat (map snd blocks)) [] = blocks).
  now rewrite fold_blocks.
Qed.

End GroupBy.

Section LeftJoin.

Context {A B : Type} (on : A -> B -> bool) (b : list B).

Lemma left_join_concat (a : list A) :
  Sql.left_join on a b = concat (map (Sql.left_join_row on b) a).
Proof. unfold Sql.left_join. apply flat_map_concat_map. Qed.

Lemma left_join_row_nonempty (x : A) : Sql.left_join_row on b x <> [].
Proof.
  unfold Sql.left_join_row.
  destruct (List.filter (on x) b); simpl; discriminate.
Qed.

Lemma left_join_row_fst (x : A) :
  Forall (fun row => fst row = x) (Sql.left_join_row on b x).
Proof.
  unfold Sql.left_join_row.
  destruct (List.filter (on x) b) as [|y ys].
  - repeat constructor.
  - apply List.Forall_forall. intros row Hrow.
    apply in_map_iff in Hrow as (z & <- & _). reflexivity.
Qed.

(** The non-null values of a right-hand column over the rows joined to
    [x] are the values of the matching rows. *)
Lemma non_null_right_column {C} (f : B -> C) (x : A) :
  Sql.non_null (Sql.right_column f (Sql.left_join_row on b x))
    = map f (List.filter (on x) b).
Proof.
  unfold Sql.left_join_row, Sql.right_column, Sql.non_null.
  destruct (List.filter (on x) b) as [|y ys]; [reflexivity|].
  generalize (y :: ys) as l. induction l as [|z l IH]; simpl; [reflexivity|].
  now rewrite IH.
Qed.

(** A [WHERE] on the left-hand side commutes with the join. *)
Lemma filter_left_join (p : A -> bool) (a : list A) :
  List.filter (fun row => p (fst row)) (Sql.left_join on a b)
    = Sql.left_join on (List.filter p a) b.
Proof.
  unfold Sql.left_join. induction a as [|x t IH]; simpl; [reflexivity|].
  rewrite List.filter_app, IH.
  pose proof (left_join_row_fst x) as Hfst.
  destruct (p x) eqn:Hp; simpl.
  - f_equal. apply filter_keeps_all.
    eapply List.Forall_impl; [|exact Hfst]. simpl. now intros row ->.
  - rewrite filter_keeps_none; [reflexivity|].
    eapply List.Forall_impl; [|exact Hfst]. simpl. now intros row ->.
Qed.

End LeftJoin.

(** Grouping the rows of a left join by a key of the left-hand side that
    tells its rows apart gives one group per left-hand row. *)
Lemma group_by_left_join {A B K} (on : A -> B -> bool)
    (same : K -> K -> bool) (key : A -> K) (a : list A) (b : list B) :
  (forall x, same (key x) (key x) = true) ->
  ForallOrdPairs (fun x y => same (key x) (key y) = false) a ->
  Sql.group_by same (fun row => key (fst row)) (Sql.left_join on a b)
    = map (fun x => (key x, Sql.left_join_row on b x)) a.
Proof.
  intros Hrefl Hdistinct.
  set (blocks := map (fun x => (key x, Sql.left_join_row on b x)) a).
  assert (Sql.left_join on a b = concat (map snd blocks)) as ->.
  { rewrite left_join_concat. unfold blocks. now rewrite map_map. }
  apply group_by_blocks. unfold blocks. split.
  - apply List.Forall_forall. intros blk Hblk.
    apply in_map_iff in Hblk as (x & <- & _). simpl. repeat split.
    + apply left_join_row_nonempty.
    + eapply List.Forall_impl; [|apply left_join_row_fst].
      simpl. now intros row ->.
    + apply Hrefl.
  - clear blocks. induction Hdistinct as [|x t Hx _ IH]; simpl; constructor.
    + apply List.Forall_forall. intros blk Hblk.
      apply in_map_iff in Hblk as (y & <- & Hy). simpl.
      rewrite List.Forall_forall in Hx. now apply Hx.
    + exact IH.
Qed.

(** ** Customer value metrics *)

Lemma distinct_customer_keys (cs : list customer) :
  List.NoDup (map c_customer_id cs) ->
  ForallOrdPairs
    (fun x y => Queries.same_customer_key (Queries.customer_key x)
                  (Queries.customer_key y) = false) cs.
Proof.
  induction cs as [|c t IH]; simpl; intros H; constructor.
  - apply List.NoDup_cons_iff in H as [Hc _].
    apply List.Forall_forall. intros c' Hc'.
    unfold Queries.same_customer_key, Queries.customer_key.
    destruct (Z.eqb_spec (c_customer_id c) (c_customer_id c')) as [E|_];
      [|reflexivity].
    exfalso. apply Hc. rewrite E. now apply in_map.
  - apply IH. now apply List.NoDup_cons_iff in H as [_ Ht].
Qed.

Lemma same_customer_key_refl (c : customer) :
  Queries.same_customer_key (Queries.customer_key c) (Queries.customer_key c)
    = true.
Proof.
  unfold Queries.same_customer_key, Queries.customer_key.
  now rewrite Z.eqb_refl, !String.eqb_refl.
Qed.

(** With [customer_id] a key, the CTE has one row per customer, computed
    from the rows joined to that customer. *)
Lemma customer_metrics_cte_rows (now : timestamp) (db : database) :
  List.NoDup (map c_customer_id (customers db)) ->
  Queries.customer_metrics_cte now db
    = map (fun c => Queries.customer_metrics_of now
                      (Queries.customer_key c,
                       Sql.left_join_row Queries.customer_order (orders db) c))
        (customers db).
Proof.
  intros Hkey. unfold Queries.customer_metrics_cte.
  rewrite (group_by_left_join Queries.customer_order
             Queries.same_customer_key Queries.customer_key).
  - now rewrite map_map.
  - apply same_customer_key_refl.
  - now apply distinct_customer_keys.
Qed.

Lemma customer_order_filter (db : database) (c : customer) :
  List.filter (Queries.customer_order c) (orders db)
    = completed_orders_of_customer db c.
Proof.
  unfold completed_orders_of_customer. apply List.filter_ext. intros o.
  unfold Queries.customer_order, completed.
  rewrite andb_comm. f_equal. apply Z.eqb_sym.
Qed.

Lemma fold_Qmax_upper (values : list Q) : forall v,
  (forall x, In x (v :: values) -> x <= fold_left Qmax values v) /\
  (exists x, In x (v :: values) /\ fold_left Qmax values v == x).
Proof.
  induction values as [|w ws IH]; intros v; simpl.
  - split.
    + intros x [<-|[]]. apply Qle_refl.
    + exists v. split; [now left|reflexivity].
  - destruct (IH (Qmax v w)) as [Hle (x & Hx & Heq)]. split.
    + intros y [<-|[<-|Hy]].
      * eapply Qle_trans; [apply Q.le_max_l|]. apply Hle. now left.
      * eapply Qle_trans; [apply Q.le_max_r|]. apply Hle. now left.
      * apply Hle. now right.
    + destruct Hx as [<-|Hx].
      * destruct (Q.max_dec v w) as [E|E].
        -- exists v. split; [now left|]. now rewrite Heq.
        -- exists w. split; [right; now left|]. now rewrite Heq.
      * exists x. split; [right; now right|exact Heq].
Qed.

Lemma Qle_bool_false (x y : Q) : Qle_bool x y = false <-> y < x.
Proof.
  split; intros H.
  - apply Qnot_le_lt. intros Hle. apply Qle_bool_iff in Hle. congruence.
  - destruct (Qle_bool x y) eqn:E; [|reflexivity].
    apply Qle_bool_iff in E. lra.
Qed.


(** C3: with [customer_id] a key of [customers], every row of the customer
    value metrics belongs to a customer; its order frequency and average
    are those of the customer's completed orders, its lifetime value is
    [order_frequency * avg_order_value * 12], and its status is
    "Never Ordered" (with a zero lifetime value) without a completed
    order, "Active" up to 30 days after the last one, "At Risk" up to 90
    days, "Churned" beyond. *)
Theorem customer_value_metrics (now : timestamp) (db : database) :
  List.NoDup (map c_customer_id (customers db)) ->
  forall row, In row (Queries.clv_query now db) ->
  exists c, In c (customers db) /\
    let m := Queries.ca_metrics row in
    let orders_of_c := completed_orders_of_customer db c in
    Queries.cm_customer_id m = c_customer_id c /\
    Queries.cm_order_frequency m = Z.of_nat (length orders_of_c) /\
    Queries.cm_avg_order_value m == mean (map o_total_amount orders_of_c) /\
    Queries.ca_estimated_clv row
      == inject_Z (Queries.cm_order_frequency m)
         * Queries.cm_avg_order_value m * 12 /\
    (orders_of_c = [] ->
     Queries.ca_customer_status row = "Never Ordered" /\
     Queries.ca_estimated_clv row == 0) /\
    (forall last, latest orders_of_c last ->
       let days := now - o_order_date last in
       (days <= 30 -> Queries.ca_customer_status row = "Active") /\
       (30 < days <= 90 -> Queries.ca_customer_status row = "At Risk") /\
       (90 < days -> Queries.ca_customer_status row = "Churned")).
Proof.
  intros Hkey row Hrow. unfold Queries.clv_query in Hrow.
  rewrite customer_metrics_cte_rows in Hrow by assumption.
  rewrite map_map in Hrow.
  apply in_map_iff in Hrow as (c & <- & Hc).
  exists c. split; [exact Hc|].
  cbn [Queries.ca_metrics Queries.ca_estimated_clv Queries.ca_customer_status
       Queries.customer_metrics_of Queries.customer_key].
  unfold Queries.estimated_clv, Queries.customer_status.
  cbn [Queries.cm_customer_id Queries.cm_order_frequency
       Queries.cm_avg_order_value Queries.cm_days_since_last_order].
  unfold Sql.count, Sql.avg, Sql.max.
  rewrite !non_null_right_column, customer_order_filter.
  set (os := completed_orders_of_customer db c).
  rewrite !length_map.
  split; [reflexivity|]. split; [reflexivity|].
  destruct os as [|o os'] eqn:Hos.
  - cbn. split; [reflexivity|]. split; [reflexivity|].
    split; [intros _; split; reflexivity|].
    intros last [[] _].
  - assert ((0 <? Z.of_nat (length (o :: os')))%Z = true) as ->.
    { apply Z.ltb_lt. simpl. lia. }
    split; [reflexivity|]. split; [reflexivity|].
    split; [discriminate|].
    intros last [Hin Hmax]. cbn [map Sql.coalesce option_map].
    destruct (fold_Qmax_upper (map o_order_date os') (o_order_date o))
      as [Hle (d & Hd & Heq)].
    change (o_order_date o :: map o_order_date os')
      with (map o_order_date (o :: os')) in Hle, Hd.
    set (latest_date := fold_left Qmax (map o_order_date os') (o_order_date o))
      in *.
    assert (latest_date == o_order_date last) as Hlast.
    { apply Qle_antisym.
      - rewrite Heq. apply in_map_iff in Hd as (o' & <- & Ho').
        now apply Hmax.
      - apply Hle. now apply in_map. }
    cbv zeta.
    destruct (Qle_bool (now - latest_date) 30) eqn:H30.
    + apply Qle_bool_iff in H30.
      repeat split; intros; try reflexivity; lra.
    + apply Qle_bool_false in H30.
      destruct (Qle_bool (now - latest_date) 90) eqn:H90.
      * apply Qle_bool_iff in H90.
        repeat split; intros; try reflexivity; lra.
      * apply Qle_bool_false in H90.
        repeat split; intros; try reflexivity; lra.
Qed.

Lemma demo_customer_ids : List.NoDup (map c_customer_id (customers Demo.db)).
Proof.
  simpl. repeat (apply List.NoDup_cons; [simpl; lia|]). apply List.NoDup_nil.
Qed.

Lemma customer_value_metrics_witness :
  exists row,
    List.NoDup (map c_customer_id (customers Demo.db)) /\
    In row (Queries.clv_query Demo.now Demo.db) /\
    exists c, In c (customers Demo.db) /\
      let m := Queries.ca_metrics row in
      let orders_of_c := completed_orders_of_customer Demo.db c in
      Queries.cm_customer_id m = c_customer_id c /\
      Queries.cm_order_frequency m = Z.of_nat (length orders_of_c) /\
      Queries.cm_avg_order_value m == mean (map o_total_amount orders_of_c) /\
      Queries.ca_estimated_clv row
        == inject_Z (Queries.cm_order_frequency m)
           * Queries.cm_avg_order_value m * 12 /\
      (orders_of_c = [] ->
       Queries.ca_customer_status row = "Never Ordered" /\
       Queries.ca_estimated_clv row == 0) /\
      (forall last, latest orders_of_c last ->
         let days := Demo.now - o_order_date last in
         (days <= 30 -> Queries.ca_customer_status row = "Active") /\
         (30 < days <= 90 -> Queries.ca_customer_status row = "At Risk") /\
         (90 < days -> Queries.ca_customer_status row = "Churned")).
Proof.
  assert (exists row rest, Queries.clv_query Demo.now Demo.db = row :: rest)
    as (row & rest & Hrows).
  { eexists _, _. vm_compute. reflexivity. }
  exists row.
  split; [exact demo_customer_ids|].
  split; [rewrite Hrows; now left|].
  apply (customer_value_metrics Demo.now Demo.db demo_customer_ids).
  rewrite Hrows. now left.
Defined.

(** ** Restaurant performance metrics *)

Section OrderBy.

Context {A : Type} (f : A -> Q).

Let desc (a b : A) : Prop := f b <= f a.

Lemma insert_desc_perm (x : A) (l : list A) :
  Permutation (Sql.insert_desc f x l) (x :: l).
Proof.
  induction l as [|y t IH]; simpl; [reflexivity|].
  destruct (Qle_bool (f y) (f x)); [reflexivity|].
  rewrite IH. apply perm_swap.
Qed.

Lemma order_by_desc_perm (l : list A) : Permutation (Sql.order_by_desc f l) l.
Proof.
  induction l as [|x t IH]; simpl; [reflexivity|].
  rewrite insert_desc_perm. now apply perm_skip.
Qed.

Lemma insert_desc_sorted (x : A) (l : list A) :
  Sorted desc l -> Sorted desc (Sql.insert_desc f x l).
Proof using Type.
  induction 1 as [|y t Ht IH Hy]; simpl.
  - repeat constructor.
  - destruct (Qle_bool (f y) (f x)) eqn:Hxy.
    + apply Qle_bool_iff in Hxy.
      constructor; [now constructor|]. constructor. exact Hxy.
    + apply Qle_bool_false in Hxy. constructor; [exact IH|].
      destruct t as [|z t']; simpl.
      * constructor. unfold desc. lra.
      * inversion Hy; subst.
        destruct (Qle_bool (f z) (f x)); constructor;
          [unfold desc; lra|assumption].
Qed.

Lemma order_by_desc_sorted (l : list A) :
  StronglySorted desc (Sql.order_by_desc f l).
Proof using Type.
  apply Sorted_StronglySorted.
  - intros a b c Hab Hbc. unfold desc in *. lra.
  - induction l as [|x t IH]; simpl; [constructor|].
    now apply insert_desc_sorted.
Qed.

End OrderBy.

Lemma distinct_restaurant_keys (rs : list restaurant) :
  List.NoDup (map r_restaurant_id rs) ->
  ForallOrdPairs
    (fun x y => Queries.same_restaurant_key (Queries.restaurant_key x)
                  (Queries.restaurant_key y) = false) rs.
Proof.
  induction rs as [|r t IH]; simpl; intros H; constructor.
  - apply List.NoDup_cons_iff in H as [Hr _].
    apply List.Forall_forall. intros r' Hr'.
    unfold Queries.same_restaurant_key, Queries.restaurant_key.
    destruct (Z.eqb_spec (r_restaurant_id r) (r_restaurant_id r')) as [E|_];
      [|reflexivity].
    exfalso. apply Hr. rewrite E. now apply in_map.
  - apply IH. now apply List.NoDup_cons_iff in H as [_ Ht].
Qed.

Lemma same_restaurant_key_refl (r : restaurant) :
  Queries.same_restaurant_key (Queries.restaurant_key r)
    (Queries.restaurant_key r) = true.
Proof.
  unfold Queries.same_restaurant_key, Queries.restaurant_key.
  rewrite Z.eqb_refl, !String.eqb_refl. simpl.
  apply Qeq_bool_iff. reflexivity.
Qed.

(** With [restaurant_id] a key, the CTE has one row per active restaurant,
    computed from the rows joined to that restaurant. *)
Lemma restaurant_metrics_cte_rows (db : database) :
  List.NoDup (map r_restaurant_id (restaurants db)) ->
  Queries.restaurant_metrics_cte db
    = map (fun r => Queries.restaurant_metrics_of
                      (Queries.restaurant_key r,
                       Sql.left_join_row Queries.restaurant_order
                         (orders db) r))
        (active_restaurants db).
Proof.
  intros Hkey. unfold Queries.restaurant_metrics_cte.
  rewrite (filter_left_join Queries.restaurant_order (orders db)
             (fun r => (r_is_active r =? 1)%Z)).
  fold (active_restaurants db).
  rewrite (group_by_left_join Queries.restaurant_order
             Queries.same_restaurant_key Queries.restaurant_key).
  - now rewrite map_map.
  - apply same_restaurant_key_refl.
  - apply distinct_restaurant_keys. now apply NoDup_map_filter.
Qed.

Lemma restaurant_order_filter (db : database) (r : restaurant) :
  List.filter (Queries.restaurant_order r) (orders db)
    = completed_orders_of_restaurant db r.
Proof.
  unfold completed_orders_of_restaurant. apply List.filter_ext. intros o.
  unfold Queries.restaurant_order, completed.
  rewrite andb_comm. f_equal. apply Z.eqb_sym.
Qed.

Lemma non_null_delivery_times {A} (on : A -> order -> bool)
    (os : list order) (x : A) :
  Sql.non_null
    (map (fun row : A * option order =>
            match snd row with
            | Some o => option_map inject_Z (o_delivery_time_minutes o)
            | None => None
            end) (Sql.left_join_row on os x))
    = delivery_times (List.filter (on x) os).
Proof.
  unfold Sql.left_join_row, Sql.non_null, delivery_times.
  destruct (List.filter (on x) os) as [|y ys]; [reflexivity|].
  generalize (y :: ys) as l. induction l as [|z l IH]; simpl; [reflexivity|].
  rewrite IH. now destruct (o_delivery_time_minutes z).
Qed.

Lemma coalesce_sum (column : list (option Q)) :
  Sql.coalesce (Sql.sum column) 0 = Qsum (Sql.non_null column).
Proof. unfold Sql.sum. now destruct (Sql.non_null column). Qed.

Lemma coalesce_avg (column : list (option Q)) :
  Sql.coalesce (Sql.avg column) 0 = mean (Sql.non_null column).
Proof. unfold Sql.avg. now destruct (Sql.non_null column). Qed.

Lemma nodup_of_NoDup (l : list Z) : List.NoDup l -> nodup Z.eq_dec l = l.
Proof. apply nodup_fixed_point. Qed.


(** C8: with [restaurant_id] and [order_id] keys of their tables, the
    restaurant performance report has one row per active restaurant and
    none for an inactive one; each row aggregates the completed orders of
    its restaurant; revenue per customer is 0 without a customer; and the
    rows come in descending order of total revenue. *)
Theorem restaurant_performance_report (db : database) :
  List.NoDup (map r_restaurant_id (restaurants db)) ->
  List.NoDup (map o_order_id (orders db)) ->
  let report := Queries.performance_query db in
  let revenue row := Queries.rm_total_revenue (Queries.rp_metrics row) in
  Permutation
    (map (fun row => Queries.rm_restaurant_id (Queries.rp_metrics row)) report)
    (map r_restaurant_id (active_restaurants db)) /\
  (forall row, In row report ->
     exists r, In r (restaurants db) /\ r_is_active r = 1%Z /\
       let m := Queries.rp_metrics row in
       let os := completed_orders_of_restaurant db r in
       Queries.rm_restaurant_id m = r_restaurant_id r /\
       Queries.rm_total_orders m = Z.of_nat (length os) /\
       Queries.rm_unique_customers m = distinct_customers os /\
       Queries.rm_total_revenue m = Qsum (map o_total_amount os) /\
       Queries.rm_avg_order_value m = mean (map o_total_amount os) /\
       Queries.rm_avg_delivery_time m = mean (delivery_times os) /\
       Queries.rp_revenue_per_customer row
         = if (distinct_customers os =? 0)%Z then 0
           else Queries.rm_total_revenue m / inject_Z (distinct_customers os)) /\
  StronglySorted (fun a b => revenue b <= revenue a) report.
Proof.
  intros Hkey Horders report revenue. subst report.
  unfold Queries.performance_query.
  set (rows := map _ (Queries.restaurant_metrics_cte db)).
  pose proof (order_by_desc_perm
                (fun row => Queries.rm_total_revenue (Queries.rp_metrics row))
                rows) as Hperm.
  assert (rows = map (fun r =>
            let m := Queries.restaurant_metrics_of
                       (Queries.restaurant_key r,
                        Sql.left_join_row Queries.restaurant_order
                          (orders db) r) in
            {| Queries.rp_metrics := m;
               Queries.rp_revenue_per_customer :=
                 Queries.revenue_per_customer m |})
          (active_restaurants db)) as Hrows.
  { unfold rows. rewrite restaurant_metrics_cte_rows by assumption.
    now rewrite map_map. }
  split; [|split].
  - rewrite (Permutation_map _ Hperm), Hrows, map_map. reflexivity.
  - intros row Hrow.
    apply (Permutation_in _ Hperm) in Hrow. rewrite Hrows in Hrow.
    apply in_map_iff in Hrow as (r & <- & Hr).
    apply List.filter_In in Hr as [Hr Hactive]. apply Z.eqb_eq in Hactive.
    exists r. split; [exact Hr|]. split; [exact Hactive|].
    cbn [Queries.rp_metrics Queries.rp_revenue_per_customer
         Queries.restaurant_metrics_of Queries.restaurant_key].
    unfold Queries.revenue_per_customer.
    cbn [Queries.rm_restaurant_id Queries.rm_total_orders
         Queries.rm_unique_customers Queries.rm_total_revenue
         Queries.rm_avg_order_value Queries.rm_avg_delivery_time].
    unfold Sql.count_distinct.
    rewrite !coalesce_sum, !coalesce_avg.
    rewrite non_null_delivery_times, !non_null_right_column.
    rewrite restaurant_order_filter.
    set (os := completed_orders_of_restaurant db r).
    fold (distinct_customers os).
    assert (List.NoDup (map o_order_id os)) as Hos.
    { unfold os, completed_orders_of_restaurant. now apply NoDup_map_filter. }
    rewrite (nodup_of_NoDup _ Hos), length_map.
    repeat split.
    assert (0 <= distinct_customers os)%Z as Hnonneg
      by (unfold distinct_customers; lia).
    destruct (Z.ltb_spec 0 (distinct_customers os)) as [Hpos|Hzero];
      destruct (Z.eqb_spec (distinct_customers os) 0) as [E|E];
      try reflexivity; lia.
  - apply order_by_desc_sorted.
Qed.

Lemma demo_restaurant_ids :
  List.NoDup (map r_restaurant_id (restaurants Demo.db)).
Proof.
  simpl. repeat (apply List.NoDup_cons; [simpl; lia|]). apply List.NoDup_nil.
Qed.

Lemma demo_order_ids : List.NoDup (map o_order_id (orders Demo.db)).
Proof.
  simpl. repeat (apply List.NoDup_cons; [simpl; lia|]). apply List.NoDup_nil.
Qed.

Lemma restaurant_performance_report_witness :
  List.NoDup (map r_restaurant_id (restaurants Demo.db)) /\
  List.NoDup (map o_order_id (orders Demo.db)) /\
  let report := Queries.performance_query Demo.db in
  let revenue row := Queries.rm_total_revenue (Queries.rp_metrics row) in
  Permutation
    (map (fun row => Queries.rm_restaurant_id (Queries.rp_metrics row)) report)
    (map r_restaurant_id (active_restaurants Demo.db)) /\
  (forall row, In row report ->
     exists r, In r (restaurants Demo.db) /\ r_is_active r = 1%Z /\
       let m := Queries.rp_metrics row in
       let os := completed_orders_of_restaurant Demo.db r in
       Queries.rm_restaurant_id m = r_restaurant_id r /\
       Queries.rm_total_orders m = Z.of_nat (length os) /\
       Queries.rm_unique_customers m = distinct_customers os /\
       Queries.rm_total_revenue m = Qsum (map o_total_amount os) /\
       Queries.rm_avg_order_value m = mean (map o_total_amount os) /\
       Queries.rm_avg_delivery_time m = mean (delivery_times os) /\
       Queries.rp_revenue_per_customer row
         = if (distinct_customers os =? 0)%Z then 0
           else Queries.rm_total_revenue m / inject_Z (distinct_customers os)) /\
  StronglySorted (fun a b => revenue b <= revenue a) report.
Proof.
  split; [exact demo_restaurant_ids|].
  split; [exact demo_order_ids|].
  exact (restaurant_performance_report Demo.db
           demo_restaurant_ids demo_order_ids).
Defined.

(** ** The metrics engine *)

Lemma execute_query_total (self : Engine.t) (query : Engine.sql_query)
    (params : option (list value)) :
  exists df, Engine.execute_query self query params = Ok df.
Proof.
  unfold Engine.execute_query, Engine.try_except, rbind.
  destruct (Engine.store self) as [conn|e]; [|eauto].
  destruct params as [[|p ps]|];
    match goal with |- context [query ?n ?c ?p] =>
      destruct (query n c p); eauto end.
Qed.

(** C6: whatever the query and its parameters, when connecting to the
    store fails or the store rejects the query, [execute_query] gives its
    caller an empty frame instead of the exception. *)
Theorem execute_query_failure_gives_empty (self : Engine.t)
    (query : Engine.sql_query) (params : option (list value)) (e : exn) :
  Engine.store self = Err e \/
  (exists conn, Engine.store self = Ok conn /\
                query (Engine.now self) conn (default [] params) = Err e) ->
  Engine.execute_query self query params = Ok Frame.empty.
Proof.
  unfold Engine.execute_query, Engine.try_except, rbind.
  intros [Hstore|(conn & Hstore & Hquery)]; rewrite Hstore.
  - reflexivity.
  - destruct params as [[|p ps]|]; simpl in Hquery; now rewrite Hquery.
Qed.

Lemma execute_query_failure_gives_empty_witness :
  Engine.store Demo.unavailable = Err OperationalError /\
  Engine.execute_query Demo.unavailable Engine.clv_query None
    = Ok Frame.empty.
Proof.
  split; [reflexivity|].
  apply (execute_query_failure_gives_empty Demo.unavailable Engine.clv_query
           None OperationalError).
  left. reflexivity.
Defined.

(** *** Segment names *)






(** *** Segmenting twice *)

(** On the small store, the first segmentation on a
    fresh engine returns the segmented table and writes it back under
    "customer_analytics"; the second segmentation on the same engine then
    merges a table that already has "cluster" and "segment_name" columns,
    so that the merged table has "segment_name_x" and "segment_name_y"
    but no "segment_name", and reading that column raises. *)
Lemma customer_segmentation_twice_on_demo :
  exists df self',
    Engine.customer_segmentation (H := Demo.round_robin) 2 Demo.engine
      = Ok (df, self') /\
    In "segment_name" (Frame.columns df) /\
    Engine.customer_segmentation (H := Demo.round_robin) 2 self'
      = Err KeyError.
Proof.
  eexists _, _. split; [vm_compute; reflexivity|].
  split; [vm_compute; tauto|].
  vm_compute. reflexivity.
Qed.

(** *** The empty store *)

(** On the empty store the forecast fails in the regression, which is
    fitted on no sample, and the insights fail on the first row of the
    restaurant table, which has none. *)
Lemma empty_store_exceptions `{Engine.Clustering} :
  exists loaded,
    Engine.load_all_data Demo.empty_engine = Ok (tt, loaded) /\
    Engine.revenue_forecasting 7 loaded = Err ValueError /\
    Engine.generate_business_insights loaded = Err IndexError.
Proof.
  eexists. split; [vm_compute; reflexivity|].
  split; vm_compute; reflexivity.
Qed.

(** When the store cannot be reached, the loaders that only cache the
    empty frame return it, but the time-series loader and the
    segmentation read a column of it and raise. *)
Lemma unavailable_store_consumers `{Engine.Clustering} :
  (exists self, Engine.get_customer_analytics Demo.unavailable
                  = Ok (Frame.empty, self)) /\
  Engine.get_time_series_data Demo.unavailable = Err KeyError /\
  Engine.customer_segmentation 4 Demo.unavailable = Err KeyError.
Proof.
  split; [eexists; vm_compute; reflexivity|].
  split; vm_compute; reflexivity.
Qed.

(** C1 fails on the code: against a store whose schema is created and
    never populated, the four loaders return tables without rows and the
    segmentation falls back to the unsegmented table; but the revenue
    forecast raises, the insights raise, and so the whole pipeline
    raises. *)
Theorem empty_store_forecast_and_insights_raise `{Engine.Clustering} :
  exists loaded,
    Engine.load_all_data Demo.empty_engine = Ok (tt, loaded) /\
    (forall name, In name ["customer_analytics"; "restaurant_performance";
                           "menu_analytics"; "time_series"] ->
       exists df, Engine.cached_frame loaded name = Ok df /\
                  Frame.len df = 0%nat) /\
    (exists df self, Engine.customer_segmentation 4 loaded = Ok (df, self) /\
                     Frame.len df = 0%nat) /\
    raises (Engine.revenue_forecasting 7 loaded) /\
    raises (Engine.generate_business_insights loaded) /\
    raises (Engine.run_complete_analysis Demo.empty_engine).
Proof.
  eexists. split; [vm_compute; reflexivity|].
  split.
  - intros name Hname. simpl in Hname.
    destruct Hname as [<-|[<-|[<-|[<-|[]]]]];
      eexists; (split; [vm_compute; reflexivity|reflexivity]).
  - split; [eexists _, _; split; [vm_compute; reflexivity|reflexivity]|].
    repeat split; eexists; vm_compute; reflexivity.
Qed.

(** *** Frames: what the operations do to labels and rows *)

Lemma setitem_existing (df df' : Frame.t) (c : string) (i : nat)
    (series : list value) :
  Frame.index_of c (Frame.columns df) = Some i ->
  Frame.setitem df c series = Ok df' ->
  Frame.columns df' = Frame.columns df /\
  Frame.rows df'
    = Frame.zip_with (fun row v => <[i := v]> row) (Frame.rows df) series /\
  length series = length (Frame.rows df).
Proof.
  unfold Frame.setitem. intros Hi.
  destruct (length series =? length (Frame.rows df))%nat eqn:Hlen;
    [|discriminate].
  apply Nat.eqb_eq in Hlen. rewrite Hi. simpl.
  intros E. inversion E. auto.
Qed.

Lemma where_rows (df df' : Frame.t) (c : string) (i : nat)
    (p : value -> bool) :
  Frame.index_of c (Frame.columns df) = Some i ->
  Frame.where_ df c p = Ok df' ->
  Frame.columns df' = Frame.columns df /\
  Frame.rows df' = List.filter (fun row => p (Frame.cell i row)) (Frame.rows df).
Proof.
  unfold Frame.where_. intros ->. intros E. inversion E. auto.
Qed.

Lemma project_columns (df sub : Frame.t) (wanted : list string) :
  Frame.project df wanted = Ok sub -> Frame.columns sub = wanted.
Proof.
  unfold Frame.project, rbind.
  destruct (Frame.positions (Frame.columns df) wanted); [|discriminate].
  intros E. now inversion E.
Qed.

Lemma merge_left_columns (left right merged : Frame.t) (key : string) :
  Frame.merge_left left right key = Ok merged ->
  exists i j,
    Frame.index_of key (Frame.columns left) = Some i /\
    Frame.index_of key (Frame.columns right) = Some j /\
    Frame.columns merged
      = Frame.suffixed (Frame.columns right) key "_x" (Frame.columns left)
        ++ Frame.suffixed (Frame.columns left) key "_y"
             (Frame.drop_position j (Frame.columns right)) /\
    Frame.rows merged
      = flat_map
          (fun l =>
             match List.filter
                     (fun r => Frame.value_eqb (Frame.cell i l) (Frame.cell j r))
                     (Frame.rows right) with
             | [] => [l ++ map (fun _ => VNull)
                             (Frame.drop_position j (Frame.columns right))]
             | matches => map (fun r => l ++ Frame.drop_position j r) matches
             end)
          (Frame.rows left).
Proof.
  unfold Frame.merge_left.
  destruct (Frame.index_of key (Frame.columns left)) as [i|]; [|discriminate].
  destruct (Frame.index_of key (Frame.columns right)) as [j|]; [|discriminate].
  intros E. inversion E. exists i, j. auto.
Qed.

(** Cell [k] of a row survives an update of another cell, and an
    extension of the row on the right. *)
Lemma cell_insert_ne (k i : nat) (v : value) (row : list value) :
  k <> i -> Frame.cell k (<[i := v]> row) = Frame.cell k row.
Proof.
  intros Hne. unfold Frame.cell. rewrite !nth_lookup.
  now rewrite list_lookup_insert_ne by auto.
Qed.

Lemma cell_app_l (k : nat) (row extra : list value) :
  (k < length row)%nat -> Frame.cell k (row ++ extra) = Frame.cell k row.
Proof. intros Hk. unfold Frame.cell. now apply app_nth1. Qed.

Section CountingRows.

Context (p : value -> bool) (k : nat).

Let keep (row : list value) : bool := p (Frame.cell k row).

Lemma filter_zip_insert (i : nat) (rows : list (list value))
    (series : list value) :
  k <> i -> length series = length rows ->
  length (List.filter keep
            (Frame.zip_with (fun row v => <[i := v]> row) rows series))
    = length (List.filter keep rows).
Proof using Type.
  intros Hne. revert series.
  induction rows as [|row rows IH]; intros [|v series] Hlen;
    simpl in *; try discriminate; [reflexivity|].
  assert (keep (<[i := v]> row) = keep row) as ->
    by (unfold keep; now rewrite cell_insert_ne).
  destruct (keep row); simpl; rewrite IH by lia; reflexivity.
Qed.

Lemma zip_insert_lengths (i n : nat) (rows : list (list value))
    (series : list value) :
  Forall (fun row => length row = n) rows ->
  Forall (fun row => length row = n)
    (Frame.zip_with (fun row v => <[i := v]> row) rows series).
Proof.
  intros Hrows. revert series.
  induction Hrows as [|row rows Hrow _ IH]; intros [|v series]; simpl;
    constructor; auto.
  now rewrite length_insert.
Qed.

(** A left merge keeps at least one copy of every left row, extended on
    the right. *)
Lemma filter_flat_map_extend (g : list value -> list (list value))
    (rows : list (list value)) :
  Forall (fun row => (k < length row)%nat) rows ->
  (forall row, g row <> [] /\
               Forall (fun out => exists extra, out = row ++ extra) (g row)) ->
  (length (List.filter keep rows)
   <= length (List.filter keep (flat_map g rows)))%nat.
Proof using Type.
  intros Hrows Hg.
  induction Hrows as [|row rows Hrow _ IH]; simpl; [lia|].
  rewrite List.filter_app, length_app.
  destruct (Hg row) as [Hne Hall].
  assert (List.filter keep (g row)
          = if keep row then g row else []) as ->.
  { destruct (keep row) eqn:Hk.
    - apply filter_keeps_all. eapply List.Forall_impl; [|exact Hall].
      simpl. intros out [extra ->]. unfold keep.
      now rewrite cell_app_l.
    - apply filter_keeps_none. eapply List.Forall_impl; [|exact Hall].
      simpl. intros out [extra ->]. unfold keep.
      now rewrite cell_app_l. }
  destruct (keep row); simpl; [|lia].
  destruct (g row); [contradiction|simpl; lia].
Qed.

End CountingRows.

(** *** Segmenting twice, for every store and clustering *)

(** One step of a method that has to raise: a failing step does, and a
    successful one leaves the rest of the method. *)
Ltac raise_or_continue x E :=
  match goal with
  | |- raises (rbind ?m _) =>
      destruct m as [x|] eqn:E; [cbn [rbind]|eexists; reflexivity]
  end.

(** One step of a method that returned: the step returned too. *)
Ltac returned H x E :=
  match type of H with
  | rbind ?m _ = Ok _ =>
      destruct m as [x|] eqn:E; [cbn [rbind] in H|discriminate H]
  end.

Lemma segmented_cache_raises `{Engine.Clustering} (n : nat)
    (self : Engine.t) (F : Frame.t) :
  Engine.data_cache self !! "customer_analytics" = Some (Engine.CFrame F) ->
  Frame.columns F = segmented_columns ->
  (n <= length (active_rows F))%nat ->
  raises (Engine.customer_segmentation n self).
Proof.
  intros Hcache Hcols Hactive.
  unfold Engine.customer_segmentation, Engine.ensure.
  rewrite Hcache. cbn [rbind snd].
  unfold Engine.cached_frame. rewrite Hcache. cbn [rbind].
  unfold Frame.getitem at 1. rewrite Hcols. cbn [rbind].
  change (Frame.index_of "days_since_last_order" segmented_columns)
    with (Some 6%nat). cbn [rbind].
  raise_or_continue customer_data Hset.
  apply (setitem_existing _ _ _ 6) in Hset as (Hcols1 & Hrows1 & Hlen1);
    [|now rewrite Hcols].
  raise_or_continue active_customers Hwhere.
  apply (where_rows _ _ _ 3) in Hwhere as (Hcols2 & Hrows2);
    [|now rewrite Hcols1, Hcols].
  assert ((Frame.len active_customers <? n)%nat = false) as ->.
  { apply Nat.ltb_ge. unfold Frame.len. rewrite Hrows2, Hrows1.
    rewrite (filter_zip_insert Engine.positive 3 6) by (lia || now rewrite length_map in Hlen1).
    exact Hactive. }
  raise_or_continue X HX.
  raise_or_continue labels Hlabels.
  raise_or_continue clustered Hclustered.
  apply (setitem_existing _ _ _ 9) in Hclustered as (Hcols3 & _ & _);
    [|now rewrite Hcols2, Hcols1, Hcols].
  raise_or_continue silhouette_avg Hsil.
  raise_or_continue names Hnames.
  raise_or_continue named Hnamed.
  apply (setitem_existing _ _ _ 10) in Hnamed as (Hcols4 & _ & _);
    [|now rewrite Hcols3, Hcols2, Hcols1, Hcols].
  raise_or_continue picked Hright.
  apply project_columns in Hright.
  raise_or_continue merged Hmerged.
  apply merge_left_columns in Hmerged as (i & j & Hi & Hj & Hmcols & _).
  rewrite Hright in Hj. inversion Hj; subst j.
  rewrite Hright, Hcols1, Hcols in Hmcols.
  unfold Frame.getitem. rewrite Hmcols.
  eexists. vm_compute. reflexivity.
Qed.

Lemma setitem_new (df df' : Frame.t) (c : string) (series : list value) :
  Frame.index_of c (Frame.columns df) = None ->
  Frame.setitem df c series = Ok df' ->
  Frame.columns df' = Frame.columns df ++ [c].
Proof.
  unfold Frame.setitem. intros ->.
  destruct (negb _); [discriminate|]. intros E. now inversion E.
Qed.

Lemma merge_left_extends (right_rows : list (list value))
    (right_cols : list string) (i j : nat) (row : list value) :
  let out :=
    match List.filter
            (fun r => Frame.value_eqb (Frame.cell i row) (Frame.cell j r))
            right_rows with
    | [] => [row ++ map (fun _ => VNull) (Frame.drop_position j right_cols)]
    | matches => map (fun r => row ++ Frame.drop_position j r) matches
    end in
  out <> [] /\ Forall (fun o => exists extra, o = row ++ extra) out.
Proof.
  cbv zeta. destruct (List.filter _ right_rows) as [|m ms].
  - split; [discriminate|]. repeat constructor. eauto.
  - split; [discriminate|].
    apply List.Forall_forall. intros o Ho.
    apply in_map_iff in Ho as (r & <- & _). eauto.
Qed.

Lemma first_run_segmented `{Engine.Clustering} (n : nat)
    (self self' : Engine.t) (df : Frame.t) :
  Engine.data_cache self = ∅ ->
  Engine.customer_segmentation n self = Ok (df, self') ->
  In "segment_name" (Frame.columns df) ->
  exists F,
    Engine.data_cache self' !! "customer_analytics" = Some (Engine.CFrame F) /\
    Frame.columns F = segmented_columns /\
    (n <= length (active_rows F))%nat.
Proof.
  intros Hempty Hrun Hin.
  unfold Engine.customer_segmentation, Engine.ensure in Hrun.
  rewrite Hempty, lookup_empty in Hrun.
  unfold Engine.get_customer_analytics, Engine.load, Engine.execute_query,
    Engine.try_except in Hrun.
  destruct (Engine.store self) as [db|e]; cbn [rbind snd] in Hrun.
  2: { unfold Engine.cached_frame, Engine.cache_put in Hrun.
       cbn [Engine.data_cache] in Hrun. rewrite lookup_insert_eq in Hrun.
       discriminate Hrun. }
  unfold Engine.clv_query in Hrun. cbn [rbind snd] in Hrun.
  set (data := Engine.customer_frame
                 (Queries.clv_query (Engine.now self) db)) in *.
  set (self1 := Engine.cache_put self "customer_analytics"
                  (Engine.CFrame data)) in *.
  assert (Engine.cached_frame self1 "customer_analytics" = Ok data) as Hc.
  { unfold Engine.cached_frame, self1, Engine.cache_put.
    cbn [Engine.data_cache]. now rewrite lookup_insert_eq. }
  rewrite Hc in Hrun. cbn [rbind] in Hrun.
  assert (Forall (fun row => length row = 9%nat) (Frame.rows data)) as Hnine.
  { unfold data, Engine.customer_frame. cbn [Frame.rows].
    apply List.Forall_forall. intros row Hrow.
    apply in_map_iff in Hrow as (r & <- & _). reflexivity. }
  change (Frame.getitem data "days_since_last_order")
    with (Ok (map (Frame.cell 6) (Frame.rows data))) in Hrun.
  cbn [rbind] in Hrun.
  returned Hrun customer_data Hset.
  apply (setitem_existing _ _ _ 6) in Hset as (Hcols1 & Hrows1 & Hlen1);
    [|reflexivity].
  returned Hrun active_customers Hwhere.
  apply (where_rows _ _ _ 3) in Hwhere as (Hcols2 & Hrows2);
    [|now rewrite Hcols1].
  destruct (Frame.len active_customers <? n)%nat eqn:Hlen.
  { inversion Hrun; subst df self'. rewrite Hcols1 in Hin.
    exfalso. cbn in Hin. intuition discriminate. }
  apply Nat.ltb_ge in Hlen.
  returned Hrun X HX.
  returned Hrun labels Hlabels.
  returned Hrun clustered Hclustered.
  apply setitem_new in Hclustered; [|now rewrite Hcols2, Hcols1].
  returned Hrun silhouette_avg Hsil.
  returned Hrun names Hnames.
  returned Hrun named Hnamed.
  apply setitem_new in Hnamed; [|now rewrite Hclustered, Hcols2, Hcols1].
  returned Hrun picked Hpicked.
  apply project_columns in Hpicked.
  returned Hrun merged Hmerged.
  apply merge_left_columns in Hmerged as (i & j & Hi & Hj & Hmcols & Hmrows).
  rewrite Hpicked in Hj. inversion Hj; subst j.
  rewrite Hpicked, Hcols1 in Hmcols.
  change (Frame.columns merged = segmented_columns) in Hmcols.
  returned Hrun segment Hsegment.
  returned Hrun final Hfinal.
  apply (setitem_existing _ _ _ 10) in Hfinal as (Hcols5 & Hrows5 & Hlen5);
    [|now rewrite Hmcols].
  returned Hrun summary_columns Hsummary.
  inversion Hrun; subst df self'. clear Hrun.
  exists final. split; [|split].
  - unfold Engine.cache_put. cbn [Engine.data_cache].
    now rewrite lookup_insert_eq.
  - now rewrite Hcols5.
  - unfold active_rows. rewrite Hrows5.
    rewrite (filter_zip_insert Engine.positive 3 10) by (lia || assumption).
    rewrite Hmrows.
    eapply Nat.le_trans;
      [|apply (filter_flat_map_extend Engine.positive 3)].
    + unfold Frame.len in Hlen. now rewrite Hrows2 in Hlen.
    + rewrite Hrows1.
      eapply List.Forall_impl;
        [|apply (zip_insert_lengths 6 9); exact Hnine].
      simpl. intros row ->. lia.
    + intros row. apply merge_left_extends.
Qed.

(** C5 fails on the code, for every store, clock and clustering library:
    once a freshly constructed engine has returned a segmented table, a
    second segmentation on the same engine raises instead of returning
    that table again. *)
Theorem customer_segmentation_rerun_raises `{Engine.Clustering} (n : nat)
    (self self' : Engine.t) (df : Frame.t) :
  Engine.data_cache self = ∅ ->
  Engine.customer_segmentation n self = Ok (df, self') ->
  In "segment_name" (Frame.columns df) ->
  raises (Engine.customer_segmentation n self').
Proof.
  intros Hempty Hrun Hin.
  destruct (first_run_segmented n self self' df Hempty Hrun Hin)
    as (F & Hcache & Hcols & Hactive).
  exact (segmented_cache_raises n self' F Hcache Hcols Hactive).
Qed.

Lemma customer_segmentation_rerun_raises_witness :
  exists df self',
    Engine.data_cache Demo.engine = ∅ /\
    Engine.customer_segmentation (H := Demo.round_robin) 2 Demo.engine
      = Ok (df, self') /\
    In "segment_name" (Frame.columns df) /\
    raises (Engine.customer_segmentation (H := Demo.round_robin) 2 self').
Proof.
  assert (exists df self',
            Engine.customer_segmentation (H := Demo.round_robin) 2 Demo.engine
              = Ok (df, self') /\
            In "segment_name" (Frame.columns df))
    as (df & self' & Hrun & Hin).
  { eexists _, _. split; [vm_compute; reflexivity|]. vm_compute. tauto. }
  exists df, self'.
  split; [reflexivity|]. split; [exact Hrun|]. split; [exact Hin|].
  exact (customer_segmentation_rerun_raises (H := Demo.round_robin) 2
           Demo.engine self' df eq_refl Hrun Hin).
Defined.

(** * Further properties of the generator *)

Section MenuGeneration.

Import Generator.
Context {RS : RandomSource}.

Ltac gstep H x g Hx :=
  apply gbind_Ok in H as (x & g & Hx & H).

(** *** [random.sample] and [random.choice] *)

Lemma insert_last_perm {A} (l : list A) (j : nat) (x y : A) :
  nth_error l j = Some x -> Permutation (l ++ [y]) (x :: <[j := y]> l).
Proof.
  revert j. induction l as [|a t IH]; intros [|j] H; simpl in *;
    try discriminate.
  - inversion H; subst. apply perm_skip.
    rewrite Permutation_app_comm. reflexivity.
  - rewrite (IH _ H). apply perm_swap.
Qed.

(** Taking the element at [j] and moving the last element into its place
    leaves the rest of the pool. *)
Lemma swap_remove_perm {A} (pool : list A) (j : nat) (x y : A) :
  nth_error pool j = Some x ->
  nth_error pool (length pool - 1) = Some y ->
  Permutation pool (x :: firstn (length pool - 1) (<[j := y]> pool)).
Proof.
  intros Hx Hy.
  destruct (@exists_last _ pool) as (init & z & ->).
  { intros ->. destruct j; discriminate. }
  rewrite length_app in *. simpl in *.
  replace (length init + 1 - 1)%nat with (length init) in * by lia.
  rewrite nth_error_app2 in Hy by lia.
  replace (length init - length init)%nat with O in Hy by lia.
  simpl in Hy. inversion Hy; subst z. clear Hy.
  destruct (Nat.lt_ge_cases j (length init)) as [Hlt|Hge].
  - rewrite nth_error_app1 in Hx by assumption.
    rewrite insert_app_l by assumption.
    rewrite firstn_app, length_insert, Nat.sub_diag, firstn_all2
      by (rewrite length_insert; lia).
    simpl. rewrite app_nil_r. now apply insert_last_perm.
  - rewrite nth_error_app2 in Hx by assumption.
    destruct (j - length init)%nat as [|d] eqn:Hd;
      [|destruct d; discriminate].
    simpl in Hx. inversion Hx; subst x.
    assert (j = length init) as -> by lia.
    replace (length init) with (length init + 0)%nat at 2 by lia.
    rewrite insert_app_r. simpl.
    rewrite firstn_app, Nat.sub_diag, firstn_all. simpl.
    rewrite app_nil_r, Permutation_app_comm. reflexivity.
Qed.

Lemma sample_pool_spec {A} (k : nat) : forall (pool : list A) g sel g',
  sample_pool k pool g = Ok (sel, g') ->
  length sel = k /\ exists rest, Permutation pool (sel ++ rest).
Proof.
  induction k as [|k IH]; simpl; intros pool g sel g' H.
  - apply gret_Ok in H as [-> _]. split; [reflexivity|].
    exists pool. reflexivity.
  - gstep H j g1 Hj.
    destruct (nth_error pool (Z.to_nat j)) as [x|] eqn:Hx; [|discriminate].
    destruct (nth_error pool (length pool - 1)) as [y|] eqn:Hy;
      [|discriminate].
    gstep H rest g2 Hrest. apply gret_Ok in H as [-> _].
    apply IH in Hrest as [Hlen [others Hperm]].
    split; [simpl; congruence|].
    exists others. rewrite (swap_remove_perm _ _ _ _ Hx Hy). simpl.
    now apply perm_skip.
Qed.

Lemma sample_spec {A} (population : list A) (k : nat) g sel g' :
  sample population k g = Ok (sel, g') ->
  length sel = k /\ exists rest, Permutation population (sel ++ rest).
Proof.
  unfold sample. destruct (length population <? k)%nat; [discriminate|].
  apply sample_pool_spec.
Qed.

Lemma choice_In {A} (seq : list A) g x g' :
  choice seq g = Ok (x, g') -> In x seq.
Proof.
  unfold choice. destruct seq as [|y ys]; [discriminate|].
  intros H. gstep H i g1 Hi. apply gret_Ok in H as [-> _].
  destruct (Nat.lt_ge_cases (Z.to_nat i) (length (y :: ys))) as [Hlt|Hge].
  - now apply nth_In.
  - rewrite nth_overflow by exact Hge. now left.
Qed.

Lemma pad_selected_spec (missing : nat) :
  forall selected g padded g',
    pad_selected missing selected g = Ok (padded, g') ->
    exists extras,
      padded = selected ++ extras /\ length extras = missing /\
      Forall (fun it => In it default_items) extras.
Proof.
  induction missing as [|m IH]; cbn [pad_selected];
    intros selected g padded g' H.
  - apply gret_Ok in H as [-> _]. exists []. rewrite app_nil_r. auto.
  - gstep H extra g1 Hextra. apply choice_In in Hextra.
    apply IH in H as (extras & -> & Hlen & Hall).
    exists (extra :: extras). rewrite <- app_assoc. simpl.
    repeat split; [congruence|]. constructor; assumption.
Qed.

Lemma gmapM_Forall2 {A B} (f : A -> gen B) (R : A -> B -> Prop) :
  (forall x g y g', f x g = Ok (y, g') -> R x y) ->
  forall l g ys g', gmapM f l g = Ok (ys, g') -> Forall2 R l ys.
Proof.
  intros Hf. induction l as [|x t IH]; simpl; intros g ys g' H.
  - apply gret_Ok in H as [-> _]. constructor.
  - gstep H y g1 Hy. gstep H ys' g2 Hys. apply gret_Ok in H as [-> _].
    constructor; eauto.
Qed.

End MenuGeneration.


(** ** The generated menu *)

Section GeneratedMenu.

Import Generator.
Context {RS : RandomSource}.

Ltac gstep H x g Hx :=
  apply gbind_Ok in H as (x & g & Hx & H).

(** The catalog a restaurant's items are sampled from. *)
Definition catalog_of (r : restaurant) : list catalog_item :=
  default default_items (cuisine_items !! r_cuisine_type r).

(** What [generate_menu_item] makes of a catalog entry. *)
Record menu_item_from (r : restaurant) (it : catalog_item)
    (mi : menu_item_row) : Prop := {
  from_restaurant : mi_restaurant_id mi = r_restaurant_id r;
  from_entry :
    (mi_item_name mi, mi_description mi, mi_category mi) = fst it;
  from_calories : (snd it - 50 <= mi_calories mi <= snd it + 100)%Z;
  from_available : mi_is_available mi = 0%Z \/ mi_is_available mi = 1%Z;
  from_popular : mi_is_popular mi = 0%Z \/ mi_is_popular mi = 1%Z;
  from_prep : (10 <= mi_prep_time_minutes mi <= 30)%Z;
  from_created :
    r_created_date r + 1 <= mi_created_date mi <= r_created_date r + 30
}.

Lemma generate_menu_item_from r it g mi g' :
  generate_menu_item r it g = Ok (mi, g') -> menu_item_from r it mi.
Proof.
  destruct it as [[[item_name description] category] base_calories].
  unfold generate_menu_item. intros H.
  gstep H base_price g1 Hp. gstep H ratio g2 Hr.
  gstep H avail g3 Ha. gstep H cal g4 Hc. gstep H prep g5 Hpr.
  gstep H days g6 Hd. gstep H pop g7 Hpop.
  apply gret_Ok in H as [-> _].
  apply choice_In in Ha, Hpop.
  apply randint_range in Hc, Hpr, Hd; try lia.
  constructor; cbn [mi_restaurant_id mi_item_name mi_description mi_category
                    mi_calories mi_is_available mi_is_popular
                    mi_prep_time_minutes mi_created_date fst snd].
  - reflexivity.
  - reflexivity.
  - lia.
  - simpl in Ha. intuition.
  - simpl in Hpop. intuition.
  - exact Hpr.
  - destruct Hd as [Hd1 Hd2]. rewrite Zle_Qle in Hd1, Hd2.
    change (inject_Z 1) with 1 in Hd1. change (inject_Z 30) with 30 in Hd2.
    split; lra.
Qed.

(** The loop body for one restaurant: the whole catalog when it has at
    most as many entries as items are wanted, filled up with default
    items. *)
Lemma generate_restaurant_menu_spec r g items g' :
  generate_restaurant_menu r g = Ok (items, g') ->
  exists sampled extras rest,
    Forall2 (menu_item_from r) (sampled ++ extras) items /\
    (6 <= length (sampled ++ extras) <= 12)%nat /\
    Permutation (catalog_of r) (sampled ++ rest) /\
    length sampled = Nat.min (length (catalog_of r))
                       (length (sampled ++ extras)) /\
    Forall (fun it => In it default_items) extras.
Proof.
  unfold generate_restaurant_menu. fold (catalog_of r). intros H.
  gstep H n g1 Hn. apply randint_range in Hn; [|lia].
  gstep H sampled g2 Hs. apply sample_spec in Hs as [Hlen [rest Hperm]].
  gstep H padded g3 Hpad.
  apply pad_selected_spec in Hpad as (extras & -> & Hextras & Hdefault).
  exists sampled, extras, rest.
  assert (length (sampled ++ extras) = Z.to_nat n) as Htotal.
  { rewrite length_app, Hextras, Hlen. lia. }
  split; [|split; [lia|split; [exact Hperm|split; [|exact Hdefault]]]].
  - eapply gmapM_Forall2; [|exact H].
    intros x g0 y g0'. apply generate_menu_item_from.
  - rewrite Htotal. exact Hlen.
Qed.

Lemma Forall2_In_r {A B} (R : A -> B -> Prop) (l : list A) (l' : list B) y :
  Forall2 R l l' -> In y l' -> exists x, In x l /\ R x y.
Proof.
  induction 1 as [|a b l l' Hab _ IH]; intros Hy; [contradiction|].
  destruct Hy as [<-|Hy]; [exists a; split; [now left|exact Hab]|].
  destruct (IH Hy) as (x & Hx & Hxy). exists x. split; [now right|exact Hxy].
Qed.

Lemma Forall2_In_l {A B} (R : A -> B -> Prop) (l : list A) (l' : list B) x :
  Forall2 R l l' -> In x l -> exists y, In y l' /\ R x y.
Proof.
  induction 1 as [|a b l l' Hab _ IH]; intros Hx; [contradiction|].
  destruct Hx as [<-|Hx]; [exists b; split; [now left|exact Hab]|].
  destruct (IH Hx) as (y & Hy & Hxy). exists y. split; [now right|exact Hxy].
Qed.

(** Every catalog has five or six entries. *)
Lemma catalog_of_length (r : restaurant) :
  (5 <= length (catalog_of r) <= 6)%nat.
Proof.
  unfold catalog_of.
  destruct (cuisine_items !! r_cuisine_type r) as [l|] eqn:E;
    [|simpl; lia].
  unfold cuisine_items in E. apply elem_of_list_to_map_2 in E.
  repeat (apply elem_of_cons in E as [E|E];
          [inversion E; subst; simpl; lia|]).
  now apply elem_of_nil in E.
Qed.

(** What one restaurant's block of the menu looks like. *)
Definition menu_block (r : restaurant) (block : list menu_item_row) : Prop :=
  exists sampled extras,
    Forall2 (menu_item_from r) (sampled ++ extras) block /\
    (6 <= length block <= 12)%nat /\
    Permutation (catalog_of r) sampled /\
    Forall (fun it => In it default_items) extras.

Lemma generate_restaurant_menu_block r g items g' :
  generate_restaurant_menu r g = Ok (items, g') -> menu_block r items.
Proof.
  intros H.
  apply generate_restaurant_menu_spec in H
    as (sampled & extras & rest & Hall & Hn & Hperm & Hlen & Hdefault).
  exists sampled, extras.
  pose proof (catalog_of_length r) as Hcat.
  split; [exact Hall|]. split.
  - apply Forall2_length in Hall as Hl. rewrite <- Hl. exact Hn.
  - split; [|exact Hdefault].
    rewrite Nat.min_l in Hlen by lia.
    apply Permutation_length in Hperm as Hl. rewrite length_app in Hl.
    destruct rest; [now rewrite app_nil_r in Hperm|simpl in Hl; lia].
Qed.

(** The menu is the concatenation of one block per restaurant. *)
Lemma generate_menu_items_blocks restaurants_df g items g' :
  generate_menu_items restaurants_df g = Ok (items, g') ->
  exists blocks,
    items = concat blocks /\ Forall2 menu_block restaurants_df blocks.
Proof.
  unfold generate_menu_items. intros H.
  gstep H blocks g1 Hblocks. apply gret_Ok in H as [-> _].
  exists blocks. split; [reflexivity|].
  eapply gmapM_Forall2; [|exact Hblocks].
  intros r g0 blk g0'. apply generate_restaurant_menu_block.
Qed.

Lemma menu_item_has_restaurant restaurants_df g items g' mi :
  generate_menu_items restaurants_df g = Ok (items, g') ->
  In mi items ->
  exists r it,
    In r restaurants_df /\ menu_item_from r it mi /\
    (In it (catalog_of r) \/ In it default_items).
Proof.
  intros H Hmi.
  apply generate_menu_items_blocks in H as (blocks & -> & Hblocks).
  apply in_concat in Hmi as (blk & Hblk & Hmi).
  destruct (Forall2_In_r _ _ _ _ Hblocks Hblk)
    as (r & Hr & sampled & extras & Hall & _ & Hperm & Hdefault).
  destruct (Forall2_In_r _ _ _ _ Hall Hmi) as (it & Hit & Hfrom).
  exists r, it. split; [exact Hr|]. split; [exact Hfrom|].
  apply in_app_or in Hit as [Hit|Hit].
  - left. now apply (Permutation_in _ (Permutation_sym Hperm)).
  - right. rewrite List.Forall_forall in Hdefault. now apply Hdefault.
Qed.

(** Every generated menu item belongs to a restaurant of the input, is
    flagged 0 or 1 for availability and popularity, takes 10 to 30
    minutes to prepare and is created 1 to 30 days after its
    restaurant. *)
Theorem generated_menu_item_fields
    (restaurants_df : list restaurant) (g : rng)
    (items : list menu_item_row) (g' : rng) :
  generate_menu_items restaurants_df g = Ok (items, g') ->
  forall mi, In mi items ->
    exists r, In r restaurants_df /\
      mi_restaurant_id mi = r_restaurant_id r /\
      (mi_is_available mi = 0%Z \/ mi_is_available mi = 1%Z) /\
      (mi_is_popular mi = 0%Z \/ mi_is_popular mi = 1%Z) /\
      (10 <= mi_prep_time_minutes mi <= 30)%Z /\
      r_created_date r + 1 <= mi_created_date mi <= r_created_date r + 30.
Proof.
  intros H mi Hmi.
  destruct (menu_item_has_restaurant _ _ _ _ _ H Hmi)
    as (r & it & Hr & Hfrom & _).
  exists r. destruct Hfrom. auto 10.
Qed.

(** Every generated menu item is an entry of its restaurant's cuisine
    catalog or of the default catalog: name, description and category
    are the entry's, and the calories are the entry's base calories
    changed by -50 to +100. *)
Theorem generated_menu_item_from_catalog
    (restaurants_df : list restaurant) (g : rng)
    (items : list menu_item_row) (g' : rng) :
  generate_menu_items restaurants_df g = Ok (items, g') ->
  forall mi, In mi items ->
    exists r name description category base_calories,
      In r restaurants_df /\
      mi_restaurant_id mi = r_restaurant_id r /\
      (In (name, description, category, base_calories)
          (default default_items (cuisine_items !! r_cuisine_type r)) \/
       In (name, description, category, base_calories) default_items) /\
      mi_item_name mi = name /\ mi_description mi = description /\
      mi_category mi = category /\
      (base_calories - 50 <= mi_calories mi <= base_calories + 100)%Z.
Proof.
  intros H mi Hmi.
  destruct (menu_item_has_restaurant _ _ _ _ _ H Hmi)
    as (r & [[[name description] category] base] & Hr & Hfrom & Hit).
  exists r, name, description, category, base.
  destruct Hfrom as [Hid Hentry Hcal _ _ _ _]. simpl in Hentry, Hcal.
  unfold catalog_of in Hit. injection Hentry as H1 H2 H3.
  split; [exact Hr|]. split; [exact Hid|]. split; [exact Hit|].
  repeat split; (assumption || lia).
Qed.

(** Every restaurant offers every entry of its catalog: the cuisine's
    six entries, or the five default entries when the cuisine is not in
    the table. *)
Theorem generated_menu_covers_catalog
    (restaurants_df : list restaurant) (g : rng)
    (items : list menu_item_row) (g' : rng) :
  generate_menu_items restaurants_df g = Ok (items, g') ->
  forall r name description category base_calories,
    In r restaurants_df ->
    In (name, description, category, base_calories)
       (default default_items (cuisine_items !! r_cuisine_type r)) ->
    exists mi, In mi items /\
      mi_restaurant_id mi = r_restaurant_id r /\
      mi_item_name mi = name /\ mi_description mi = description /\
      mi_category mi = category.
Proof.
  intros H r name description category base Hr Hit.
  apply generate_menu_items_blocks in H as (blocks & -> & Hblocks).
  destruct (Forall2_In_l _ _ _ _ Hblocks Hr)
    as (blk & Hblk & sampled & extras & Hall & _ & Hperm & _).
  fold (catalog_of r) in Hit.
  apply (Permutation_in _ Hperm) in Hit.
  assert (In (name, description, category, base) (sampled ++ extras)) as Hin
    by (apply in_or_app; now left).
  destruct (Forall2_In_l _ _ _ _ Hall Hin) as (mi & Hmi & Hfrom).
  exists mi. split; [apply in_concat; eauto|].
  destruct Hfrom as [Hid Hentry _ _ _ _ _]. simpl in Hentry.
  injection Hentry as H1 H2 H3. auto.
Qed.

Lemma menu_block_ids (r : restaurant) (block : list menu_item_row) :
  menu_block r block ->
  Forall (fun mi => mi_restaurant_id mi = r_restaurant_id r) block /\
  (6 <= length block <= 12)%nat.
Proof.
  intros (sampled & extras & Hall & Hlen & _ & _). split; [|exact Hlen].
  apply List.Forall_forall. intros mi Hmi.
  destruct (Forall2_In_r _ _ _ _ Hall Hmi) as (it & _ & Hfrom).
  now destruct Hfrom.
Qed.

Lemma blocks_total_length (rs : list restaurant)
    (blocks : list (list menu_item_row)) :
  Forall2 menu_block rs blocks ->
  (6 * length rs <= length (concat blocks) <= 12 * length rs)%nat.
Proof.
  induction 1 as [|r blk rs blocks Hblk _ IH]; simpl; [lia|].
  apply menu_block_ids in Hblk as [_ Hlen]. rewrite length_app. lia.
Qed.

Lemma blocks_of_restaurant (rs : list restaurant)
    (blocks : list (list menu_item_row)) (r : restaurant) :
  List.NoDup (map r_restaurant_id rs) ->
  Forall2 menu_block rs blocks ->
  In r rs ->
  exists blk,
    menu_block r blk /\
    List.filter (fun mi => (mi_restaurant_id mi =? r_restaurant_id r)%Z)
      (concat blocks) = blk.
Proof.
  intros Hkey Hblocks. revert Hkey.
  induction Hblocks as [|r0 blk rs blocks Hblk Hrest IH];
    intros Hkey Hr; [contradiction|].
  simpl in Hkey. apply List.NoDup_cons_iff in Hkey as [Hfresh Hkey].
  simpl. rewrite List.filter_app.
  pose proof (menu_block_ids _ _ Hblk) as [Hids _].
  destruct Hr as [->|Hr].
  - exists blk. split; [exact Hblk|].
    rewrite filter_keeps_all, filter_keeps_none.
    + apply app_nil_r.
    + apply List.Forall_forall. intros mi Hmi.
      apply in_concat in Hmi as (b & Hb & Hmi).
      destruct (Forall2_In_r _ _ _ _ Hrest Hb) as (r' & Hr' & Hblk').
      apply menu_block_ids in Hblk' as [Hids' _].
      rewrite List.Forall_forall in Hids'. rewrite (Hids' _ Hmi).
      apply Z.eqb_neq. intros E. apply Hfresh. rewrite <- E.
      now apply in_map.
    + eapply List.Forall_impl; [|exact Hids]. simpl.
      intros mi ->. apply Z.eqb_refl.
  - destruct (IH Hkey Hr) as (b & Hb & Hfilter).
    exists b. split; [exact Hb|].
    rewrite filter_keeps_none; [exact Hfilter|].
    eapply List.Forall_impl; [|exact Hids]. simpl.
    intros mi ->. apply Z.eqb_neq. intros E. apply Hfresh. rewrite E.
    now apply in_map.
Qed.

(** The menu has 6 to 12 items per restaurant; when [restaurant_id] is a
    key of the restaurants, each restaurant has 6 to 12 items of its
    own. *)
Theorem generated_menu_sizes
    (restaurants_df : list restaurant) (g : rng)
    (items : list menu_item_row) (g' : rng) :
  generate_menu_items restaurants_df g = Ok (items, g') ->
  (6 * length restaurants_df <= length items
   <= 12 * length restaurants_df)%nat /\
  (List.NoDup (map r_restaurant_id restaurants_df) ->
   forall r, In r restaurants_df ->
     (6 <= length (List.filter
                     (fun mi => (mi_restaurant_id mi =? r_restaurant_id r)%Z)
                     items) <= 12)%nat).
Proof.
  intros H.
  apply generate_menu_items_blocks in H as (blocks & -> & Hblocks).
  split; [now apply blocks_total_length|].
  intros Hkey r Hr.
  destruct (blocks_of_restaurant _ _ _ Hkey Hblocks Hr) as (blk & Hblk & ->).
  now apply menu_block_ids in Hblk as [_ Hlen].
Qed.

(** A restaurant whose cuisine is not in the table gets six or more items
    out of the five default entries, so that some item name occurs twice
    on its menu: restaurant and item name together are not a key of the
    generated menu. *)
Theorem generated_menu_repeats_default_items
    (restaurants_df : list restaurant) (g : rng)
    (items : list menu_item_row) (g' : rng) (r : restaurant) :
  generate_menu_items restaurants_df g = Ok (items, g') ->
  In r restaurants_df ->
  cuisine_items !! r_cuisine_type r = None ->
  ~ List.NoDup
      (map (fun mi => (mi_restaurant_id mi, mi_item_name mi)) items).
Proof.
  intros H Hr Hnone Hnodup.
  apply generate_menu_items_blocks in H as (blocks & -> & Hblocks).
  destruct (Forall2_In_l _ _ _ _ Hblocks Hr) as (blk & Hblk & Hblock).
  apply in_split in Hblk as (pre & post & ->).
  rewrite concat_app in Hnodup. simpl in Hnodup.
  rewrite !map_app in Hnodup.
  apply NoDup_app_remove_l, NoDup_app_remove_r in Hnodup.
  pose proof (menu_block_ids _ _ Hblock) as [Hids Hlen].
  destruct Hblock as (sampled & extras & Hall & _ & Hperm & Hdefault).
  assert (map (fun mi => (mi_restaurant_id mi, mi_item_name mi)) blk
          = map (pair (r_restaurant_id r)) (map mi_item_name blk)) as E.
  { rewrite map_map. apply map_ext_in. intros mi Hmi.
    rewrite List.Forall_forall in Hids. now rewrite (Hids _ Hmi). }
  rewrite E in Hnodup. apply NoDup_map_inv in Hnodup.
  assert (incl (map mi_item_name blk)
            (map (fun it : catalog_item => fst (fst (fst it))) default_items))
    as Hincl.
  { intros name Hname. apply in_map_iff in Hname as (mi & <- & Hmi).
    destruct (Forall2_In_r _ _ _ _ Hall Hmi) as (it & Hit & Hfrom).
    destruct Hfrom as [_ Hentry _ _ _ _ _].
    apply in_map_iff. exists it. split.
    - rewrite <- Hentry. reflexivity.
    - apply in_app_or in Hit as [Hit|Hit].
      + apply (Permutation_in _ (Permutation_sym Hperm)) in Hit.
        unfold catalog_of in Hit. now rewrite Hnone in Hit.
      + rewrite List.Forall_forall in Hdefault. now apply Hdefault. }
  apply (NoDup_incl_length Hnodup) in Hincl.
  rewrite !length_map in Hincl. simpl in Hincl. lia.
Qed.

End GeneratedMenu.

Lemma generated_menu_item_fields_witness :
  exists items g' mi,
    Generator.generate_menu_items Demo.restaurants demo_seed = Ok (items, g') /\
    In mi items /\
    exists r, In r Demo.restaurants /\
      mi_restaurant_id mi = r_restaurant_id r /\
      (mi_is_available mi = 0%Z \/ mi_is_available mi = 1%Z) /\
      (mi_is_popular mi = 0%Z \/ mi_is_popular mi = 1%Z) /\
      (10 <= mi_prep_time_minutes mi <= 30)%Z /\
      r_created_date r + 1 <= mi_created_date mi <= r_created_date r + 30.
Proof.
  eexists _, _, _.
  split; [vm_compute; reflexivity|].
  split; [left; reflexivity|].
  eapply (generated_menu_item_fields Demo.restaurants demo_seed).
  - vm_compute. reflexivity.
  - left. reflexivity.
Defined.

Lemma generated_menu_item_from_catalog_witness :
  exists items g' mi,
    Generator.generate_menu_items Demo.restaurants demo_seed = Ok (items, g') /\
    In mi items /\
    exists r name description category base_calories,
      In r Demo.restaurants /\
      mi_restaurant_id mi = r_restaurant_id r /\
      (In (name, description, category, base_calories)
          (default Generator.default_items
             (Generator.cuisine_items !! r_cuisine_type r)) \/
       In (name, description, category, base_calories)
          Generator.default_items) /\
      mi_item_name mi = name /\ mi_description mi = description /\
      mi_category mi = category /\
      (base_calories - 50 <= mi_calories mi <= base_calories + 100)%Z.
Proof.
  eexists _, _, _.
  split; [vm_compute; reflexivity|].
  split; [left; reflexivity|].
  eapply (generated_menu_item_from_catalog Demo.restaurants demo_seed).
  - vm_compute. reflexivity.
  - left. reflexivity.
Defined.

Lemma generated_menu_covers_catalog_witness :
  exists items g' r,
    Generator.generate_menu_items Demo.restaurants demo_seed = Ok (items, g') /\
    In r Demo.restaurants /\
    In ("Tiramisu", "Classic Italian dessert", "Dessert", 320%Z)
       (default Generator.default_items
          (Generator.cuisine_items !! r_cuisine_type r)) /\
    exists mi, In mi items /\
      mi_restaurant_id mi = r_restaurant_id r /\
      mi_item_name mi = "Tiramisu" /\
      mi_description mi = "Classic Italian dessert" /\
      mi_category mi = "Dessert".
Proof.
  eexists _, _, _.
  split; [vm_compute; reflexivity|].
  split; [left; reflexivity|].
  assert (In ("Tiramisu", "Classic Italian dessert", "Dessert", 320%Z)
            (default Generator.default_items
               (Generator.cuisine_items
                  !! r_cuisine_type
                       (nth 0 Demo.restaurants
                          (Build_restaurant 0 "" "" "" 0 0 0))))) as Hit.
  { vm_compute. tauto. }
  split; [exact Hit|].
  eapply (generated_menu_covers_catalog Demo.restaurants demo_seed).
  - vm_compute. reflexivity.
  - left. reflexivity.
  - exact Hit.
Defined.

Lemma generated_menu_sizes_witness :
  exists items g',
    Generator.generate_menu_items Demo.restaurants demo_seed = Ok (items, g') /\
    (6 * length Demo.restaurants <= length items
     <= 12 * length Demo.restaurants)%nat /\
    (List.NoDup (map r_restaurant_id Demo.restaurants) ->
     forall r, In r Demo.restaurants ->
       (6 <= length (List.filter
                       (fun mi => (mi_restaurant_id mi =? r_restaurant_id r)%Z)
                       items) <= 12)%nat).
Proof.
  eexists _, _.
  split; [vm_compute; reflexivity|].
  eapply (generated_menu_sizes Demo.restaurants demo_seed).
  vm_compute. reflexivity.
Defined.

Lemma generated_menu_repeats_default_items_witness :
  exists items g' r,
    Generator.generate_menu_items Demo.restaurants demo_seed = Ok (items, g') /\
    In r Demo.restaurants /\
    Generator.cuisine_items !! r_cuisine_type r = None /\
    ~ List.NoDup
        (map (fun mi => (mi_restaurant_id mi, mi_item_name mi)) items).
Proof.
  eexists _, _, _.
  split; [vm_compute; reflexivity|].
  split; [right; left; reflexivity|].
  split; [vm_compute; reflexivity|].
  eapply (generated_menu_repeats_default_items Demo.restaurants demo_seed).
  - vm_compute. reflexivity.
  - right. left. reflexivity.
  - vm_compute. reflexivity.
Defined.

(** ** The generated orders *)

Section GeneratedOrders.

Import Generator.
Context {RS : RandomSource}.

Ltac gstep H x g Hx :=
  apply gbind_Ok in H as (x & g & Hx & H).

Lemma df_sample_one_In {A} (rows : list A) g x g' :
  df_sample_one rows g = Ok (x, g') -> In x rows.
Proof.
  unfold df_sample_one. intros H. gstep H s g1 Hs.
  apply df_sample_spec in Hs as [_ [rest Hperm]].
  destruct s as [|y s]; [discriminate|].
  apply gret_Ok in H as [-> _].
  apply (Permutation_in _ (Permutation_sym Hperm)). now left.
Qed.

(** What [generate_order_item] makes of a menu item, for an order of a
    given status. *)
Record line_from (order_id : Z) (status : string) (item : menu_item)
    (oi : order_item) : Prop := {
  line_order : oi_order_id oi = order_id;
  line_item : oi_item_id oi = mi_item_id item;
  line_price : oi_unit_price oi = mi_price (mi_row item);
  line_quantity : (1 <= oi_quantity oi <= 3)%Z;
  line_rating :
    match oi_item_rating oi with
    | Some stars => status = "completed" /\ (3 <= stars <= 5)%Z
    | None => True
    end
}.

Lemma generate_order_item_from order_id status item g oi g' :
  generate_order_item order_id status item g = Ok (oi, g') ->
  line_from order_id status item oi.
Proof.
  unfold generate_order_item. intros H.
  gstep H quantity g1 Hq. gstep H r g2 Hr.
  gstep H special g3 Hs. gstep H rating g4 Hrt.
  apply gret_Ok in H as [-> _].
  apply np_choice_In in Hq.
  constructor; cbn [oi_order_id oi_item_id oi_unit_price oi_quantity
                    oi_item_rating]; try reflexivity.
  - simpl in Hq. lia.
  - destruct (String.eqb_spec status "completed") as [->|Hne].
    + gstep Hrt r' g5 Hr'.
      destruct (Qlt_bool r' 0.7).
      * gstep Hrt stars g6 Hstars. apply gret_Ok in Hrt as [-> _].
        apply randint_range in Hstars; [|lia]. auto.
      * now apply gret_Ok in Hrt as [-> _].
    + now apply gret_Ok in Hrt as [-> _].
Qed.

Lemma order_items_loop_from order_id status :
  forall selected subtotal acc g subtotal' items g',
    order_items_loop order_id status selected subtotal acc g
      = Ok ((subtotal', items), g') ->
    exists new,
      items = acc ++ new /\
      subtotal' == subtotal + order_subtotal new /\
      Forall2 (line_from order_id status) selected new.
Proof.
  induction selected as [|item rest IH]; cbn [order_items_loop];
    intros subtotal acc g subtotal' items g' H.
  - apply gret_Ok in H as [E _]. inversion E; subst.
    exists []. rewrite app_nil_r. repeat split; [|constructor].
    unfold order_subtotal; simpl; lra.
  - gstep H oi g1 Hoi. apply generate_order_item_from in Hoi.
    apply IH in H as (new & -> & Hsub & Hall).
    exists (oi :: new). rewrite <- app_assoc. simpl.
    repeat split; [|now constructor].
    rewrite Hsub. change (oi :: new) with ([oi] ++ new).
    rewrite order_subtotal_app. unfold order_subtotal at 2, line_total.
    simpl. lra.
Qed.

(** What one turn of the order loop establishes beyond [order_ok]. *)
Record order_details (customers_df : list customer)
    (restaurants_df : list restaurant) (menu_items_df : list menu_item)
    (o : order) (lines : list order_item) : Prop := {
  det_customer :
    exists c, In c customers_df /\ o_customer_id o = c_customer_id c;
  det_restaurant :
    exists r, In r restaurants_df /\ o_restaurant_id o = r_restaurant_id r;
  det_status : In (o_status o) statuses;
  det_payment : In (o_payment_method o) payment_methods;
  det_source : In (o_order_source o) order_sources;
  det_fee : 1.99 <= o_delivery_fee o <= 4.99;
  det_money :
    exists subtotal tip_pct discount_pct,
      subtotal == order_subtotal lines /\
      0.1 <= tip_pct <= 0.25 /\ 0 <= discount_pct <= 0.15 /\
      o_tax_amount o = round2 (subtotal * 0.08) /\
      o_tip_amount o
        = (if String.eqb (o_status o) "completed"
           then round2 (subtotal * tip_pct) else 0) /\
      (o_discount_amount o = 0 \/
       o_discount_amount o = round2 (subtotal * discount_pct)) /\
      o_total_amount o
        = round2 (subtotal + o_delivery_fee o + o_tax_amount o
                  + o_tip_amount o - o_discount_amount o);
  det_lines :
    exists selected,
      Forall2 (line_from (o_order_id o) (o_status o)) selected lines /\
      Forall (fun mi => In mi (available_items menu_items_df
                                 (o_restaurant_id o))) selected
}.

Lemma generate_order_details now customers_df restaurants_df menu_items_df
    order_id g o lines g' :
  generate_order now customers_df restaurants_df menu_items_df order_id g
    = Ok (Some (o, lines), g') ->
  order_details customers_df restaurants_df menu_items_df o lines.
Proof.
  unfold generate_order. intros H.
  gstep H cst g1 Hc. gstep H rst g2 Hr.
  gstep H days_ago g3 Hd. gstep H hour g4 Hh. gstep H minute g5 Hm.
  gstep H status g6 Hst.
  fold (available_items menu_items_df (r_restaurant_id rst)) in H.
  set (restaurant_items :=
         available_items menu_items_df (r_restaurant_id rst)) in *.
  destruct (length restaurant_items =? 0)%nat eqn:Hlen.
  { apply gret_Ok in H as [E _]. discriminate. }
  gstep H num_items g7 Hn. gstep H selected g8 Hsel.
  gstep H looped g9 Hloop. destruct looped as [subtotal items].
  gstep H fee g10 Hfee. gstep H tip g11 Htip. gstep H r g12 Hrnd.
  gstep H discount g13 Hdisc. gstep H minutes g14 Hmin.
  gstep H payment g15 Hpay. gstep H source g16 Hsrc.
  apply gret_Ok in H as [E _]. inversion E; subst o lines; clear E.
  clear Hd Hh Hm Hrnd Hmin Hn.
  apply df_sample_one_In in Hc, Hr.
  apply choice_In in Hst, Hpay, Hsrc.
  apply df_sample_spec in Hsel as [_ [rest Hperm]].
  apply order_items_loop_from in Hloop as (new & -> & Hsub & Hall).
  rewrite app_nil_l.
  apply uniform_range in Hfee; [|lra].
  assert (exists tip_pct, 0.1 <= tip_pct <= 0.25 /\
            tip = if String.eqb status "completed"
                  then round2 (subtotal * tip_pct) else 0)
    as (tip_pct & Htp & ->).
  { destruct (String.eqb status "completed").
    - gstep Htip pct gtip Hpct. apply gret_Ok in Htip as [-> _].
      apply uniform_range in Hpct; [|lra]. eauto.
    - apply gret_Ok in Htip as [-> _]. exists 0.1. split; [lra|reflexivity]. }
  assert (exists discount_pct, 0 <= discount_pct <= 0.15 /\
            (discount = 0 \/ discount = round2 (subtotal * discount_pct)))
    as (discount_pct & Hdp & Hdiscount).
  { destruct (Qlt_bool r 0.2).
    - gstep Hdisc pct gdisc Hpct. apply gret_Ok in Hdisc as [-> _].
      apply uniform_range in Hpct; [|lra]. eauto.
    - apply gret_Ok in Hdisc as [-> _]. exists 0. split; [lra|now left]. }
  constructor;
    cbn [o_order_id o_customer_id o_restaurant_id o_total_amount o_status
         o_delivery_fee o_tax_amount o_tip_amount o_payment_method
         o_order_source o_discount_amount]; eauto.
  - apply (round2_between 199 499). exact Hfee.
  - exists subtotal, tip_pct, discount_pct.
    rewrite Qplus_0_l in Hsub. auto 10.
  - exists selected. split; [exact Hall|].
    apply List.Forall_forall. intros mi Hmi.
    apply (Permutation_in _ (Permutation_sym Hperm)).
    apply in_or_app. now left.
Qed.

(** The loop over order ids: the orders come with increasing ids from the
    range, every appended order item carries the id of an appended order,
    and what a turn establishes for its order holds for the order with
    the items found under its id. *)
Lemma orders_loop_each (P : order -> list order_item -> Prop)
    now customers_df restaurants_df menu_items_df :
  (forall id g o lines g',
     generate_order now customers_df restaurants_df menu_items_df id g
       = Ok (Some (o, lines), g') -> P o lines) ->
  forall count order_id orders0 items0 g orders order_items g',
    orders_loop now customers_df restaurants_df menu_items_df
      count order_id orders0 items0 g = Ok ((orders, order_items), g') ->
    exists new_orders new_items,
      orders = orders0 ++ new_orders /\
      order_items = items0 ++ new_items /\
      Forall (fun oi => In (oi_order_id oi) (map o_order_id new_orders))
        new_items /\
      Forall (fun o => (order_id <= o_order_id o < order_id + Z.of_nat count)%Z
                       /\ P o (order_lines new_items o)) new_orders /\
      StronglySorted Z.lt (map o_order_id new_orders) /\
      (length new_orders <= count)%nat.
Proof.
  intros HP.
  induction count as [|count IH]; cbn [orders_loop];
    intros order_id orders0 items0 g orders order_items g' H.
  - apply gret_Ok in H as [E _]. inversion E; subst.
    exists [], []. rewrite !app_nil_r. repeat split; constructor.
  - gstep H generated g1 Hgen.
    destruct generated as [[o lines]|].
    + pose proof (HP _ _ _ _ _ Hgen) as Ho.
      apply generate_order_spec in Hgen.
      apply IH in H
        as (new_orders & new_items & -> & -> & Hitems & Horders & Hsorted
            & Hcount).
      exists (o :: new_orders), (lines ++ new_items).
      rewrite <- !app_assoc.
      pose proof (ok_order_id _ _ _ _ Hgen) as Hid.
      pose proof (ok_line_ids _ _ _ _ Hgen) as Hlines.
      assert (Forall (fun o' => (order_id < o_order_id o')%Z) new_orders)
        as Hlater.
      { eapply List.Forall_impl; [|exact Horders]. simpl. intros; lia. }
      assert (Forall (fun oi => (order_id < oi_order_id oi)%Z) new_items)
        as Hlater_items.
      { apply List.Forall_forall. intros oi Hoi.
        rewrite List.Forall_forall in Hitems, Hlater.
        specialize (Hitems _ Hoi).
        apply in_map_iff in Hitems as (o' & <- & Ho').
        now apply Hlater. }
      split; [reflexivity|]. split; [reflexivity|]. split; [|split; [|split]].
      * apply Forall_app. split.
        -- eapply List.Forall_impl; [|exact Hlines]. simpl.
           intros oi ->. left. exact Hid.
        -- eapply List.Forall_impl; [|exact Hitems]. simpl.
           intros oi Hoi. now right.
      * constructor.
        -- split; [lia|]. unfold order_lines.
           rewrite List.filter_app, filter_keeps_all, filter_keeps_none.
           ++ now rewrite app_nil_r.
           ++ eapply List.Forall_impl; [|exact Hlater_items]. simpl.
              intros oi Hoi. apply Z.eqb_neq. lia.
           ++ eapply List.Forall_impl; [|exact Hlines]. simpl.
              intros oi Hoi. apply Z.eqb_eq. congruence.
        -- rewrite List.Forall_forall in Horders, Hlater.
           apply List.Forall_forall. intros o' Ho'.
           destruct (Horders _ Ho') as [Hrange HPo'].
           specialize (Hlater _ Ho'). split; [lia|].
           unfold order_lines in *.
           rewrite List.filter_app, filter_keeps_none; [exact HPo'|].
           eapply List.Forall_impl; [|exact Hlines]. simpl.
           intros oi Hoi. apply Z.eqb_neq. lia.
      * simpl. constructor; [exact Hsorted|].
        rewrite Hid. apply List.Forall_forall. intros id Hin.
        apply in_map_iff in Hin as (o' & <- & Ho').
        rewrite List.Forall_forall in Hlater. now apply Hlater.
      * simpl. lia.
    + apply IH in H
        as (new_orders & new_items & -> & -> & Hitems & Horders & Hsorted
            & Hcount).
      exists new_orders, new_items.
      split; [reflexivity|]. split; [reflexivity|].
      split; [exact Hitems|]. split; [|split; [exact Hsorted|lia]].
      eapply List.Forall_impl; [|exact Horders]. simpl.
      intros o' [Hrange HPo']. split; [lia|exact HPo'].
Qed.

Lemma generated_orders_each (P : order -> list order_item -> Prop)
    now customers_df restaurants_df menu_items_df num_orders g
    orders order_items g' :
  (forall id g o lines g',
     generate_order now customers_df restaurants_df menu_items_df id g
       = Ok (Some (o, lines), g') -> P o lines) ->
  generate_orders_and_items now customers_df restaurants_df menu_items_df
    num_orders g = Ok ((orders, order_items), g') ->
  Forall (fun oi => In (oi_order_id oi) (map o_order_id orders)) order_items /\
  Forall (fun o => (1 <= o_order_id o <= Z.of_nat num_orders)%Z
                   /\ P o (order_lines order_items o)) orders /\
  StronglySorted Z.lt (map o_order_id orders) /\
  (length orders <= num_orders)%nat.
Proof.
  unfold generate_orders_and_items. intros HP H.
  apply (orders_loop_each P _ _ _ _ HP) in H
    as (new_orders & new_items & -> & -> & Hitems & Horders & Hsorted & Hn).
  simpl. split; [exact Hitems|]. split; [|split; assumption].
  eapply List.Forall_impl; [|exact Horders]. simpl.
  intros o [Hrange HPo]. split; [lia|exact HPo].
Qed.

(** Order ids are handed out in increasing order from 1 to [num_orders]:
    they are pairwise distinct, there are at most [num_orders] orders, and
    every generated order item carries the id of a generated order. *)
Theorem generated_order_ids
    (now : timestamp) (customers_df : list customer)
    (restaurants_df : list restaurant) (menu_items_df : list menu_item)
    (num_orders : nat) (g : rng)
    (orders : list order) (order_items : list order_item) (g' : rng) :
  generate_orders_and_items now customers_df restaurants_df menu_items_df
    num_orders g = Ok ((orders, order_items), g') ->
  StronglySorted Z.lt (map o_order_id orders) /\
  List.NoDup (map o_order_id orders) /\
  (forall o, In o orders -> (1 <= o_order_id o <= Z.of_nat num_orders)%Z) /\
  (length orders <= num_orders)%nat /\
  (forall oi, In oi order_items ->
     exists o, In o orders /\ oi_order_id oi = o_order_id o).
Proof.
  intros H.
  apply (generated_orders_each (fun _ _ => True)) in H
    as (Hitems & Horders & Hsorted & Hn); [|auto].
  split; [exact Hsorted|]. split; [|split; [|split; [exact Hn|]]].
  - clear -Hsorted. induction Hsorted as [|id ids _ IH Hlt]; constructor;
      [|exact IH].
    intros Hin. rewrite List.Forall_forall in Hlt.
    specialize (Hlt _ Hin). lia.
  - intros o Ho. rewrite List.Forall_forall in Horders.
    now destruct (Horders _ Ho).
  - intros oi Hoi. rewrite List.Forall_forall in Hitems.
    specialize (Hitems _ Hoi).
    apply in_map_iff in Hitems as (o & Hid & Ho). eauto.
Qed.

(** Every generated order references a customer and a restaurant of the
    input frames, and its status, payment method and order source are
    taken from the three fixed lists. *)
Theorem generated_order_references
    (now : timestamp) (customers_df : list customer)
    (restaurants_df : list restaurant) (menu_items_df : list menu_item)
    (num_orders : nat) (g : rng)
    (orders : list order) (order_items : list order_item) (g' : rng) :
  generate_orders_and_items now customers_df restaurants_df menu_items_df
    num_orders g = Ok ((orders, order_items), g') ->
  forall o, In o orders ->
    (exists c, In c customers_df /\ o_customer_id o = c_customer_id c) /\
    (exists r, In r restaurants_df /\ o_restaurant_id o = r_restaurant_id r) /\
    In (o_status o) ["completed"; "cancelled"; "pending"] /\
    In (o_payment_method o)
       ["credit_card"; "debit_card"; "paypal"; "cash"; "apple_pay"] /\
    In (o_order_source o) ["app"; "website"; "phone"].
Proof.
  intros H o Ho.
  apply (generated_orders_each
           (order_details customers_df restaurants_df menu_items_df)) in H
    as (_ & Horders & _); [|intros *; apply generate_order_details].
  rewrite List.Forall_forall in Horders.
  destruct (Horders _ Ho) as [_ Hdet].
  destruct Hdet as [Hc Hr Hst Hpay Hsrc _ _ _].
  split; [exact Hc|]. split; [exact Hr|]. split; [|split; assumption].
  unfold statuses in Hst. simpl in Hst. simpl. intuition.
Qed.

(** Every item of a generated order has a quantity from 1 to 3 and the
    price of an available menu item of the order's restaurant with its
    item id; it is rated only when the order is completed, with 3 to 5
    stars. *)
Theorem generated_order_item_fields
    (now : timestamp) (customers_df : list customer)
    (restaurants_df : list restaurant) (menu_items_df : list menu_item)
    (num_orders : nat) (g : rng)
    (orders : list order) (order_items : list order_item) (g' : rng) :
  generate_orders_and_items now customers_df restaurants_df menu_items_df
    num_orders g = Ok ((orders, order_items), g') ->
  forall o oi, In o orders -> In oi (order_lines order_items o) ->
    (1 <= oi_quantity oi <= 3)%Z /\
    (exists mi, In mi menu_items_df /\
       mi_item_id mi = oi_item_id oi /\
       mi_restaurant_id (mi_row mi) = o_restaurant_id o /\
       mi_is_available (mi_row mi) = 1%Z /\
       oi_unit_price oi = mi_price (mi_row mi)) /\
    (forall stars, oi_item_rating oi = Some stars ->
       o_status o = "completed" /\ (3 <= stars <= 5)%Z).
Proof.
  intros H o oi Ho Hoi.
  apply (generated_orders_each
           (order_details customers_df restaurants_df menu_items_df)) in H
    as (_ & Horders & _); [|intros *; apply generate_order_details].
  rewrite List.Forall_forall in Horders.
  destruct (Horders _ Ho) as [_ Hdet].
  destruct (det_lines _ _ _ _ _ Hdet) as (selected & Hall & Havail).
  destruct (Forall2_In_r _ _ _ _ Hall Hoi) as (mi & Hmi & Hline).
  rewrite List.Forall_forall in Havail. specialize (Havail _ Hmi).
  apply List.filter_In in Havail as [Hin Hcond].
  apply andb_true_iff in Hcond as [Hr Ha]. apply Z.eqb_eq in Hr, Ha.
  destruct Hline as [_ Hitem Hprice Hq Hrating].
  split; [exact Hq|]. split.
  - exists mi. auto 10.
  - intros stars Hstars. now rewrite Hstars in Hrating.
Qed.

Lemma round2_lower (lo : Z) (x : Q) :
  inject_Z lo / 100 <= x -> inject_Z lo / 100 <= round2 x.
Proof.
  intros Hlo. unfold round2.
  assert (inject_Z lo <= x * 100) as Hl.
  { unfold Qdiv in Hlo. change (/ 100) with (1 # 100) in Hlo. lra. }
  apply round_half_even_mono_Z in Hl. rewrite Zle_Qle in Hl.
  unfold Qdiv. change (/ 100) with (1 # 100). lra.
Qed.

Lemma round2_nonneg (x : Q) : 0 <= x -> 0 <= round2 x.
Proof.
  intros Hx.
  assert (inject_Z 0 / 100 <= round2 x) as H.
  { apply round2_lower. change (inject_Z 0 / 100) with (0 # 100). lra. }
  change (inject_Z 0 / 100) with (0 # 100) in H. lra.
Qed.

Lemma order_subtotal_nonneg (lines : list order_item) :
  Forall (fun oi => 0 <= line_total oi) lines -> 0 <= order_subtotal lines.
Proof.
  unfold order_subtotal. induction 1 as [|oi t Hoi _ IH]; simpl; lra.
Qed.

(** With no negative price on the menu, the amounts of every generated
    order are non-negative: the fee is between 1.99 and 4.99, the tax is
    8% of the subtotal, the tip is 10% to 25% of the subtotal on a
    completed order and zero otherwise, the discount is at most 15% of
    the subtotal (each up to rounding), and the total is at least 1.98. *)
Theorem generated_order_amounts
    (now : timestamp) (customers_df : list customer)
    (restaurants_df : list restaurant) (menu_items_df : list menu_item)
    (num_orders : nat) (g : rng)
    (orders : list order) (order_items : list order_item) (g' : rng) :
  Forall (fun mi => 0 <= mi_price (mi_row mi)) menu_items_df ->
  generate_orders_and_items now customers_df restaurants_df menu_items_df
    num_orders g = Ok ((orders, order_items), g') ->
  forall o, In o orders ->
    let subtotal := order_subtotal (order_lines order_items o) in
    0 <= subtotal /\
    1.99 <= o_delivery_fee o <= 4.99 /\
    0 <= o_tax_amount o /\
    Qabs (o_tax_amount o - 0.08 * subtotal) <= 1 # 200 /\
    0 <= o_tip_amount o /\
    (o_status o <> "completed" -> o_tip_amount o = 0) /\
    (o_status o = "completed" ->
     0.1 * subtotal - (1 # 200) <= o_tip_amount o
       <= 0.25 * subtotal + (1 # 200)) /\
    0 <= o_discount_amount o <= 0.15 * subtotal + (1 # 200) /\
    1.98 <= o_total_amount o.
Proof.
  intros Hprices H o Ho subtotal.
  apply (generated_orders_each
           (order_details customers_df restaurants_df menu_items_df)) in H
    as (_ & Horders & _); [|intros *; apply generate_order_details].
  rewrite List.Forall_forall in Horders.
  destruct (Horders _ Ho) as [_ Hdet].
  destruct (det_lines _ _ _ _ _ Hdet) as (selected & Hall & Havail).
  assert (0 <= subtotal) as Hsub.
  { apply order_subtotal_nonneg. apply List.Forall_forall. intros oi Hoi.
    destruct (Forall2_In_r _ _ _ _ Hall Hoi) as (mi & Hmi & Hline).
    rewrite List.Forall_forall in Havail. specialize (Havail _ Hmi).
    apply List.filter_In in Havail as [Hin _].
    rewrite List.Forall_forall in Hprices. specialize (Hprices _ Hin).
    destruct Hline as [_ _ Hprice Hq _].
    unfold line_total. rewrite Hprice.
    destruct Hq as [Hq _]. rewrite Zle_Qle in Hq.
    change (inject_Z 1) with 1 in Hq. nra. }
  pose proof (det_fee _ _ _ _ _ Hdet) as Hfee.
  destruct (det_money _ _ _ _ _ Hdet)
    as (s & tip_pct & discount_pct & Hs & Htp & Hdp & Htax & Htip & Hdisc
        & Htotal).
  fold subtotal in Hs.
  assert (0 <= s) as Hs0 by lra.
  pose proof (round2_close (s * 0.08)) as Ctax.
  pose proof (round2_close (s * tip_pct)) as Ctip.
  pose proof (round2_close (s * discount_pct)) as Cdisc.
  apply Qabs_Qle_condition in Ctax, Ctip, Cdisc.
  assert (0 <= round2 (s * 0.08)) as Ntax by (apply round2_nonneg; nra).
  assert (0 <= round2 (s * tip_pct)) as Ntip by (apply round2_nonneg; nra).
  assert (0 <= round2 (s * discount_pct)) as Ndisc
    by (apply round2_nonneg; nra).
  assert (0 <= o_tip_amount o /\
          (o_status o <> "completed" -> o_tip_amount o = 0) /\
          (o_status o = "completed" ->
           0.1 * subtotal - (1 # 200) <= o_tip_amount o
             <= 0.25 * subtotal + (1 # 200))) as (Htip0 & Htip1 & Htip2).
  { rewrite Htip.
    destruct (String.eqb_spec (o_status o) "completed") as [E|E].
    - split; [exact Ntip|]. split; [contradiction|].
      intros _. split; nra.
    - split; [lra|]. split; [reflexivity|contradiction]. }
  assert (0 <= o_discount_amount o <= 0.15 * subtotal + (1 # 200)) as Hd.
  { destruct Hdisc as [->| ->]; split; nra. }
  split; [exact Hsub|]. split; [exact Hfee|].
  rewrite Htax. split; [exact Ntax|]. split.
  { apply Qabs_Qle_condition. split; lra. }
  split; [exact Htip0|]. split; [exact Htip1|]. split; [exact Htip2|].
  split; [exact Hd|].
  rewrite Htotal. apply (round2_lower 198).
  rewrite Htax. change (inject_Z 198 / 100) with 1.98. lra.
Qed.

(** When no menu item is available, every turn of the loop is skipped:
    the generator returns no order and no order item. *)
Theorem no_available_item_no_order
    (now : timestamp) (customers_df : list customer)
    (restaurants_df : list restaurant) (menu_items_df : list menu_item)
    (num_orders : nat) (g : rng)
    (orders : list order) (order_items : list order_item) (g' : rng) :
  Forall (fun mi => mi_is_available (mi_row mi) <> 1%Z) menu_items_df ->
  generate_orders_and_items now customers_df restaurants_df menu_items_df
    num_orders g = Ok ((orders, order_items), g') ->
  orders = [] /\ order_items = [].
Proof.
  intros Hnone H.
  pose proof H as H'.
  apply (generated_orders_each
           (order_details customers_df restaurants_df menu_items_df)) in H
    as (Hitems & Horders & _); [|intros *; apply generate_order_details].
  apply (generated_orders_each (order_ok menu_items_df 0)) in H'
    as (_ & Hok & _).
  2: { intros id g0 o lines g0' Hgen. apply generate_order_spec in Hgen.
       exfalso. destruct (ok_selected _ _ _ _ Hgen)
         as (selected & rest & Hmap & Hperm).
       pose proof (ok_count _ _ _ _ Hgen) as Hcount.
       assert (available_items menu_items_df (o_restaurant_id o) = []) as E.
       { unfold available_items. apply filter_keeps_none.
         eapply List.Forall_impl; [|exact Hnone]. simpl.
         intros mi Hmi. apply andb_false_iff. right. now apply Z.eqb_neq. }
       rewrite E in Hperm. apply Permutation_nil in Hperm.
       apply app_eq_nil in Hperm as [-> _].
       apply (f_equal (@length Z)) in Hmap. rewrite !length_map in Hmap.
       simpl in Hmap. lia. }
  destruct orders as [|o orders].
  - split; [reflexivity|]. destruct order_items as [|oi ois]; [reflexivity|].
    apply List.Forall_cons_iff in Hitems as [[] _].
  - exfalso. apply List.Forall_cons_iff in Horders as [[_ Hdet] _].
    apply List.Forall_cons_iff in Hok as [[_ Hbad] _].
    destruct (det_lines _ _ _ _ _ Hdet) as (selected & Hall & Havail).
    pose proof (ok_count _ _ _ _ Hbad) as Hcount.
    apply Forall2_length in Hall.
    destruct selected as [|mi sel]; [simpl in Hall; lia|].
    apply List.Forall_cons_iff in Havail as [Hmi _].
    apply List.filter_In in Hmi as [Hin Hcond].
    apply andb_true_iff in Hcond as [_ Ha]. apply Z.eqb_eq in Ha.
    rewrite List.Forall_forall in Hnone. now apply (Hnone _ Hin).
Qed.

Lemma df_sample_one_total {A} (rows : list A) g :
  rows <> [] -> exists x g', df_sample_one rows g = Ok (x, g').
Proof.
  intros Hne. unfold df_sample_one, df_sample, gbind.
  destruct rows as [|r rows]; [contradiction|].
  cbn [length Nat.ltb Nat.leb draw_rows]. unfold gbind, draw, gret.
  pose proof (np_randbelow_range (S (length rows)) g ltac:(lia)) as Hi.
  destruct (np_randbelow (S (length rows)) g) as [i g1]. simpl in Hi.
  destruct (nth_error (r :: rows) i) as [x|] eqn:Hx.
  - eauto.
  - apply nth_error_None in Hx. simpl in Hx. lia.
Qed.

(** Without a customer, or without a restaurant, to sample, the first
    turn of the loop raises. *)
Theorem no_customer_or_restaurant_raises
    (now : timestamp) (customers_df : list customer)
    (restaurants_df : list restaurant) (menu_items_df : list menu_item)
    (num_orders : nat) (g : rng) :
  customers_df = [] \/ restaurants_df = [] ->
  (0 < num_orders)%nat ->
  generate_orders_and_items now customers_df restaurants_df menu_items_df
    num_orders g = Err ValueError.
Proof.
  intros Hempty Hn. destruct num_orders as [|n]; [lia|].
  unfold generate_orders_and_items. cbn [orders_loop].
  unfold gbind at 1. unfold generate_order. unfold gbind at 1.
  destruct customers_df as [|c cs]; [reflexivity|].
  destruct Hempty as [Hc| ->]; [discriminate|].
  destruct (df_sample_one_total (c :: cs) g) as (x & g1 & ->);
    [discriminate|].
  reflexivity.
Qed.

End GeneratedOrders.

Lemma generated_order_ids_witness :
  exists orders order_items g',
    Generator.generate_orders_and_items Demo.now Demo.customers
      Demo.restaurants Demo.menu_items 3 demo_seed
      = Ok ((orders, order_items), g') /\
    StronglySorted Z.lt (map o_order_id orders) /\
    List.NoDup (map o_order_id orders) /\
    (forall o, In o orders -> (1 <= o_order_id o <= Z.of_nat 3)%Z) /\
    (length orders <= 3)%nat /\
    (forall oi, In oi order_items ->
       exists o, In o orders /\ oi_order_id oi = o_order_id o).
Proof.
  eexists _, _, _.
  split; [vm_compute; reflexivity|].
  eapply (generated_order_ids Demo.now Demo.customers Demo.restaurants
            Demo.menu_items 3 demo_seed).
  vm_compute. reflexivity.
Defined.

Lemma generated_order_references_witness :
  exists orders order_items g' o,
    Generator.generate_orders_and_items Demo.now Demo.customers
      Demo.restaurants Demo.menu_items 3 demo_seed
      = Ok ((orders, order_items), g') /\
    In o orders /\
    (exists c, In c Demo.customers /\ o_customer_id o = c_customer_id c) /\
    (exists r, In r Demo.restaurants /\
               o_restaurant_id o = r_restaurant_id r) /\
    In (o_status o) ["completed"; "cancelled"; "pending"] /\
    In (o_payment_method o)
       ["credit_card"; "debit_card"; "paypal"; "cash"; "apple_pay"] /\
    In (o_order_source o) ["app"; "website"; "phone"].
Proof.
  eexists _, _, _, _.
  split; [vm_compute; reflexivity|].
  split; [left; reflexivity|].
  eapply (generated_order_references Demo.now Demo.customers
            Demo.restaurants Demo.menu_items 3 demo_seed).
  - vm_compute. reflexivity.
  - left. reflexivity.
Defined.

Lemma generated_order_item_fields_witness :
  exists orders order_items g' o oi,
    Generator.generate_orders_and_items Demo.now Demo.customers
      Demo.restaurants Demo.menu_items 3 demo_seed
      = Ok ((orders, order_items), g') /\
    In o orders /\ In oi (order_lines order_items o) /\
    (1 <= oi_quantity oi <= 3)%Z /\
    (exists mi, In mi Demo.menu_items /\
       mi_item_id mi = oi_item_id oi /\
       mi_restaurant_id (mi_row mi) = o_restaurant_id o /\
       mi_is_available (mi_row mi) = 1%Z /\
       oi_unit_price oi = mi_price (mi_row mi)) /\
    (forall stars, oi_item_rating oi = Some stars ->
       o_status o = "completed" /\ (3 <= stars <= 5)%Z).
Proof.
  eexists _, _, _, _, _.
  split; [vm_compute; reflexivity|].
  split; [left; reflexivity|].
  split; [vm_compute; left; reflexivity|].
  eapply (generated_order_item_fields Demo.now Demo.customers
            Demo.restaurants Demo.menu_items 3 demo_seed).
  - vm_compute. reflexivity.
  - left. reflexivity.
  - vm_compute. left. reflexivity.
Defined.

Lemma demo_prices : Forall (fun mi => 0 <= mi_price (mi_row mi)) Demo.menu_items.
Proof. repeat constructor; discriminate. Qed.

Lemma generated_order_amounts_witness :
  exists orders order_items g' o,
    Forall (fun mi => 0 <= mi_price (mi_row mi)) Demo.menu_items /\
    Generator.generate_orders_and_items Demo.now Demo.customers
      Demo.restaurants Demo.menu_items 3 demo_seed
      = Ok ((orders, order_items), g') /\
    In o orders /\
    let subtotal := order_subtotal (order_lines order_items o) in
    0 <= subtotal /\
    1.99 <= o_delivery_fee o <= 4.99 /\
    0 <= o_tax_amount o /\
    Qabs (o_tax_amount o - 0.08 * subtotal) <= 1 # 200 /\
    0 <= o_tip_amount o /\
    (o_status o <> "completed" -> o_tip_amount o = 0) /\
    (o_status o = "completed" ->
     0.1 * subtotal - (1 # 200) <= o_tip_amount o
       <= 0.25 * subtotal + (1 # 200)) /\
    0 <= o_discount_amount o <= 0.15 * subtotal + (1 # 200) /\
    1.98 <= o_total_amount o.
Proof.
  eexists _, _, _, _.
  split; [exact demo_prices|].
  split; [vm_compute; reflexivity|].
  split; [left; reflexivity|].
  eapply (generated_order_amounts Demo.now Demo.customers
            Demo.restaurants Demo.menu_items 3 demo_seed _ _ _ demo_prices).
  - vm_compute. reflexivity.
  - left. reflexivity.
Defined.

Lemma no_available_item_no_order_witness :
  Forall (fun mi => mi_is_available (mi_row mi) <> 1%Z) sold_out /\
  (exists g',
     Generator.generate_orders_and_items Demo.now Demo.customers
       Demo.restaurants sold_out 3 demo_seed = Ok (([], []), g')) /\
  (@nil order = [] /\ @nil order_item = []).
Proof.
  assert (Forall (fun mi => mi_is_available (mi_row mi) <> 1%Z) sold_out)
    as Hnone by (repeat constructor; discriminate).
  split; [exact Hnone|].
  split; [eexists; vm_compute; reflexivity|].
  eapply (no_available_item_no_order Demo.now Demo.customers
            Demo.restaurants sold_out 3 demo_seed _ _ _ Hnone).
  vm_compute. reflexivity.
Defined.

Lemma no_customer_or_restaurant_raises_witness :
  (@nil customer = [] \/ Demo.restaurants = []) /\ (0 < 2)%nat /\
  Generator.generate_orders_and_items Demo.now [] Demo.restaurants
    Demo.menu_items 2 demo_seed = Err ValueError.
Proof.
  split; [now left|]. split; [lia|].
  apply (no_customer_or_restaurant_raises Demo.now [] Demo.restaurants
           Demo.menu_items 2 demo_seed); [now left|lia].
Defined.

(** * Further properties of the queries *)

(** ** Every customer has a row *)

(** The customer value metrics have a row for every customer, also for one
    who never ordered; the amount spent is the sum over the customer's
    completed orders, the lifetime value is twelve times the amount spent,
    and the customer counts as "Never Ordered", with no recency, exactly
    when there is no completed order. *)
Theorem customer_analytics_covers_customers (now : timestamp) (db : database) :
  List.NoDup (map c_customer_id (customers db)) ->
  let report := Queries.clv_query now db in
  Permutation
    (map (fun row => Queries.cm_customer_id (Queries.ca_metrics row)) report)
    (map c_customer_id (customers db)) /\
  forall c, In c (customers db) ->
    exists row, In row report /\
      let m := Queries.ca_metrics row in
      let orders_of_c := completed_orders_of_customer db c in
      Queries.cm_customer_id m = c_customer_id c /\
      Queries.cm_name m = c_name c /\
      Queries.cm_loyalty_tier m = c_loyalty_tier c /\
      Queries.cm_total_spent m = Qsum (map o_total_amount orders_of_c) /\
      Queries.ca_estimated_clv row == 12 * Queries.cm_total_spent m /\
      (Queries.cm_days_since_last_order m = None <-> orders_of_c = []) /\
      (Queries.ca_customer_status row = "Never Ordered" <-> orders_of_c = []).
Proof.
  intros Hkey report. subst report. unfold Queries.clv_query.
  rewrite customer_metrics_cte_rows by assumption.
  rewrite !map_map. split; [reflexivity|].
  intros c Hc.
  eexists. split; [apply in_map_iff; exists c; split; [reflexivity|exact Hc]|].
  cbn [Queries.ca_metrics Queries.ca_estimated_clv Queries.ca_customer_status
       Queries.customer_metrics_of Queries.customer_key].
  unfold Queries.estimated_clv, Queries.customer_status.
  cbn [Queries.cm_customer_id Queries.cm_order_frequency Queries.cm_name
       Queries.cm_loyalty_tier Queries.cm_total_spent
       Queries.cm_avg_order_value Queries.cm_days_since_last_order].
  rewrite coalesce_sum, coalesce_avg.
  unfold Sql.count, Sql.max.
  rewrite !non_null_right_column, customer_order_filter.
  set (os := completed_orders_of_customer db c).
  rewrite !length_map.
  split; [reflexivity|]. split; [reflexivity|]. split; [reflexivity|].
  split; [reflexivity|].
  destruct os as [|o os']; cbn [map length mean option_map].
  - split; [cbn; reflexivity|]. split; split; reflexivity.
  - assert ((0 <? Z.of_nat (S (length os')))%Z = true) as -> by
      (apply Z.ltb_lt; lia).
    split.
    + rewrite length_map.
      set (total := Qsum (o_total_amount o :: map o_total_amount os')).
      assert (~ inject_Z (Z.of_nat (S (length os'))) == 0) as Hn.
      { intros E. apply (Qeq_bool_neq _ _ (eq_refl : Qeq_bool
          (inject_Z (Z.of_nat (S (length os')))) 0 = false)) in E.
        exact E. }
      field. exact Hn.
    + split; (split; [|discriminate]).
      * discriminate.
      * cbv zeta.
        destruct (Qle_bool _ 30); [discriminate|].
        destruct (Qle_bool _ 90); discriminate.
Qed.

(** ** Grouping in general *)

Section GroupBySpec.

Context {K A : Type} (same : K -> K -> bool) (key : A -> K).
Hypothesis same_eq : forall k k', same k k' = true <-> k = k'.

(** What [GROUP BY] makes of rows: one group per key that occurs, holding
    the rows of that key in their order. *)
Record grouped (rows : list A) (groups : list (K * list A)) : Prop := {
  grouped_keys : List.NoDup (map fst groups);
  grouped_rows :
    Forall (fun g => snd g = List.filter (fun x => same (fst g) (key x)) rows
                     /\ snd g <> []) groups;
  grouped_cover : Forall (fun x => In (key x) (map fst groups)) rows;
  grouped_perm : Permutation (concat (map snd groups)) rows
}.

Lemma same_false (k k' : K) : k <> k' -> same k k' = false.
Proof using same_eq.
  intros H. destruct (same k k') eqn:E; [|reflexivity].
  now apply same_eq in E.
Qed.

Lemma add_to_group_perm (k : K) (x : A) (groups : list (K * list A)) :
  Permutation (concat (map snd (Sql.add_to_group same k x groups)))
    (concat (map snd groups) ++ [x]).
Proof using Type.
  induction groups as [|[k' xs] rest IH]; simpl; [reflexivity|].
  destruct (same k' k); simpl.
  - rewrite <- !app_assoc. apply Permutation_app_head.
    apply Permutation_app_comm.
  - rewrite <- app_assoc. now apply Permutation_app_head.
Qed.

Lemma add_to_group_fresh (k : K) (x : A) (groups : list (K * list A)) :
  ~ In k (map fst groups) ->
  Sql.add_to_group same k x groups = groups ++ [(k, [x])].
Proof using same_eq.
  intros Hk. apply add_to_group_new.
  apply List.Forall_forall. intros g Hg. apply same_false.
  intros E. apply Hk. rewrite <- E. now apply in_map.
Qed.

Lemma add_to_group_known (k : K) (x : A) (groups : list (K * list A)) :
  List.NoDup (map fst groups) ->
  In k (map fst groups) ->
  Sql.add_to_group same k x groups
    = map (fun g => if same (fst g) k then (fst g, snd g ++ [x]) else g)
        groups.
Proof using same_eq.
  induction groups as [|[k' xs] rest IH]; simpl; intros Hnodup Hk;
    [contradiction|].
  apply List.NoDup_cons_iff in Hnodup as [Hk' Hrest].
  destruct (same k' k) eqn:E.
  - apply same_eq in E. subst k'. f_equal.
    symmetry. erewrite map_ext_in; [apply map_id|].
    intros g Hg. rewrite same_false; [reflexivity|].
    intros E. apply Hk'. rewrite <- E. now apply in_map.
  - f_equal. apply IH; [exact Hrest|].
    destruct Hk as [Hk|Hk]; [|exact Hk].
    subst k'. rewrite (proj2 (same_eq k k) eq_refl) in E. discriminate.
Qed.

Lemma key_dec (k k' : K) : {k = k'} + {k <> k'}.
Proof using same_eq.
  destruct (same k k') eqn:E.
  - left. now apply same_eq.
  - right. intros H. apply same_eq in H. congruence.
Qed.

Lemma add_to_group_grouped (rows : list A) (groups : list (K * list A))
    (x : A) :
  grouped rows groups ->
  grouped (rows ++ [x]) (Sql.add_to_group same (key x) x groups).
Proof using same_eq.
  intros [Hkeys Hrows Hcover Hperm].
  assert (Permutation
            (concat (map snd (Sql.add_to_group same (key x) x groups)))
            (rows ++ [x])) as Hperm'.
  { rewrite add_to_group_perm. now apply Permutation_app_tail. }
  destruct (in_dec key_dec (key x) (map fst groups)) as [Hin|Hout].
  - rewrite add_to_group_known in * by assumption.
    assert (map fst (map (fun g : K * list A =>
                            if same (fst g) (key x)
                            then (fst g, snd g ++ [x]) else g) groups)
            = map fst groups) as Hfst.
    { rewrite map_map. apply map_ext. intros g.
      now destruct (same (fst g) (key x)). }
    constructor; [now rewrite Hfst| |rewrite Hfst|exact Hperm'].
    + apply List.Forall_forall. intros g Hg.
      apply in_map_iff in Hg as (g0 & <- & Hg0).
      rewrite List.Forall_forall in Hrows.
      destruct (Hrows _ Hg0) as [Hfilter Hne].
      rewrite List.filter_app. cbn [List.filter].
      destruct (same (fst g0) (key x)) eqn:E; cbn [fst snd].
      * rewrite E, Hfilter. split; [reflexivity|].
        intros Hnil. now apply app_eq_nil in Hnil as [_ Hnil].
      * rewrite E, app_nil_r. now split.
    + apply Forall_app. split; [exact Hcover|]. now constructor.
  - rewrite add_to_group_fresh in * by assumption.
    constructor; [| | |exact Hperm'].
    + rewrite map_app. cbn [map fst].
      apply List.NoDup_app.
      * exact Hkeys.
      * repeat constructor. intros [].
      * intros k Hk [<-|[]]. contradiction.
    + apply Forall_app. split.
      * eapply List.Forall_impl; [|exact Hrows]. cbn beta.
        intros g [Hfilter Hne].
        rewrite List.filter_app. cbn [List.filter].
        rewrite (same_false (fst g) (key x)), app_nil_r; [now split|].
        intros E. apply Hout. rewrite <- E.
        rewrite Hfilter in Hne.
        destruct (List.filter (fun y => same (fst g) (key y)) rows)
          as [|y ys] eqn:F; [contradiction|].
        assert (In y (List.filter (fun y => same (fst g) (key y)) rows))
          as Hy by (rewrite F; now left).
        apply List.filter_In in Hy as [Hy Hsame].
        apply same_eq in Hsame. rewrite Hsame.
        rewrite List.Forall_forall in Hcover. now apply Hcover.
      * constructor; [|constructor]. cbn [fst snd].
        rewrite List.filter_app. cbn [List.filter].
        rewrite (proj2 (same_eq (key x) (key x)) eq_refl).
        rewrite filter_keeps_none; [split; [reflexivity|discriminate]|].
        eapply List.Forall_impl; [|exact Hcover]. cbn beta.
        intros y Hy. apply same_false. intros E. apply Hout. now rewrite E.
    + rewrite map_app. apply Forall_app. split.
      * eapply List.Forall_impl; [|exact Hcover]. cbn beta.
        intros y Hy. apply in_or_app. now left.
      * constructor; [|constructor]. apply in_or_app. right. now left.
Qed.

Lemma group_by_grouped (rows : list A) :
  grouped rows (Sql.group_by same key rows).
Proof using same_eq.
  induction rows as [|x rows IH] using rev_ind.
  - constructor; cbn; constructor.
  - unfold Sql.group_by. rewrite fold_left_app. cbn [fold_left].
    now apply add_to_group_grouped.
Qed.

End GroupBySpec.

(** ** Sorting in general *)

Section SortBy.

Context {A : Type} (leb : A -> A -> bool).

Lemma insert_by_perm (x : A) (l : list A) :
  Permutation (Sql.insert_by leb x l) (x :: l).
Proof using Type.
  induction l as [|y t IH]; simpl; [reflexivity|].
  destruct (leb x y); [reflexivity|].
  rewrite IH. apply perm_swap.
Qed.

Lemma sort_by_perm (l : list A) : Permutation (Sql.sort_by leb l) l.
Proof using Type.
  induction l as [|x t IH]; simpl; [reflexivity|].
  rewrite insert_by_perm. now apply perm_skip.
Qed.

Hypothesis leb_total : forall a b, leb a b = true \/ leb b a = true.

Lemma insert_by_sorted (x : A) (l : list A) :
  Sorted (fun a b => leb a b = true) l ->
  Sorted (fun a b => leb a b = true) (Sql.insert_by leb x l).
Proof using leb_total.
  induction 1 as [|y t Ht IH Hy]; simpl.
  - repeat constructor.
  - destruct (leb x y) eqn:Hxy.
    + constructor; [now constructor|]. now constructor.
    + constructor; [exact IH|].
      assert (leb y x = true) as Hyx
        by (destruct (leb_total x y); congruence).
      destruct t as [|z t']; simpl.
      * now constructor.
      * inversion Hy; subst. destruct (leb x z); now constructor.
Qed.

Lemma sort_by_sorted (l : list A) :
  Sorted (fun a b => leb a b = true) (Sql.sort_by leb l).
Proof using leb_total.
  induction l as [|x t IH]; simpl; [constructor|].
  now apply insert_by_sorted.
Qed.

End SortBy.

(** ** The time series *)

Lemma same_time_key_eq (k k' : Z * Z * Z) :
  Queries.same_time_key k k' = true <-> k = k'.
Proof.
  destruct k as [[d h] w], k' as [[d' h'] w']. unfold Queries.same_time_key.
  rewrite !andb_true_iff, !Z.eqb_eq. split.
  - intros [[-> ->] ->]. reflexivity.
  - intros E. injection E as -> -> ->. auto.
Qed.

Lemma hour_of_range (t : timestamp) : (0 <= Queries.hour_of t <= 23)%Z.
Proof.
  unfold Queries.hour_of.
  pose proof (Qfloor_le t) as Hlo. pose proof (Qlt_floor t) as Hhi.
  rewrite inject_Z_plus in Hhi. change (inject_Z 1) with 1 in Hhi.
  set (f := inject_Z (Qfloor t)) in *.
  split.
  - change 0%Z with (Qfloor 0). apply Qfloor_resp_le. nra.
  - assert (Qfloor ((t - f) * 24) < 24)%Z; [|lia].
    rewrite Zlt_Qlt. eapply Qle_lt_trans; [apply Qfloor_le|].
    change (inject_Z 24) with 24. nra.
Qed.

Lemma before_total (a b : Queries.time_series_row) :
  Queries.before a b = true \/ Queries.before b a = true.
Proof.
  unfold Queries.before.
  destruct (Z.ltb_spec (Queries.ts_order_date a) (Queries.ts_order_date b));
    [now left|].
  destruct (Z.ltb_spec (Queries.ts_order_date b) (Queries.ts_order_date a));
    [now right|].
  assert (Queries.ts_order_date a = Queries.ts_order_date b) as -> by lia.
  rewrite Z.eqb_refl. cbn.
  destruct (Z.leb_spec (Queries.ts_hour_of_day a) (Queries.ts_hour_of_day b));
    [now left|].
  right. apply Z.leb_le. lia.
Qed.

Lemma before_by_date_and_hour (a b : Queries.time_series_row) :
  Queries.before a b = true <-> by_date_and_hour a b.
Proof.
  unfold Queries.before, by_date_and_hour.
  rewrite orb_true_iff, andb_true_iff, Z.ltb_lt, Z.eqb_eq, Z.leb_le.
  reflexivity.
Qed.

Lemma Zsum_perm (l l' : list Z) : Permutation l l' -> Zsum l = Zsum l'.
Proof. induction 1; simpl; lia. Qed.

Lemma Zsum_lengths {A} (blocks : list (list A)) :
  Zsum (map (fun b => Z.of_nat (length b)) blocks)
    = Z.of_nat (length (concat blocks)).
Proof.
  induction blocks as [|b t IH]; simpl; [reflexivity|].
  rewrite length_app, IH. lia.
Qed.

Lemma non_null_some {A B} (f : A -> B) (l : list A) :
  Sql.non_null (map (fun x => Some (f x)) l) = map f l.
Proof.
  unfold Sql.non_null. induction l as [|x t IH]; simpl; [reflexivity|].
  now rewrite IH.
Qed.

Lemma non_null_order_delivery_times (os : list order) :
  Sql.non_null
    (map (fun o => option_map inject_Z (o_delivery_time_minutes o)) os)
    = delivery_times os.
Proof.
  unfold Sql.non_null, delivery_times.
  induction os as [|o t IH]; simpl; [reflexivity|].
  rewrite IH. now destruct (o_delivery_time_minutes o).
Qed.

(** What a group of the time series is, in terms of the orders of the
    window. *)
Lemma time_series_group (now : timestamp) (db : database)
    (g : (Z * Z * Z) * list order) :
  In g (Sql.group_by Queries.same_time_key Queries.time_key
          (recent_completed_orders now db)) ->
  let '((date, hour, weekday), os) := g in
  os = orders_at date hour (recent_completed_orders now db) /\
  os <> [] /\
  weekday = ((date + 4) mod 7)%Z /\
  (0 <= hour <= 23)%Z /\
  (Queries.date_of now - 90 <= date)%Z.
Proof.
  intros Hg.
  pose proof (group_by_grouped Queries.same_time_key Queries.time_key
                same_time_key_eq (recent_completed_orders now db)) as G.
  pose proof (grouped_rows _ _ _ _ G) as Hrows.
  rewrite List.Forall_forall in Hrows. destruct (Hrows _ Hg) as [Hfilter Hne].
  destruct g as [[[date hour] weekday] os]. cbn [fst snd] in *.
  destruct os as [|o0 os0] eqn:Hos; [contradiction|].
  assert (In o0 (List.filter
                   (fun x => Queries.same_time_key (date, hour, weekday)
                               (Queries.time_key x))
                   (recent_completed_orders now db))) as H0
    by (rewrite <- Hfilter; now left).
  apply List.filter_In in H0 as [Hwin Hkey].
  apply same_time_key_eq in Hkey. unfold Queries.time_key in Hkey.
  injection Hkey as Hd Hh Hw.
  assert (weekday = ((date + 4) mod 7)%Z) as Hweek
    by (rewrite Hw, Hd; reflexivity).
  split; [|split; [discriminate|split; [exact Hweek|split]]].
  - rewrite Hfilter. unfold orders_at. apply List.filter_ext. intros o.
    unfold Queries.same_time_key, Queries.time_key.
    rewrite (Z.eqb_sym date), (Z.eqb_sym hour).
    destruct (Z.eqb_spec (Queries.date_of (o_order_date o)) date) as [E|_];
      [|reflexivity].
    destruct (Queries.hour_of (o_order_date o) =? hour)%Z; [|reflexivity].
    cbn. apply Z.eqb_eq. rewrite Hweek. unfold Queries.weekday_of.
    fold (Queries.date_of (o_order_date o)). now rewrite E.
  - rewrite Hh. apply hour_of_range.
  - unfold recent_completed_orders in Hwin.
    apply List.filter_In in Hwin as [_ Hcond].
    apply andb_true_iff in Hcond as [_ Hdate]. apply Z.leb_le in Hdate.
    now rewrite Hd.
Qed.

(** The time series has one row per date and hour in which a completed
    order of the last 90 days was placed, and none else; the row counts
    and adds up the orders of that date and hour; the rows come by date,
    then hour; and every order of the window is counted once. *)
Theorem time_series_report (now : timestamp) (db : database) :
  let report := Queries.time_series_query now db in
  let window := recent_completed_orders now db in
  (forall row, In row report ->
     let os := orders_at (Queries.ts_order_date row)
                 (Queries.ts_hour_of_day row) window in
     os <> [] /\
     Queries.ts_order_count row = Z.of_nat (length os) /\
     Queries.ts_daily_revenue row = Qsum (map o_total_amount os) /\
     Queries.ts_avg_order_value row
       = Qsum (map o_total_amount os) / inject_Z (Z.of_nat (length os)) /\
     Queries.ts_unique_customers row = distinct_customers os /\
     Queries.ts_avg_delivery_time row
       = match delivery_times os with
         | [] => None
         | times => Some (mean times)
         end /\
     Queries.ts_day_of_week row = ((Queries.ts_order_date row + 4) mod 7)%Z /\
     (0 <= Queries.ts_hour_of_day row <= 23)%Z /\
     (Queries.date_of now - 90 <= Queries.ts_order_date row)%Z) /\
  (forall o, In o window ->
     exists row, In row report /\
       Queries.ts_order_date row = Queries.date_of (o_order_date o) /\
       Queries.ts_hour_of_day row = Queries.hour_of (o_order_date o)) /\
  List.NoDup
    (map (fun row => (Queries.ts_order_date row, Queries.ts_hour_of_day row))
       report) /\
  StronglySorted by_date_and_hour report /\
  Zsum (map Queries.ts_order_count report) = Z.of_nat (length window).
Proof.
  intros report window. subst report.
  unfold Queries.time_series_query.
  change (List.filter _ (orders db)) with (recent_completed_orders now db).
  fold window.
  set (groups := Sql.group_by Queries.same_time_key Queries.time_key window).
  pose proof (sort_by_perm Queries.before
                (map Queries.time_series_of groups)) as Hperm.
  pose proof (group_by_grouped Queries.same_time_key Queries.time_key
                same_time_key_eq window) as G. fold groups in G.
  assert (forall g, In g groups ->
            let '((date, hour, weekday), os) := g in
            os = orders_at date hour window /\ os <> [] /\
            weekday = ((date + 4) mod 7)%Z /\ (0 <= hour <= 23)%Z /\
            (Queries.date_of now - 90 <= date)%Z) as Hgroup
    by (intros g Hg; now apply time_series_group).
  split; [|split; [|split; [|split]]].
  - intros row Hrow. apply (Permutation_in _ Hperm) in Hrow.
    apply in_map_iff in Hrow as ([[[date hour] weekday] os] & <- & Hg).
    destruct (Hgroup _ Hg) as (Hos & Hne & Hweek & Hhour & Hdate).
    cbn [Queries.time_series_of Queries.ts_order_date Queries.ts_hour_of_day
         Queries.ts_order_count Queries.ts_daily_revenue
         Queries.ts_avg_order_value Queries.ts_unique_customers
         Queries.ts_avg_delivery_time Queries.ts_day_of_week].
    cbv zeta. rewrite <- Hos.
    split; [exact Hne|]. split; [reflexivity|]. split; [reflexivity|].
    split; [reflexivity|].
    split; [unfold Sql.count_distinct, distinct_customers;
            now rewrite non_null_some|].
    split; [|now repeat split].
    unfold Sql.avg. rewrite non_null_order_delivery_times.
    now destruct (delivery_times os).
  - intros o Ho.
    pose proof (grouped_cover _ _ _ _ G) as Hcover.
    rewrite List.Forall_forall in Hcover. specialize (Hcover _ Ho).
    apply in_map_iff in Hcover as ([k os] & Hk & Hg). cbn [fst] in Hk.
    exists (Queries.time_series_of (k, os)).
    split; [apply (Permutation_in _ (Permutation_sym Hperm)); now apply in_map|].
    subst k. unfold Queries.time_key. now cbn.
  - eapply Permutation_NoDup;
      [apply Permutation_map, Permutation_sym, Hperm|].
    rewrite map_map.
    pose proof (grouped_keys _ _ _ _ G) as Hkeys.
    clear - Hkeys Hgroup. induction groups as [|g t IH]; cbn [map];
      [constructor|].
    cbn [map] in Hkeys. apply List.NoDup_cons_iff in Hkeys as [Hg Ht].
    constructor; [|apply IH; [intros g' Hg'; apply Hgroup; now right|exact Ht]].
    intros Hin. apply Hg.
    apply in_map_iff in Hin as (g' & E & Hg').
    apply in_map_iff. exists g'. split; [|exact Hg'].
    pose proof (Hgroup g (or_introl eq_refl)) as H1.
    pose proof (Hgroup g' (or_intror Hg')) as H2.
    destruct g as [[[d h] w] os], g' as [[[d' h'] w'] os'].
    cbn in E. injection E as -> ->.
    destruct H1 as (_ & _ & -> & _), H2 as (_ & _ & -> & _). reflexivity.
  - assert (StronglySorted (fun a b => Queries.before a b = true)
              (Sql.sort_by Queries.before
                 (map Queries.time_series_of groups))) as Hsorted.
    { apply Sorted_StronglySorted; [|apply sort_by_sorted, before_total].
      intros a b c Hab Hbc. rewrite before_by_date_and_hour in *.
      unfold by_date_and_hour in *. lia. }
    revert Hsorted. generalize (Sql.sort_by Queries.before
                                  (map Queries.time_series_of groups)).
    induction 1 as [|a l _ IH Ha]; constructor; [exact IH|].
    eapply List.Forall_impl; [|exact Ha]. cbn beta.
    intros b. apply before_by_date_and_hour.
  - rewrite (Zsum_perm _ _ (Permutation_map _ Hperm)), map_map.
    rewrite <- (Permutation_length (grouped_perm _ _ _ _ G)).
    rewrite <- Zsum_lengths, map_map. f_equal. apply map_ext.
    now intros [[[date hour] weekday] os].
Qed.

(** ** The menu analytics *)

Lemma filter_by_key {A} (f : A -> Z) (v : Z) (l : list A) :
  List.NoDup (map f l) ->
  (List.filter (fun x => (v =? f x)%Z) l = [] /\
   existsb (fun x => (v =? f x)%Z) l = false) \/
  (exists x, List.filter (fun x => (v =? f x)%Z) l = [x] /\
             existsb (fun x => (v =? f x)%Z) l = true).
Proof.
  induction l as [|y t IH]; cbn [map List.filter existsb]; intros Hkey;
    [now left|].
  apply List.NoDup_cons_iff in Hkey as [Hy Ht].
  destruct (Z.eqb_spec v (f y)) as [E|_].
  - right. exists y. split; [|reflexivity]. f_equal.
    apply filter_keeps_none. apply List.Forall_forall. intros x Hx.
    apply Z.eqb_neq. intros E'. apply Hy. rewrite <- E, E'. now apply in_map.
  - cbn [orb]. now apply IH.
Qed.

Lemma join_menu_restaurants (db : database) :
  List.NoDup (map r_restaurant_id (restaurants db)) ->
  map fst
    (Sql.join (fun mi r => (mi_restaurant_id (mi_row mi) =? r_restaurant_id r)%Z)
       (menu_items db) (restaurants db))
  = List.filter
      (fun mi => existsb (fun r => (mi_restaurant_id (mi_row mi)
                                    =? r_restaurant_id r)%Z) (restaurants db))
      (menu_items db).
Proof.
  intros Hkey. unfold Sql.join.
  induction (menu_items db) as [|mi t IH]; cbn [flat_map List.filter map];
    [reflexivity|].
  rewrite map_app, IH, map_map. cbn [fst].
  destruct (filter_by_key r_restaurant_id (mi_restaurant_id (mi_row mi))
              (restaurants db) Hkey) as [[-> ->]|(r & -> & ->)]; reflexivity.
Qed.

Lemma map_fst_filter {A B} (p : A -> bool) (l : list (A * B)) :
  map fst (List.filter (fun x => p (fst x)) l) = List.filter p (map fst l).
Proof.
  induction l as [|x t IH]; simpl; [reflexivity|].
  destruct (p (fst x)); simpl; now rewrite IH.
Qed.

Lemma filter_filter {A} (p q : A -> bool) (l : list A) :
  List.filter p (List.filter q l) = List.filter (fun x => p x && q x) l.
Proof.
  induction l as [|x t IH]; simpl; [reflexivity|].
  destruct (q x); simpl; rewrite ?andb_true_r, ?andb_false_r;
    [destruct (p x)|]; now rewrite IH.
Qed.

Lemma same_menu_key_refl (x : menu_item * restaurant) :
  Queries.same_menu_key x x = true.
Proof.
  unfold Queries.same_menu_key.
  rewrite Z.eqb_refl, !String.eqb_refl.
  now rewrite (proj2 (Qeq_bool_iff _ _) (Qeq_refl _)).
Qed.

Lemma distinct_menu_keys (l : list (menu_item * restaurant)) :
  List.NoDup (map (fun x => mi_item_id (fst x)) l) ->
  ForallOrdPairs (fun x y => Queries.same_menu_key x y = false) l.
Proof.
  induction l as [|x t IH]; simpl; intros H; constructor.
  - apply List.NoDup_cons_iff in H as [Hx _].
    apply List.Forall_forall. intros y Hy. unfold Queries.same_menu_key.
    destruct (Z.eqb_spec (mi_item_id (fst x)) (mi_item_id (fst y))) as [E|_];
      [|reflexivity].
    exfalso. apply Hx. rewrite E.
    now apply (in_map (fun x => mi_item_id (fst x))).
  - apply IH. now apply List.NoDup_cons_iff in H as [_ Ht].
Qed.

Lemma non_null_item_ratings {A} (on : A -> order_item -> bool)
    (lines : list order_item) (x : A) :
  Sql.non_null
    (map (fun row : A * option order_item =>
            match snd row with
            | Some oi => option_map inject_Z (oi_item_rating oi)
            | None => None
            end) (Sql.left_join_row on lines x))
    = item_ratings (List.filter (on x) lines).
Proof.
  unfold Sql.left_join_row, Sql.non_null, item_ratings.
  destruct (List.filter (on x) lines) as [|y ys]; [reflexivity|].
  generalize (y :: ys) as l. induction l as [|z l IH]; simpl; [reflexivity|].
  rewrite IH. now destruct (oi_item_rating z).
Qed.

(** The rows of the menu analytics before sorting: one per available menu
    item joined to its restaurant. *)
Lemma menu_query_rows (db : database) :
  List.NoDup (map mi_item_id (menu_items db)) ->
  List.NoDup (map r_restaurant_id (restaurants db)) ->
  let listed :=
    List.filter (fun x => (mi_is_available (mi_row (fst x)) =? 1)%Z)
      (Sql.join (fun mi r => (mi_restaurant_id (mi_row mi)
                              =? r_restaurant_id r)%Z)
         (menu_items db) (restaurants db)) in
  map fst listed = listed_items db /\
  Queries.menu_query db
    = Sql.order_by_desc Queries.ma_total_revenue
        (map (fun x =>
                Queries.menu_analytics_of
                  (x, Sql.left_join_row
                        (fun (x : menu_item * restaurant) oi =>
                           (mi_item_id (fst x) =? oi_item_id oi)%Z)
                        (order_items db) x))
           listed).
Proof.
  intros Hitems Hrestaurants listed.
  assert (map fst listed = listed_items db) as Hlisted.
  { unfold listed.
    rewrite (map_fst_filter (fun mi => (mi_is_available (mi_row mi) =? 1)%Z)).
    rewrite join_menu_restaurants by assumption.
    unfold listed_items. apply filter_filter. }
  split; [exact Hlisted|].
  unfold Queries.menu_query. f_equal. f_equal.
  rewrite (filter_left_join _ _
             (fun x : menu_item * restaurant =>
                (mi_is_available (mi_row (fst x)) =? 1)%Z)).
  fold listed.
  set (on := fun (x : menu_item * restaurant) oi =>
               (mi_item_id (fst x) =? oi_item_id oi)%Z).
  assert (Sql.group_by Queries.same_menu_key fst
            (Sql.left_join on listed (order_items db))
          = map (fun x => (x, Sql.left_join_row on (order_items db) x)) listed)
    as ->.
  { apply (group_by_left_join on Queries.same_menu_key (fun x => x)).
    - apply same_menu_key_refl.
    - apply distinct_menu_keys.
      rewrite <- (map_map fst mi_item_id), Hlisted.
      unfold listed_items. now apply NoDup_map_filter. }
  now rewrite map_map.
Qed.

(** With [item_id] and [restaurant_id] keys of their tables, the menu
    analytics list exactly the available menu items whose restaurant is in
    the table, active or not; a row counts and adds up every order item
    naming the menu item, whatever the status of its order; and the rows
    come in descending order of revenue. *)
Theorem menu_analytics_report (db : database) :
  List.NoDup (map mi_item_id (menu_items db)) ->
  List.NoDup (map r_restaurant_id (restaurants db)) ->
  let report := Queries.menu_query db in
  Permutation (map Queries.ma_item_id report)
    (map mi_item_id (listed_items db)) /\
  (forall row, In row report ->
     exists mi r, In mi (menu_items db) /\ In r (restaurants db) /\
       mi_restaurant_id (mi_row mi) = r_restaurant_id r /\
       mi_is_available (mi_row mi) = 1%Z /\
       let lines := lines_of_item db mi in
       Queries.ma_item_id row = mi_item_id mi /\
       Queries.ma_item_name row = mi_item_name (mi_row mi) /\
       Queries.ma_price row = mi_price (mi_row mi) /\
       Queries.ma_category row = mi_category (mi_row mi) /\
       Queries.ma_restaurant_name row = r_name r /\
       Queries.ma_cuisine_type row = r_cuisine_type r /\
       Queries.ma_times_ordered row = Z.of_nat (length lines) /\
       Queries.ma_total_quantity_sold row
         = Qsum (map (fun oi => inject_Z (oi_quantity oi)) lines) /\
       Queries.ma_total_revenue row = order_subtotal lines /\
       Queries.ma_avg_rating row = mean (item_ratings lines)) /\
  StronglySorted
    (fun a b => Queries.ma_total_revenue b <= Queries.ma_total_revenue a)
    report.
Proof.
  intros Hitems Hrestaurants report. subst report.
  destruct (menu_query_rows db Hitems Hrestaurants) as [Hlisted ->].
  set (listed := List.filter _ (Sql.join _ _ _)) in *.
  set (on := fun (x : menu_item * restaurant) oi =>
               (mi_item_id (fst x) =? oi_item_id oi)%Z).
  set (rows := map _ listed).
  pose proof (order_by_desc_perm Queries.ma_total_revenue rows) as Hperm.
  split; [|split].
  - rewrite (Permutation_map _ Hperm). unfold rows.
    rewrite map_map, <- Hlisted, map_map.
    erewrite map_ext; [reflexivity|]. now intros [mi r].
  - intros row Hrow. apply (Permutation_in _ Hperm) in Hrow.
    apply in_map_iff in Hrow as ([mi r] & <- & Hx).
    exists mi, r.
    apply List.filter_In in Hx as [Hjoin Havailable].
    apply Z.eqb_eq in Havailable. cbn [fst] in Havailable.
    unfold Sql.join in Hjoin. apply in_flat_map in Hjoin as (mi' & Hmi & Hr).
    apply in_map_iff in Hr as (r' & E & Hr). injection E as -> ->.
    apply List.filter_In in Hr as [Hr Hid]. apply Z.eqb_eq in Hid.
    split; [exact Hmi|]. split; [exact Hr|]. split; [exact Hid|].
    split; [exact Havailable|].
    cbn [Queries.menu_analytics_of Queries.ma_item_id Queries.ma_item_name
         Queries.ma_price Queries.ma_category Queries.ma_restaurant_name
         Queries.ma_cuisine_type Queries.ma_times_ordered
         Queries.ma_total_quantity_sold Queries.ma_total_revenue
         Queries.ma_avg_rating].
    cbv zeta. rewrite !coalesce_sum, coalesce_avg.
    unfold Sql.count.
    rewrite !non_null_right_column, non_null_item_ratings, length_map.
    now repeat split.
  - apply order_by_desc_sorted.
Qed.

Lemma demo_item_ids : List.NoDup (map mi_item_id (menu_items Demo.db)).
Proof.
  simpl. repeat (apply List.NoDup_cons; [simpl; lia|]). apply List.NoDup_nil.
Qed.

Lemma customer_analytics_covers_customers_witness :
  exists c,
    List.NoDup (map c_customer_id (customers Demo.db)) /\
    In c (customers Demo.db) /\
    exists row, In row (Queries.clv_query Demo.now Demo.db) /\
      let m := Queries.ca_metrics row in
      let orders_of_c := completed_orders_of_customer Demo.db c in
      Queries.cm_customer_id m = c_customer_id c /\
      Queries.cm_name m = c_name c /\
      Queries.cm_loyalty_tier m = c_loyalty_tier c /\
      Queries.cm_total_spent m = Qsum (map o_total_amount orders_of_c) /\
      Queries.ca_estimated_clv row == 12 * Queries.cm_total_spent m /\
      (Queries.cm_days_since_last_order m = None <-> orders_of_c = []) /\
      (Queries.ca_customer_status row = "Never Ordered" <-> orders_of_c = []).
Proof.
  assert (exists c rest, customers Demo.db = c :: rest) as (c & rest & Hc).
  { eexists _, _. vm_compute. reflexivity. }
  exists c.
  split; [exact demo_customer_ids|].
  split; [rewrite Hc; now left|].
  apply (proj2 (customer_analytics_covers_customers Demo.now Demo.db
                  demo_customer_ids)).
  rewrite Hc. now left.
Defined.

Lemma menu_analytics_report_witness :
  List.NoDup (map mi_item_id (menu_items Demo.db)) /\
  List.NoDup (map r_restaurant_id (restaurants Demo.db)) /\
  Permutation (map Queries.ma_item_id (Queries.menu_query Demo.db))
    (map mi_item_id (listed_items Demo.db)) /\
  StronglySorted
    (fun a b => Queries.ma_total_revenue b <= Queries.ma_total_revenue a)
    (Queries.menu_query Demo.db).
Proof.
  split; [exact demo_item_ids|]. split; [exact demo_restaurant_ids|].
  pose proof (menu_analytics_report Demo.db demo_item_ids
                demo_restaurant_ids) as (Hids & _ & Hsorted).
  split; [exact Hids|exact Hsorted].
Defined.

(** * Further properties of the engine *)

(** ** The loaders *)

Lemma load_on_store (name : string) (query : Engine.sql_query)
    (self : Engine.t) (db : database) (frame : Frame.t) :
  Engine.store self = Ok db ->
  query (Engine.now self) db [] = Ok frame ->
  Engine.load name query self
    = Ok (frame, Engine.cache_put self name (Engine.CFrame frame)).
Proof.
  intros Hstore Hquery.
  unfold Engine.load, Engine.execute_query, Engine.try_except.
  rewrite Hstore. cbn [rbind]. rewrite Hquery. reflexivity.
Qed.

Lemma load_without_store (name : string) (query : Engine.sql_query)
    (self : Engine.t) (e : exn) :
  Engine.store self = Err e ->
  Engine.load name query self
    = Ok (Frame.empty, Engine.cache_put self name (Engine.CFrame Frame.empty)).
Proof.
  intros Hstore.
  unfold Engine.load, Engine.execute_query, Engine.try_except.
  rewrite Hstore. reflexivity.
Qed.

Lemma zip_with_same_cell (rows : list (list value)) :
  Forall (fun row => row <> []) rows ->
  Frame.zip_with (fun row v => <[0%nat := v]> row) rows
    (map (Frame.cell 0) rows) = rows.
Proof.
  induction 1 as [|row rows Hrow _ IH]; cbn [map Frame.zip_with];
    [reflexivity|].
  rewrite IH. f_equal. destruct row; [contradiction|reflexivity].
Qed.

Lemma get_time_series_data_on_store (self : Engine.t) (db : database) :
  Engine.store self = Ok db ->
  let series :=
    Engine.time_series_frame
      (Queries.time_series_query (Engine.now self) db) in
  Engine.get_time_series_data self
    = Ok (series, Engine.cache_put self "time_series" (Engine.CFrame series)).
Proof.
  intros Hstore series.
  unfold Engine.get_time_series_data, Engine.execute_query, Engine.try_except.
  rewrite Hstore. unfold Engine.time_series_query. cbn [rbind]. fold series.
  change (Frame.getitem series "order_date")
    with (Ok (map (Frame.cell 0) (Frame.rows series))).
  cbn [rbind].
  assert (Frame.setitem series "order_date"
            (map (Frame.cell 0) (Frame.rows series)) = Ok series) as ->;
    [|reflexivity].
  unfold Frame.setitem. rewrite length_map, Nat.eqb_refl. cbn [negb].
  change (Frame.index_of "order_date" (Frame.columns series))
    with (Some 0%nat).
  cbv beta iota.
  rewrite zip_with_same_cell; [reflexivity|].
  unfold series, Engine.time_series_frame. cbn [Frame.rows].
  apply List.Forall_forall. intros row Hrow.
  apply in_map_iff in Hrow as (r & <- & _). discriminate.
Qed.

Lemma get_time_series_data_without_store (self : Engine.t) (e : exn) :
  Engine.store self = Err e ->
  Engine.get_time_series_data self = Err KeyError.
Proof.
  intros Hstore.
  unfold Engine.get_time_series_data, Engine.execute_query, Engine.try_except.
  rewrite Hstore. reflexivity.
Qed.

(** The three loaders that only cache what [execute_query] returns never
    raise; the time-series loader, which reads a column of it, raises
    exactly when the store cannot be read. So "load all data" succeeds
    exactly on a readable store, and then caches the four tables. *)
Theorem load_all_data_needs_store (self : Engine.t) :
  (exists df, Engine.get_customer_analytics self
              = Ok (df, Engine.cache_put self "customer_analytics"
                          (Engine.CFrame df))) /\
  (exists df, Engine.get_restaurant_performance self
              = Ok (df, Engine.cache_put self "restaurant_performance"
                          (Engine.CFrame df))) /\
  (exists df, Engine.get_menu_analytics self
              = Ok (df, Engine.cache_put self "menu_analytics"
                          (Engine.CFrame df))) /\
  match Engine.store self with
  | Err _ =>
      Engine.get_customer_analytics self
        = Ok (Frame.empty, Engine.cache_put self "customer_analytics"
                             (Engine.CFrame Frame.empty)) /\
      Engine.get_time_series_data self = Err KeyError /\
      Engine.load_all_data self = Err KeyError
  | Ok db =>
      let now := Engine.now self in
      exists loaded,
        Engine.load_all_data self = Ok (tt, loaded) /\
        Engine.store loaded = Ok db /\ Engine.now loaded = now /\
        Engine.data_cache loaded
          = <["time_series" :=
                Engine.CFrame
                  (Engine.time_series_frame (Queries.time_series_query now db))]>
              (<["menu_analytics" :=
                   Engine.CFrame (Engine.menu_frame (Queries.menu_query db))]>
                 (<["restaurant_performance" :=
                      Engine.CFrame
                        (Engine.restaurant_frame (Queries.performance_query db))]>
                    (<["customer_analytics" :=
                         Engine.CFrame
                           (Engine.customer_frame (Queries.clv_query now db))]>
                       (Engine.data_cache self))))
  end.
Proof.
  destruct (Engine.store self) as [db|e] eqn:Hstore.
  - unfold Engine.load_all_data, Engine.get_customer_analytics,
      Engine.get_restaurant_performance, Engine.get_menu_analytics.
    rewrite (load_on_store _ _ self db _ Hstore eq_refl).
    rewrite (load_on_store _ Engine.performance_query self db _ Hstore eq_refl).
    rewrite (load_on_store _ Engine.menu_query self db _ Hstore eq_refl).
    split; [eexists; reflexivity|]. split; [eexists; reflexivity|].
    split; [eexists; reflexivity|].
    cbn [rbind snd].
    erewrite (load_on_store _ Engine.performance_query);
      [|exact Hstore|reflexivity].
    cbn [rbind snd].
    erewrite (load_on_store _ Engine.menu_query); [|exact Hstore|reflexivity].
    cbn [rbind snd].
    erewrite get_time_series_data_on_store by exact Hstore.
    cbn [rbind snd].
    eexists. split; [reflexivity|]. cbn. auto.
  - unfold Engine.load_all_data, Engine.get_customer_analytics,
      Engine.get_restaurant_performance, Engine.get_menu_analytics.
    rewrite !(load_without_store _ _ self e Hstore).
    split; [eexists; reflexivity|]. split; [eexists; reflexivity|].
    split; [eexists; reflexivity|].
    split; [reflexivity|].
    split; [now apply (get_time_series_data_without_store self e)|].
    cbn [rbind snd].
    erewrite load_without_store by exact Hstore. cbn [rbind snd].
    erewrite load_without_store by exact Hstore. cbn [rbind snd].
    erewrite get_time_series_data_without_store by exact Hstore.
    reflexivity.
Qed.

(** ** The segmentation: when it segments and when it falls back *)

Lemma zip_with_map_r {A B C} (f : A -> B -> C) (g : A -> B) (l : list A) :
  Frame.zip_with f l (map g l) = map (fun x => f x (g x)) l.
Proof. induction l as [|x t IH]; simpl; [reflexivity|]. now rewrite IH. Qed.

(** Overwriting a column cell by cell. *)
Lemma setitem_map (df : Frame.t) (c : string) (i : nat)
    (g : list value -> value) :
  Frame.index_of c (Frame.columns df) = Some i ->
  Frame.setitem df c (map g (Frame.rows df))
    = Ok {| Frame.columns := Frame.columns df;
            Frame.rows := map (fun row => <[i := g row]> row) (Frame.rows df) |}.
Proof.
  intros Hi. unfold Frame.setitem.
  rewrite length_map, Nat.eqb_refl, Hi. cbn [negb].
  now rewrite zip_with_map_r.
Qed.

(** The rows the segmentation clusters are those of the customers with a
    completed order. *)
Lemma active_rows_of_customer_frame
    (rows : list Queries.customer_analytics_row) :
  List.filter (fun row => Engine.positive (Frame.cell 3 row))
    (map fill_recency (Frame.rows (Engine.customer_frame rows)))
  = map fill_recency
      (Frame.rows
         (Engine.customer_frame
            (List.filter
               (fun row =>
                  (0 <? Queries.cm_order_frequency (Queries.ca_metrics row))%Z)
               rows))).
Proof.
  unfold Engine.customer_frame. cbn [Frame.rows].
  induction rows as [|row rows IH]; cbn [map List.filter]; [reflexivity|].
  rewrite IH.
  assert (Engine.positive
            (VInt (Queries.cm_order_frequency (Queries.ca_metrics row)))
          = (0 <? Queries.cm_order_frequency (Queries.ca_metrics row))%Z)
    as Hpos.
  { unfold Engine.positive, Frame.to_Q, Qlt_bool, Qle_bool. cbn.
    rewrite Z.mul_1_r.
    destruct (Z.ltb_spec 0 (Queries.cm_order_frequency (Queries.ca_metrics row)));
      [apply negb_true_iff|apply negb_false_iff];
      [apply Z.leb_gt|apply Z.leb_le]; lia. }
  change (Engine.positive (Frame.cell 3 (fill_recency _)))
    with (Engine.positive
            (VInt (Queries.cm_order_frequency (Queries.ca_metrics row)))).
  rewrite Hpos.
  now destruct (0 <? Queries.cm_order_frequency (Queries.ca_metrics row))%Z.
Qed.

(** The first steps of the segmentation on the customer table. *)
Lemma segmentation_prepares (data : Frame.t)
    (rows : list Queries.customer_analytics_row) :
  data = Engine.customer_frame rows ->
  Frame.getitem data "days_since_last_order"
    = Ok (map (Frame.cell 6) (Frame.rows data)) /\
  Frame.setitem data "days_since_last_order"
    (Frame.fillna (VInt 999) (map (Frame.cell 6) (Frame.rows data)))
    = Ok (unsegmented data) /\
  Frame.where_ (unsegmented data) "order_frequency" Engine.positive
    = Ok {| Frame.columns := Engine.customer_columns;
            Frame.rows :=
              map fill_recency
                (Frame.rows
                   (Engine.customer_frame
                      (List.filter
                         (fun row =>
                            (0 <? Queries.cm_order_frequency
                                    (Queries.ca_metrics row))%Z) rows))) |}.
Proof.
  intros ->. split; [reflexivity|]. split.
  - unfold Frame.fillna. rewrite map_map.
    rewrite (setitem_map _ _ 6) by reflexivity. reflexivity.
  - unfold Frame.where_.
    change (Frame.index_of "order_frequency"
              (Frame.columns (unsegmented (Engine.customer_frame rows))))
      with (Some 3%nat).
    cbv beta iota. f_equal. f_equal.
    apply active_rows_of_customer_frame.
Qed.

(** With fewer customers with a completed order than clusters, the
    segmentation returns the customer table unsegmented, its missing
    recencies filled by 999, and caches the table as the store gave it;
    asked again, it returns the same. *)
Theorem segmentation_falls_back `{Engine.Clustering} (n : nat)
    (self : Engine.t) (db : database) :
  Engine.store self = Ok db ->
  Engine.data_cache self !! "customer_analytics" = None ->
  (length (active_customer_rows (Engine.now self) db) < n)%nat ->
  let data :=
    Engine.customer_frame (Queries.clv_query (Engine.now self) db) in
  let loaded :=
    Engine.cache_put self "customer_analytics" (Engine.CFrame data) in
  Engine.customer_segmentation n self = Ok (unsegmented data, loaded) /\
  Engine.customer_segmentation n loaded = Ok (unsegmented data, loaded).
Proof.
  intros Hstore Hnone Hfew data loaded.
  assert (Engine.cached_frame loaded "customer_analytics" = Ok data) as Hc.
  { unfold Engine.cached_frame, loaded, Engine.cache_put.
    cbn [Engine.data_cache]. now rewrite lookup_insert_eq. }
  destruct (segmentation_prepares data _ eq_refl) as (Hget & Hset & Hwhere).
  assert (forall self0,
            Engine.ensure "customer_analytics" Engine.get_customer_analytics
              self0 = Ok (tt, loaded) ->
            Engine.customer_segmentation n self0
              = Ok (unsegmented data, loaded)) as Hrun.
  { intros self0 Hensure. unfold Engine.customer_segmentation.
    rewrite Hensure. cbn [rbind snd]. rewrite Hc. cbn [rbind].
    rewrite Hget. cbn [rbind]. rewrite Hset. cbn [rbind].
    rewrite Hwhere. cbn [rbind].
    unfold Frame.len, Engine.customer_frame. cbn [Frame.rows].
    rewrite !length_map.
    fold (active_customer_rows (Engine.now self) db).
    now rewrite (proj2 (Nat.ltb_lt _ _) Hfew). }
  split; apply Hrun; unfold Engine.ensure.
  - rewrite Hnone. unfold Engine.get_customer_analytics.
    now rewrite (load_on_store _ _ self db data Hstore eq_refl).
  - unfold loaded at 1, Engine.cache_put. cbn [Engine.data_cache].
    now rewrite lookup_insert_eq.
Qed.

Lemma all_some_length {A} (l : list (option A)) (l' : list A) :
  Engine.all_some l = Some l' -> length l' = length l.
Proof.
  revert l'. induction l as [|[x|] t IH]; intros l'; cbn [Engine.all_some];
    [intros E; now inversion E| |discriminate].
  destruct (Engine.all_some t) as [t'|]; [|discriminate].
  cbn. intros E. inversion E. cbn. now rewrite (IH t').
Qed.

Lemma feature_matrix_length (df : Frame.t) (X : list (list Q)) :
  Engine.feature_matrix df = Ok X -> length X = Frame.len df.
Proof.
  unfold Engine.feature_matrix, Frame.project, rbind.
  destruct (Frame.positions (Frame.columns df) Engine.features); [|discriminate].
  cbn [Frame.rows].
  destruct (Engine.all_some _) as [X'|] eqn:E; [|discriminate].
  intros E'. inversion E'; subst X'.
  apply all_some_length in E. now rewrite E, !length_map.
Qed.

Lemma loc_known (summary : list (Z * list Q)) (cluster : Z) (feature : nat)
    (q : Q) :
  Engine.loc summary cluster feature = Ok q -> In cluster (map fst summary).
Proof.
  induction summary as [|[c means] rest IH]; cbn [Engine.loc map fst];
    [discriminate|].
  destruct (Z.eqb_spec c cluster) as [->|_]; [now left|].
  intros E. right. now apply IH.
Qed.

(** Naming the clusters reads the summary at every cluster of
    [range(n_clusters)]. *)
Lemma segment_names_from_known (summary : list (Z * list Q))
    (clusters : list nat) (names : list (Z * string)) :
  Engine.segment_names_from summary clusters = Ok names ->
  Forall (fun c => In (Z.of_nat c) (map fst summary)) clusters.
Proof.
  revert names. induction clusters as [|c rest IH]; intros names;
    cbn [Engine.segment_names_from]; [constructor|].
  destruct (Engine.segment_name summary (Z.of_nat c)) as [name|] eqn:Hname;
    [|discriminate].
  cbn [rbind].
  destruct (Engine.segment_names_from summary rest) as [names'|];
    [|discriminate].
  intros _. constructor; [|now apply (IH names')].
  unfold Engine.segment_name in Hname.
  destruct (Engine.loc summary (Z.of_nat c) 0) as [freq|] eqn:Hloc;
    [|discriminate].
  now apply loc_known in Hloc.
Qed.

Lemma cluster_summary_labels (X : list (list Q)) (labels : list Z) :
  map fst (Engine.cluster_summary X labels) = nodup Z.eq_dec labels.
Proof.
  unfold Engine.cluster_summary. rewrite map_map. cbn [fst]. apply map_id.
Qed.

(** A segmentation that returns has either fallen back, or clustered
    strictly more customers than clusters: the silhouette needs fewer
    labels than samples, and the naming needs every cluster of
    [range(n_clusters)] among the labels. With exactly as many customers
    with a completed order as clusters it raises, whatever the clustering
    library does. *)
Theorem segmentation_needs_more_customers_than_clusters
    `{Engine.Clustering} (n : nat) (self self' : Engine.t) (df : Frame.t) :
  Engine.data_cache self = ∅ ->
  Engine.customer_segmentation n self = Ok (df, self') ->
  exists db, Engine.store self = Ok db /\
    let active := length (active_customer_rows (Engine.now self) db) in
    ((active < n)%nat /\ Frame.columns df = Engine.customer_columns) \/
    ((n < active)%nat /\ Frame.columns df = segmented_columns).
Proof.
  intros Hempty Hrun.
  assert (Engine.data_cache self !! "customer_analytics" = None) as Hnone
    by (rewrite Hempty; apply lookup_empty).
  destruct (Engine.store self) as [db|e] eqn:Hstore.
  2: { exfalso. unfold Engine.customer_segmentation, Engine.ensure in Hrun.
       rewrite Hnone in Hrun. unfold Engine.get_customer_analytics in Hrun.
       rewrite (load_without_store _ _ self e Hstore) in Hrun.
       cbn [rbind snd] in Hrun.
       unfold Engine.cached_frame, Engine.cache_put in Hrun.
       cbn [Engine.data_cache] in Hrun. rewrite lookup_insert_eq in Hrun.
       discriminate Hrun. }
  exists db. split; [reflexivity|]. cbv zeta.
  set (data := Engine.customer_frame (Queries.clv_query (Engine.now self) db)).
  destruct (segmentation_prepares data _ eq_refl) as (Hget & Hset & Hwhere).
  unfold Engine.customer_segmentation, Engine.ensure in Hrun.
  rewrite Hnone in Hrun. unfold Engine.get_customer_analytics in Hrun.
  rewrite (load_on_store _ _ self db data Hstore eq_refl) in Hrun.
  cbn [rbind snd] in Hrun.
  unfold Engine.cached_frame at 1, Engine.cache_put at 1 in Hrun.
  cbn [Engine.data_cache] in Hrun. rewrite lookup_insert_eq in Hrun.
  cbn [rbind] in Hrun.
  rewrite Hget in Hrun. cbn [rbind] in Hrun.
  rewrite Hset in Hrun. cbn [rbind] in Hrun.
  rewrite Hwhere in Hrun. cbn [rbind] in Hrun.
  set (active_customers := {| Frame.columns := Engine.customer_columns |})
    in Hrun.
  assert (Frame.len active_customers
          = length (active_customer_rows (Engine.now self) db)) as Hactive.
  { unfold Frame.len, active_customers, Engine.customer_frame.
    cbn [Frame.rows]. now rewrite !length_map. }
  rewrite Hactive in Hrun.
  destruct (length (active_customer_rows (Engine.now self) db) <? n)%nat
    eqn:Hlen.
  { apply Nat.ltb_lt in Hlen. left. split; [exact Hlen|].
    inversion Hrun. reflexivity. }
  right. clear Hlen.
  returned Hrun X HX. apply feature_matrix_length in HX.
  returned Hrun labels Hlabels.
  returned Hrun clustered Hclustered.
  apply setitem_new in Hclustered; [|reflexivity].
  returned Hrun silhouette_avg Hsil.
  returned Hrun names Hnames.
  returned Hrun named Hnamed.
  apply setitem_new in Hnamed; [|now rewrite Hclustered].
  returned Hrun picked Hpicked.
  apply project_columns in Hpicked.
  returned Hrun merged Hmerged.
  apply merge_left_columns in Hmerged as (i & j & Hi & Hj & Hmcols & _).
  rewrite Hpicked in Hj. inversion Hj; subst j.
  rewrite Hpicked in Hmcols.
  change (Frame.columns merged = segmented_columns) in Hmcols.
  returned Hrun segment Hsegment.
  returned Hrun final Hfinal.
  apply (setitem_existing _ _ _ 10) in Hfinal as (Hcols5 & _ & _);
    [|now rewrite Hmcols].
  returned Hrun summary_columns Hsummary.
  inversion Hrun; subst df self'. clear Hrun.
  split; [|now rewrite Hcols5].
  unfold Engine.silhouette_score in Hsil.
  destruct (_ && _) eqn:Hcount in Hsil; [|discriminate].
  apply andb_true_iff in Hcount as [_ Hfewer]. apply Nat.ltb_lt in Hfewer.
  apply segment_names_from_known in Hnames.
  rewrite cluster_summary_labels in Hnames.
  assert (n <= length (nodup Z.eq_dec labels))%nat; [|lia].
  assert (length (map Z.of_nat (seq 0 n)) = n) as Hn
    by (rewrite length_map; apply List.length_seq).
  rewrite <- Hn at 1.
  apply NoDup_incl_length.
  - apply Finite.Injective_map_NoDup; [|apply List.seq_NoDup].
    intros a b. apply Nat2Z.inj.
  - intros c Hc. apply in_map_iff in Hc as (k & <- & Hk).
    rewrite List.Forall_forall in Hnames. now apply Hnames.
Qed.

Lemma segmentation_falls_back_witness :
  exists data loaded,
    data = Engine.customer_frame
             (Queries.clv_query (Engine.now Demo.engine) Demo.db) /\
    loaded = Engine.cache_put Demo.engine "customer_analytics"
               (Engine.CFrame data) /\
    Engine.store Demo.engine = Ok Demo.db /\
    Engine.data_cache Demo.engine !! "customer_analytics" = None /\
    (length (active_customer_rows (Engine.now Demo.engine) Demo.db) < 5)%nat /\
    Engine.customer_segmentation (H := Demo.round_robin) 5 Demo.engine
      = Ok (unsegmented data, loaded) /\
    Engine.customer_segmentation (H := Demo.round_robin) 5 loaded
      = Ok (unsegmented data, loaded).
Proof.
  eexists _, _.
  split; [reflexivity|]. split; [reflexivity|].
  split; [reflexivity|]. split; [reflexivity|].
  split; [vm_compute; lia|].
  apply (segmentation_falls_back (H := Demo.round_robin) 5 Demo.engine Demo.db);
    [reflexivity|reflexivity|vm_compute; lia].
Defined.

Lemma segmentation_needs_more_customers_than_clusters_witness :
  exists df self',
    Engine.data_cache Demo.engine = ∅ /\
    Engine.customer_segmentation (H := Demo.round_robin) 2 Demo.engine
      = Ok (df, self') /\
    exists db, Engine.store Demo.engine = Ok db /\
      let active :=
        length (active_customer_rows (Engine.now Demo.engine) db) in
      ((active < 2)%nat /\ Frame.columns df = Engine.customer_columns) \/
      ((2 < active)%nat /\ Frame.columns df = segmented_columns).
Proof.
  eexists _, _.
  split; [reflexivity|].
  split; [vm_compute; reflexivity|].
  eapply (segmentation_needs_more_customers_than_clusters
            (H := Demo.round_robin) 2 Demo.engine);
    [reflexivity|vm_compute; reflexivity].
Defined.


(** ** The revenue forecast *)

(** The dates of the time series are the dates of the completed orders of
    the last 90 days. *)
Lemma time_series_dates (now : timestamp) (db : database) (date : Z) :
  In date (map Queries.ts_order_date (Queries.time_series_query now db)) <->
  In date (map (fun o => Queries.date_of (o_order_date o))
             (recent_completed_orders now db)).
Proof.
  unfold Queries.time_series_query.
  change (List.filter _ (orders db)) with (recent_completed_orders now db).
  set (window := recent_completed_orders now db).
  set (groups := Sql.group_by Queries.same_time_key Queries.time_key window).
  pose proof (sort_by_perm Queries.before
                (map Queries.time_series_of groups)) as Hperm.
  pose proof (group_by_grouped Queries.same_time_key Queries.time_key
                same_time_key_eq window) as G. fold groups in G.
  split; intros Hin.
  - apply in_map_iff in Hin as (row & <- & Hrow).
    apply (Permutation_in _ Hperm) in Hrow.
    apply in_map_iff in Hrow as ([[[d h] w] os] & <- & Hg).
    pose proof (grouped_rows _ _ _ _ G) as Hrows.
    rewrite List.Forall_forall in Hrows.
    destruct (Hrows _ Hg) as [Hfilter Hne]. cbn [fst snd] in *.
    destruct os as [|o os']; [contradiction|].
    assert (In o (o :: os')) as Ho by now left.
    rewrite Hfilter in Ho. apply List.filter_In in Ho as [Ho Hkey].
    apply same_time_key_eq in Hkey. injection Hkey as -> _ _.
    cbn. apply in_map_iff. now exists o.
  - apply in_map_iff in Hin as (o & <- & Ho).
    pose proof (grouped_cover _ _ _ _ G) as Hcover.
    rewrite List.Forall_forall in Hcover. specialize (Hcover _ Ho).
    apply in_map_iff in Hcover as ([k os] & Hk & Hg). cbn [fst] in Hk.
    apply in_map_iff. exists (Queries.time_series_of (k, os)).
    split; [subst k; reflexivity|].
    apply (Permutation_in _ (Permutation_sym Hperm)). now apply in_map.
Qed.

(** *** Frames column by column *)

Lemma getitem_at (df : Frame.t) (c : string) (i : nat) :
  Frame.index_of c (Frame.columns df) = Some i ->
  Frame.getitem df c = Ok (map (Frame.cell i) (Frame.rows df)).
Proof. unfold Frame.getitem. now intros ->. Qed.

(** Appending a column keeps the cells there were and puts the series in
    the new last cell. *)
Lemma setitem_append (df : Frame.t) (c : string) (series : list value)
    (m : nat) :
  Frame.index_of c (Frame.columns df) = None ->
  length series = length (Frame.rows df) ->
  Forall (fun row => length row = m) (Frame.rows df) ->
  exists df',
    Frame.setitem df c series = Ok df' /\
    Frame.columns df' = Frame.columns df ++ [c] /\
    length (Frame.rows df') = length (Frame.rows df) /\
    Forall (fun row => length row = S m) (Frame.rows df') /\
    map (Frame.cell m) (Frame.rows df') = series /\
    forall i, (i < m)%nat ->
      map (Frame.cell i) (Frame.rows df') = map (Frame.cell i) (Frame.rows df).
Proof.
  intros Hnew Hlen Hrows. unfold Frame.setitem.
  rewrite Hlen, Nat.eqb_refl, Hnew. cbn [negb].
  eexists. split; [reflexivity|]. cbn [Frame.columns Frame.rows].
  split; [reflexivity|].
  revert series Hlen.
  induction Hrows as [|row rows Hrow _ IH]; intros [|v series] Hlen;
    try discriminate; cbn [Frame.zip_with map length].
  - repeat split; constructor.
  - injection Hlen as Hlen.
    destruct (IH series Hlen) as (IH1 & IH2 & IH3 & IH4).
    split; [now rewrite IH1|]. split.
    + constructor; [|exact IH2]. rewrite length_app. cbn. lia.
    + split.
      * rewrite IH3. f_equal. unfold Frame.cell.
        rewrite app_nth2 by lia. now rewrite Hrow, Nat.sub_diag.
      * intros i Hi. rewrite (IH4 i Hi). f_equal.
        apply cell_app_l. lia.
Qed.

Lemma numbers_reals (l : list Q) : Frame.numbers (Engine.reals l) = l.
Proof.
  unfold Frame.numbers, Engine.reals.
  induction l as [|x t IH]; simpl; [reflexivity|]. now rewrite IH.
Qed.

Lemma numbers_ints (l : list Z) :
  Frame.numbers (map VInt l) = map inject_Z l.
Proof.
  unfold Frame.numbers.
  induction l as [|x t IH]; simpl; [reflexivity|]. now rewrite IH.
Qed.

Lemma rolling_mean_length (window : nat) (xs : list Q) :
  length (Frame.rolling_mean window xs) = length xs.
Proof. unfold Frame.rolling_mean. now rewrite length_map, List.length_seq. Qed.

(** *** The group keys of a column *)

Lemma distinct_Forall (P : value -> Prop) (l : list value) :
  Forall P l -> Forall P (Frame.distinct l).
Proof.
  induction 1 as [|v t Hv _ IH]; cbn [Frame.distinct]; constructor;
    [exact Hv|].
  apply List.Forall_forall. intros w Hw.
  apply List.filter_In in Hw as [Hw _].
  rewrite List.Forall_forall in IH. now apply IH.
Qed.

Section GroupKeys.

(** A column of cells of one kind, integers or text, that are never
    null. *)
Context {A : Type} (cell_of : A -> value).
Hypothesis cell_of_eqb :
  forall a b, Frame.value_eqb (cell_of a) (cell_of b) = true <-> a = b.
Hypothesis cell_of_not_null : forall a, Frame.is_null (cell_of a) = false.

Lemma cell_of_inj (a b : A) : cell_of a = cell_of b -> a = b.
Proof using cell_of_eqb.
  intros E. apply cell_of_eqb. rewrite <- E. now apply cell_of_eqb.
Qed.

Lemma distinct_cells_In (l : list A) (a : A) :
  In (cell_of a) (Frame.distinct (map cell_of l)) <-> In a l.
Proof using cell_of_eqb.
  induction l as [|x t IH]; cbn [map Frame.distinct]; [reflexivity|].
  split.
  - intros [E|Hin]; [apply cell_of_inj in E; now left|].
    apply List.filter_In in Hin as [Hin _]. right. now apply IH.
  - intros Hin.
    destruct (Frame.value_eqb (cell_of x) (cell_of a)) eqn:E.
    + apply cell_of_eqb in E. subst x. now left.
    + right. apply List.filter_In. split; [|now rewrite E].
      apply IH. destruct Hin as [->|Hin]; [|exact Hin].
      rewrite (proj2 (cell_of_eqb a a) eq_refl) in E. discriminate.
Qed.

Lemma distinct_cells_NoDup (l : list A) :
  List.NoDup (Frame.distinct (map cell_of l)).
Proof using cell_of_eqb.
  induction l as [|x t IH]; cbn [map Frame.distinct]; constructor.
  - intros Hin. apply List.filter_In in Hin as [_ Hne].
    now rewrite (proj2 (cell_of_eqb x x) eq_refl) in Hne.
  - now apply List.NoDup_filter.
Qed.

Lemma cells_of (l : list value) :
  Forall (fun v => exists a, v = cell_of a) l -> exists keys, l = map cell_of keys.
Proof using Type.
  induction 1 as [|v t [a ->] _ [keys ->]]; [now exists []|].
  now exists (a :: keys).
Qed.

(** The keys of a grouping by the column: the values that occur, each
    once. *)
Lemma group_keys (l : list A) :
  exists keys,
    Sql.sort_by Frame.value_leb
      (Frame.distinct
         (List.filter (fun v => negb (Frame.is_null v)) (map cell_of l)))
    = map cell_of keys /\
    List.NoDup keys /\
    forall a, In a keys <-> In a l.
Proof using cell_of_eqb cell_of_not_null.
  rewrite filter_keeps_all.
  2: { apply List.Forall_forall. intros v Hv.
       apply in_map_iff in Hv as (a & <- & _).
       now rewrite cell_of_not_null. }
  pose proof (sort_by_perm Frame.value_leb (Frame.distinct (map cell_of l)))
    as Hperm.
  destruct (cells_of (Sql.sort_by Frame.value_leb
                        (Frame.distinct (map cell_of l)))) as [keys Hkeys].
  { eapply Permutation_Forall; [apply Permutation_sym, Hperm|].
    apply distinct_Forall. apply List.Forall_forall. intros v Hv.
    apply in_map_iff in Hv as (a & <- & _). now exists a. }
  exists keys. split; [exact Hkeys|].
  rewrite Hkeys in Hperm. split.
  { apply (NoDup_map_inv cell_of).
    eapply Permutation_NoDup; [apply Permutation_sym, Hperm|].
    apply distinct_cells_NoDup. }
  intros a. rewrite <- (distinct_cells_In l a). split.
  - intros Ha. apply (Permutation_in _ Hperm). now apply in_map.
  - intros Ha. apply (Permutation_in _ (Permutation_sym Hperm)) in Ha.
    apply in_map_iff in Ha as (a' & E & Ha'). apply cell_of_inj in E.
    now subst a'.
Qed.

End GroupKeys.

Lemma integer_keys (l : list Z) :
  exists keys,
    Sql.sort_by Frame.value_leb
      (Frame.distinct
         (List.filter (fun v => negb (Frame.is_null v)) (map VInt l)))
    = map VInt keys /\
    List.NoDup keys /\
    forall z, In z keys <-> In z l.
Proof.
  apply group_keys; [|reflexivity].
  intros a b. cbn. apply Z.eqb_eq.
Qed.

Lemma text_keys (l : list string) :
  exists keys,
    Sql.sort_by Frame.value_leb
      (Frame.distinct
         (List.filter (fun v => negb (Frame.is_null v)) (map VStr l)))
    = map VStr keys /\
    List.NoDup keys /\
    forall s, In s keys <-> In s l.
Proof.
  apply group_keys; [|reflexivity].
  intros a b. cbn. apply String.eqb_eq.
Qed.

(** *** From the daily table to the forecast *)

Lemma zip_with_forecast {A} (f g h : A -> Q) (l : list A) :
  Frame.zip_with (fun d pf => [VReal d; VReal (fst pf); VReal (snd pf)])
    (map f l) (combine (map g l) (map h l))
  = map (fun i => [VReal (f i); VReal (g i); VReal (h i)]) l.
Proof. induction l as [|x t IH]; simpl; [reflexivity|]. now rewrite IH. Qed.

Section ForecastOfDaily.

Context (days_ahead : nat) (self loaded : Engine.t) (time_data daily : Frame.t)
  (dates : list Z) (revenues : list Q).

Hypothesis Hensure :
  Engine.ensure "time_series" Engine.get_time_series_data self
    = Ok (tt, loaded).
Hypothesis Hcached : Engine.cached_frame loaded "time_series" = Ok time_data.
Hypothesis Hgroup :
  Frame.groupby_agg time_data "order_date"
    [("daily_revenue", Frame.AggSum); ("order_count", Frame.AggSum);
     ("unique_customers", Frame.AggSum)] = Ok daily.
Hypothesis Hcolumns :
  Frame.columns daily
    = ["order_date"; "daily_revenue"; "order_count"; "unique_customers"].
Hypothesis Hwidth : Forall (fun row => length row = 4%nat) (Frame.rows daily).
Hypothesis Hdates : map (Frame.cell 0) (Frame.rows daily) = map VInt dates.
Hypothesis Hrevenues :
  map (Frame.cell 1) (Frame.rows daily) = Engine.reals revenues.

Let start : Q :=
  match map inject_Z dates with
  | [] => 0
  | d :: ds => fold_left Qmin ds d
  end.

Let days : list Q := map (fun d => d - start) (map inject_Z dates).

Lemma forecast_of_no_day :
  dates = [] ->
  Engine.revenue_forecasting days_ahead self = Err ValueError.
Proof using Hensure Hcached Hgroup Hcolumns Hwidth Hdates Hrevenues.
  intros Hnone. subst dates.
  assert (Frame.rows daily = []) as Hrows
    by (destruct (Frame.rows daily); [reflexivity|discriminate Hdates]).
  assert (revenues = []) as ->.
  { rewrite Hrows in Hrevenues. now destruct revenues. }
  unfold Engine.revenue_forecasting.
  rewrite Hensure. cbn [rbind snd]. rewrite Hcached. cbn [rbind].
  rewrite Hgroup. cbn [rbind].
  unfold Frame.getitem, Frame.setitem.
  rewrite Hcolumns, Hrows. reflexivity.
Qed.

Lemma forecast_of_days :
  dates <> [] ->
  exists historical model,
    Engine.fit days revenues = Ok model /\
    Frame.columns historical = daily_columns /\
    Frame.len historical = length dates /\
    map (Frame.cell 0) (Frame.rows historical) = map VInt dates /\
    map (Frame.cell 1) (Frame.rows historical) = Engine.reals revenues /\
    map (Frame.cell 6) (Frame.rows historical) = Engine.reals days /\
    let last_day := Sql.coalesce (Frame.max (Engine.reals days)) 0 in
    let last_date := Sql.coalesce (Frame.max (map VInt dates)) 0 in
    let forecast :=
      {| Frame.columns :=
           ["order_date"; "predicted_revenue"; "days_since_start"];
         Frame.rows :=
           map (fun i =>
                  [VReal (last_date + inject_Z (Z.of_nat i));
                   VReal (Engine.intercept model
                          + Engine.coef model
                            * (last_day + inject_Z (Z.of_nat i)));
                   VReal (last_day + inject_Z (Z.of_nat i))])
             (seq 1 days_ahead) |} in
    let cached :=
      Engine.CForecast historical forecast
        (Engine.score model days revenues) in
    Engine.revenue_forecasting days_ahead self
      = Ok (cached, Engine.cache_put loaded "revenue_forecast" cached).
Proof using Hensure Hcached Hgroup Hcolumns Hwidth Hdates Hrevenues.
  intros Hsome.
  assert (length (Frame.rows daily) = length dates) as Hlen
    by (rewrite <- (length_map (Frame.cell 0)), Hdates; apply length_map).
  assert (length revenues = length dates) as Hrev.
  { rewrite <- Hlen, <- (length_map (Frame.cell 1)), Hrevenues.
    unfold Engine.reals. now rewrite length_map. }
  destruct (setitem_append daily "revenue_7day_ma"
              (Engine.reals (Frame.rolling_mean 7 revenues)) 4)
    as (d1 & Hset1 & Hcols1 & Hlen1 & Hwidth1 & _ & Hkeep1);
    [now rewrite Hcolumns| |exact Hwidth|].
  { unfold Engine.reals. rewrite length_map, rolling_mean_length. lia. }
  destruct (setitem_append d1 "revenue_14day_ma"
              (Engine.reals (Frame.rolling_mean 14 revenues)) 5)
    as (d2 & Hset2 & Hcols2 & Hlen2 & Hwidth2 & _ & Hkeep2);
    [now rewrite Hcols1, Hcolumns| |exact Hwidth1|].
  { unfold Engine.reals. rewrite length_map, rolling_mean_length. lia. }
  destruct (setitem_append d2 "days_since_start" (Engine.reals days) 6)
    as (d3 & Hset3 & Hcols3 & Hlen3 & Hwidth3 & Hlast3 & Hkeep3);
    [now rewrite Hcols2, Hcols1, Hcolumns| |exact Hwidth2|].
  { unfold Engine.reals, days. rewrite !length_map. lia. }
  assert (exists model, Engine.fit days revenues = Ok model) as [model Hfit].
  { unfold Engine.fit, days. destruct dates; [contradiction|].
    cbn [map]. eexists. reflexivity. }
  exists d3, model.
  split; [exact Hfit|].
  split; [now rewrite Hcols3, Hcols2, Hcols1, Hcolumns|].
  split; [unfold Frame.len; lia|].
  split; [now rewrite (Hkeep3 0%nat), (Hkeep2 0%nat), (Hkeep1 0%nat) by lia|].
  split; [now rewrite (Hkeep3 1%nat), (Hkeep2 1%nat), (Hkeep1 1%nat) by lia|].
  split; [exact Hlast3|].
  cbv zeta.
  unfold Engine.revenue_forecasting.
  rewrite Hensure. cbn [rbind snd]. rewrite Hcached. cbn [rbind].
  rewrite Hgroup. cbn [rbind].
  rewrite (getitem_at daily _ 1) by now rewrite Hcolumns.
  cbn [rbind]. rewrite Hrevenues, numbers_reals, Hset1. cbn [rbind].
  rewrite (getitem_at d1 _ 1) by now rewrite Hcols1, Hcolumns.
  cbn [rbind]. rewrite (Hkeep1 1%nat) by lia.
  rewrite Hrevenues, numbers_reals, Hset2. cbn [rbind].
  rewrite (getitem_at d2 _ 0) by now rewrite Hcols2, Hcols1, Hcolumns.
  cbn [rbind]. rewrite (Hkeep2 0%nat), (Hkeep1 0%nat) by lia.
  rewrite Hdates, numbers_ints.
  fold start. fold days. rewrite Hset3. cbn [rbind].
  rewrite (getitem_at d3 _ 6) by now rewrite Hcols3, Hcols2, Hcols1, Hcolumns.
  cbn [rbind]. rewrite Hlast3, numbers_reals.
  rewrite (getitem_at d3 _ 1) by now rewrite Hcols3, Hcols2, Hcols1, Hcolumns.
  cbn [rbind]. rewrite (Hkeep3 1%nat), (Hkeep2 1%nat), (Hkeep1 1%nat) by lia.
  rewrite Hrevenues, numbers_reals, Hfit. cbn [rbind].
  rewrite (getitem_at d3 _ 0) by now rewrite Hcols3, Hcols2, Hcols1, Hcolumns.
  cbn [rbind]. rewrite (Hkeep3 0%nat), (Hkeep2 0%nat), (Hkeep1 0%nat) by lia.
  rewrite Hdates.
  unfold Engine.predict. rewrite !map_map.
  rewrite (zip_with_forecast
             (fun i => Sql.coalesce (Frame.max (map VInt dates)) 0
                       + inject_Z (Z.of_nat i))).
  reflexivity.
Qed.

End ForecastOfDaily.

(** *** The daily table of the time series *)

(** The revenue the daily table holds for a date: the sum over the rows
    of the time series of that date. *)
Lemma sum_of_date (rows : list Queries.time_series_row) (date : Z) :
  Frame.sum
    (map (Frame.cell 4)
       (List.filter
          (fun row => Frame.value_eqb (VInt date) (Frame.cell 0 row))
          (Frame.rows (Engine.time_series_frame rows))))
  = Qsum (map Queries.ts_daily_revenue
            (List.filter (fun r => (date =? Queries.ts_order_date r)%Z) rows)).
Proof.
  unfold Frame.sum, Engine.time_series_frame. cbn [Frame.rows].
  induction rows as [|r rows IH]; cbn [map List.filter]; [reflexivity|].
  cbn [Frame.cell nth Frame.value_eqb].
  destruct (date =? Queries.ts_order_date r)%Z; [|exact IH].
  cbn [map Frame.cell nth].
  change (Frame.numbers (VReal (Queries.ts_daily_revenue r) :: ?l))
    with (Queries.ts_daily_revenue r :: Frame.numbers l).
  unfold Qsum in *. cbn [fold_right]. f_equal. exact IH.
Qed.

Lemma daily_of_time_series (rows : list Queries.time_series_row) :
  exists daily dates,
    Frame.groupby_agg (Engine.time_series_frame rows) "order_date"
      [("daily_revenue", Frame.AggSum); ("order_count", Frame.AggSum);
       ("unique_customers", Frame.AggSum)] = Ok daily /\
    Frame.columns daily
      = ["order_date"; "daily_revenue"; "order_count"; "unique_customers"] /\
    Forall (fun row => length row = 4%nat) (Frame.rows daily) /\
    map (Frame.cell 0) (Frame.rows daily) = map VInt dates /\
    map (Frame.cell 1) (Frame.rows daily)
      = Engine.reals
          (map (fun date =>
                  Qsum (map Queries.ts_daily_revenue
                          (List.filter
                             (fun r => (date =? Queries.ts_order_date r)%Z)
                             rows))) dates) /\
    List.NoDup dates /\
    forall z, In z dates <-> In z (map Queries.ts_order_date rows).
Proof.
  destruct (integer_keys (map Queries.ts_order_date rows))
    as (dates & Hkeys & Hnodup & Hdates).
  set (series := Engine.time_series_frame rows).
  assert (map (Frame.cell 0) (Frame.rows series)
          = map VInt (map Queries.ts_order_date rows)) as Hcol.
  { unfold series, Engine.time_series_frame. cbn [Frame.rows].
    now rewrite !map_map. }
  unfold Frame.groupby_agg.
  change (Frame.index_of "order_date" (Frame.columns series))
    with (Some 0%nat).
  cbv beta iota.
  change (Frame.positions (Frame.columns series)
            (map fst [("daily_revenue", Frame.AggSum);
                      ("order_count", Frame.AggSum);
                      ("unique_customers", Frame.AggSum)]))
    with (@Ok (list nat) [4; 3; 6]%nat).
  cbn [rbind]. rewrite Hcol, Hkeys.
  eexists _, dates. split; [reflexivity|].
  cbn [Frame.columns Frame.rows map fst snd combine Frame.aggregate].
  split; [reflexivity|].
  rewrite !map_map. cbn [Frame.cell nth].
  split; [apply List.Forall_forall; intros row Hrow;
          apply in_map_iff in Hrow as (z & <- & _); reflexivity|].
  split; [reflexivity|].
  split; [|split; [exact Hnodup|exact Hdates]].
  unfold Engine.reals. rewrite map_map. apply map_ext. intros date.
  f_equal. apply sum_of_date.
Qed.

(** *** The revenue of a date *)

Lemma Qsum_app (l l' : list Q) : Qsum (l ++ l') == Qsum l + Qsum l'.
Proof.
  unfold Qsum. induction l as [|x t IH]; simpl; [ring|]. rewrite IH. ring.
Qed.

Lemma Qsum_perm (l l' : list Q) : Permutation l l' -> Qsum l == Qsum l'.
Proof.
  unfold Qsum. induction 1; simpl.
  - reflexivity.
  - now rewrite IHPermutation.
  - ring.
  - now rewrite IHPermutation1.
Qed.

Lemma filter_perm {A} (p : A -> bool) (l l' : list A) :
  Permutation l l' -> Permutation (List.filter p l) (List.filter p l').
Proof.
  induction 1 as [|x l l' _ IH|x y l|l l' l'' _ IH1 _ IH2]; simpl.
  - reflexivity.
  - destruct (p x); [now apply perm_skip|exact IH].
  - destruct (p x), (p y); try reflexivity. apply perm_swap.
  - now rewrite IH1.
Qed.

(** The rows of the time series of a date add up the completed orders of
    that date in the last 90 days. *)
Lemma time_series_revenue_on (now : timestamp) (db : database) (date : Z) :
  Qsum (map Queries.ts_daily_revenue
          (List.filter (fun r => (date =? Queries.ts_order_date r)%Z)
             (Queries.time_series_query now db)))
  == Qsum (map o_total_amount
             (orders_on date (recent_completed_orders now db))).
Proof.
  unfold Queries.time_series_query.
  change (List.filter _ (orders db)) with (recent_completed_orders now db).
  set (window := recent_completed_orders now db).
  set (groups := Sql.group_by Queries.same_time_key Queries.time_key window).
  pose proof (sort_by_perm Queries.before
                (map Queries.time_series_of groups)) as Hperm.
  pose proof (group_by_grouped Queries.same_time_key Queries.time_key
                same_time_key_eq window) as G. fold groups in G.
  etransitivity;
    [apply Qsum_perm, Permutation_map, filter_perm, Hperm|].
  unfold orders_on.
  etransitivity;
    [|apply Qsum_perm, Permutation_map, filter_perm,
        (grouped_perm _ _ _ _ G)].
  pose proof (grouped_rows _ _ _ _ G) as Hrows.
  assert (Forall (fun g : Z * Z * Z * list order =>
                    Forall (fun o => Queries.time_key o = fst g) (snd g))
            groups) as Hkeys.
  { eapply List.Forall_impl; [|exact Hrows]. cbn beta.
    intros g [Hfilter _]. rewrite Hfilter.
    apply List.Forall_forall. intros o Ho.
    apply List.filter_In in Ho as [_ Ho].
    apply same_time_key_eq in Ho. now symmetry. }
  clear - Hkeys. induction Hkeys as [|[[[d h] w] os] groups Hg _ IH];
    cbn [map List.filter concat fst snd]; [reflexivity|].
  cbn [fst snd] in Hg.
  rewrite List.filter_app, map_app, Qsum_app, <- IH.
  change (Queries.ts_order_date (Queries.time_series_of (d, h, w, os)))
    with d.
  destruct (Z.eqb_spec date d) as [->|Hne].
  - rewrite (filter_keeps_all _ os).
    + cbn [map].
      change (Queries.ts_daily_revenue (Queries.time_series_of (d, h, w, os)))
        with (Qsum (map o_total_amount os)).
      reflexivity.
    + eapply List.Forall_impl; [|exact Hg]. cbn beta.
      intros o Ho. unfold Queries.time_key in Ho. injection Ho as -> _ _.
      apply Z.eqb_refl.
  - rewrite (filter_keeps_none _ os).
    + cbn [map]. change (Qsum []) with 0. ring.
    + eapply List.Forall_impl; [|exact Hg]. cbn beta.
      intros o Ho. unfold Queries.time_key in Ho. injection Ho as -> _ _.
      apply Z.eqb_neq. congruence.
Qed.

(** *** The first and the last day *)

Lemma fold_Qmin_lower (values : list Q) : forall v,
  (forall x, In x (v :: values) -> fold_left Qmin values v <= x) /\
  (exists x, In x (v :: values) /\ fold_left Qmin values v == x).
Proof.
  induction values as [|w ws IH]; intros v; simpl.
  - split.
    + intros x [<-|[]]. apply Qle_refl.
    + exists v. split; [now left|reflexivity].
  - destruct (IH (Qmin v w)) as [Hle (x & Hx & Heq)]. split.
    + intros y [<-|[<-|Hy]].
      * eapply Qle_trans; [|apply Q.le_min_l]. apply Hle. now left.
      * eapply Qle_trans; [|apply Q.le_min_r]. apply Hle. now left.
      * apply Hle. now right.
    + destruct Hx as [<-|Hx].
      * destruct (Q.min_dec v w) as [E|E].
        -- exists v. split; [now left|]. now rewrite Heq.
        -- exists w. split; [right; now left|]. now rewrite Heq.
      * exists x. split; [right; now right|exact Heq].
Qed.

Section Extremes.

Context (g : Z -> Q).
Hypothesis g_mono : forall a b, g a <= g b <-> (a <= b)%Z.

Lemma greatest_by (z0 : Z) (zs : list Z) :
  exists last, greatest last (z0 :: zs) /\
    fold_left Qmax (map g zs) (g z0) == g last.
Proof using g_mono.
  destruct (fold_Qmax_upper (map g zs) (g z0)) as [Hle (x & Hx & Heq)].
  change (g z0 :: map g zs) with (map g (z0 :: zs)) in Hle, Hx.
  apply in_map_iff in Hx as (last & <- & Hlast).
  exists last. split; [split; [exact Hlast|]|exact Heq].
  intros z Hz. apply g_mono. rewrite <- Heq. apply Hle. now apply in_map.
Qed.

Lemma least_by (z0 : Z) (zs : list Z) :
  exists first, least first (z0 :: zs) /\
    fold_left Qmin (map g zs) (g z0) == g first.
Proof using g_mono.
  destruct (fold_Qmin_lower (map g zs) (g z0)) as [Hle (x & Hx & Heq)].
  change (g z0 :: map g zs) with (map g (z0 :: zs)) in Hle, Hx.
  apply in_map_iff in Hx as (first & <- & Hfirst).
  exists first. split; [split; [exact Hfirst|]|exact Heq].
  intros z Hz. apply g_mono. rewrite <- Heq. apply Hle. now apply in_map.
Qed.

End Extremes.

Lemma greatest_unique (a b : Z) (l : list Z) :
  greatest a l -> greatest b l -> a = b.
Proof.
  intros [Ha Hla] [Hb Hlb]. specialize (Hla _ Hb). specialize (Hlb _ Ha). lia.
Qed.

Lemma greatest_same (z : Z) (l l' : list Z) :
  (forall x, In x l <-> In x l') -> greatest z l -> greatest z l'.
Proof.
  intros Hsame [Hz Hle]. split; [now apply Hsame|].
  intros x Hx. apply Hle. now apply Hsame.
Qed.

Lemma least_same (z : Z) (l l' : list Z) :
  (forall x, In x l <-> In x l') -> least z l -> least z l'.
Proof.
  intros Hsame [Hz Hle]. split; [now apply Hsame|].
  intros x Hx. apply Hle. now apply Hsame.
Qed.

Lemma inject_Z_mono (a b : Z) : inject_Z a <= inject_Z b <-> (a <= b)%Z.
Proof. rewrite Zle_Qle. reflexivity. Qed.

Lemma Forall2_map_same {A B} (P : A -> B -> Prop) (f : A -> B) (l : list A) :
  (forall x, P x (f x)) -> Forall2 P l (map f l).
Proof. intros H. induction l; simpl; constructor; auto. Qed.

Lemma Forall2_of_columns (dates : list Z) (revenue day : Z -> Q)
    (rows : list (list value)) :
  map (Frame.cell 0) rows = map VInt dates ->
  map (Frame.cell 1) rows = Engine.reals (map revenue dates) ->
  map (Frame.cell 6) rows = Engine.reals (map day dates) ->
  Forall2 (fun date row => Frame.cell 0 row = VInt date /\
                           Frame.cell 1 row = VReal (revenue date) /\
                           Frame.cell 6 row = VReal (day date)) dates rows.
Proof.
  revert rows. induction dates as [|d ds IH]; intros [|row rows];
    cbn [map Engine.reals]; try discriminate; [constructor|].
  intros H0 H1 H6.
  injection H0 as H0 H0'. injection H1 as H1 H1'. injection H6 as H6 H6'.
  constructor; [auto|]. now apply IH.
Qed.

(** The revenue forecast raises when no completed order falls in the last
    90 days. Otherwise it returns and caches a daily table and a forecast.
    The daily table has one row per date of such an order, with the
    revenue of the completed orders of that date and the number of days
    since the first date. The regression is fitted on the day numbers and
    revenues of the daily table, and scored on them. The forecast has
    [days_ahead] rows: the dates that follow the last date, numbered on
    from the number of the last day, each with the revenue the fitted
    model predicts for its day number. *)
Theorem revenue_forecast_report (days_ahead : nat) (self : Engine.t)
    (db : database) :
  Engine.store self = Ok db ->
  Engine.data_cache self !! "time_series" = None ->
  let window := recent_completed_orders (Engine.now self) db in
  let dates := window_dates (Engine.now self) db in
  match dates with
  | [] => Engine.revenue_forecasting days_ahead self = Err ValueError
  | _ =>
      exists historical forecast score self' first last model days,
        Engine.revenue_forecasting days_ahead self
          = Ok (Engine.CForecast historical forecast score, self') /\
        Engine.data_cache self' !! "revenue_forecast"
          = Some (Engine.CForecast historical forecast score) /\
        Frame.columns historical = daily_columns /\
        Frame.len historical = length (nodup Z.eq_dec dates) /\
        least first dates /\ greatest last dates /\
        List.NoDup days /\ (forall z, In z days <-> In z dates) /\
        Forall2
          (fun date row =>
             exists revenue day,
               Frame.cell 0 row = VInt date /\
               Frame.cell 1 row = VReal revenue /\
               Frame.cell 6 row = VReal day /\
               revenue == Qsum (map o_total_amount (orders_on date window)) /\
               day == inject_Z (date - first))
          days (Frame.rows historical) /\
        let X :=
          Frame.numbers (map (Frame.cell 6) (Frame.rows historical)) in
        let y :=
          Frame.numbers (map (Frame.cell 1) (Frame.rows historical)) in
        Engine.fit X y = Ok model /\
        score = Engine.score model X y /\
        Frame.columns forecast
          = ["order_date"; "predicted_revenue"; "days_since_start"] /\
        Forall2
          (fun i row =>
             exists date revenue day,
               row = [VReal date; VReal revenue; VReal day] /\
               date == inject_Z (last + Z.of_nat i) /\
               day == inject_Z (last - first + Z.of_nat i) /\
               Engine.predict model [day] = [revenue])
          (seq 1 days_ahead) (Frame.rows forecast)
  end.
Proof.
  intros Hstore Hnone window dates.
  set (rows := Queries.time_series_query (Engine.now self) db).
  set (series := Engine.time_series_frame rows).
  set (loaded := Engine.cache_put self "time_series" (Engine.CFrame series)).
  destruct (daily_of_time_series rows)
    as (daily & zs & Hgroup & Hcols & Hwidth & Hcol0 & Hcol1 & Hnodup & Hzs).
  set (revenue := fun date =>
         Qsum (map Queries.ts_daily_revenue
                 (List.filter (fun r => (date =? Queries.ts_order_date r)%Z)
                    rows))) in *.
  fold series in Hgroup.
  assert (Engine.ensure "time_series" Engine.get_time_series_data self
          = Ok (tt, loaded)) as Hensure.
  { unfold Engine.ensure. rewrite Hnone.
    now rewrite (get_time_series_data_on_store self db Hstore). }
  assert (Engine.cached_frame loaded "time_series" = Ok series) as Hcached.
  { unfold Engine.cached_frame, loaded, Engine.cache_put.
    cbn [Engine.data_cache]. now rewrite lookup_insert_eq. }
  assert (forall z, In z zs <-> In z dates) as Hsame.
  { intros z. rewrite Hzs. apply time_series_dates. }
  destruct dates as [|d ds] eqn:Hdates.
  - apply (forecast_of_no_day days_ahead self loaded series daily zs
             (map revenue zs)); try assumption.
    destruct zs as [|z zs']; [reflexivity|].
    exfalso. apply (Hsame z). now left.
  - assert (zs <> []) as Hsome.
    { intros ->. apply (Hsame d). now left. }
    destruct (forecast_of_days days_ahead self loaded series daily zs
                (map revenue zs)
                Hensure Hcached Hgroup Hcols Hwidth Hcol0 Hcol1 Hsome)
      as (historical & model & Hfit & Hhcols & Hhlen & Hh0 & Hh1 & Hh6
          & Hrun).
    cbv zeta in Hrun.
    destruct zs as [|z0 zs'] eqn:Ezs; [contradiction|]. rewrite <- Ezs in *.
    destruct (least_by inject_Z inject_Z_mono z0 zs') as (first & Hfirst & Emin).
    destruct (greatest_by inject_Z inject_Z_mono z0 zs')
      as (last & Hlast & Emax).
    set (start := fold_left Qmin (map inject_Z zs') (inject_Z z0)) in *.
    destruct (greatest_by (fun z => inject_Z z - start)
                ltac:(intros a b; rewrite <- inject_Z_mono; split; intros; lra)
                z0 zs') as (last' & Hlast' & Emax').
    assert (last' = last) as -> by (eapply greatest_unique; eassumption).
    rewrite <- Ezs in Hfirst, Hlast.
    assert (match map inject_Z zs with
            | [] => 0
            | d0 :: ds0 => fold_left Qmin ds0 d0
            end = start) as Hstart by (rewrite Ezs; reflexivity).
    rewrite Hstart in *.
    eexists historical, _, _, _, first, last, model, zs.
    split; [exact Hrun|].
    split; [unfold Engine.cache_put; cbn [Engine.data_cache];
            now rewrite lookup_insert_eq|].
    split; [exact Hhcols|].
    split.
    { rewrite Hhlen. apply Permutation_length.
      apply Permutation.NoDup_Permutation.
      - exact Hnodup.
      - apply NoDup_nodup.
      - intros z. rewrite nodup_In. apply Hsame. }
    split; [now apply (least_same first zs)|].
    split; [now apply (greatest_same last zs)|].
    split; [exact Hnodup|]. split; [exact Hsame|].
    split.
    { rewrite map_map in Hh6.
      pose proof (Forall2_of_columns zs revenue
                    (fun z => inject_Z z - start) (Frame.rows historical)
                    Hh0 Hh1 Hh6) as Hrows.
      eapply Forall2_impl; [exact Hrows|]. cbn beta.
      intros date row (H0 & H1 & H6).
      exists (revenue date), (inject_Z date - start).
      split; [exact H0|]. split; [exact H1|]. split; [exact H6|].
      split; [apply time_series_revenue_on|].
      unfold Zminus. rewrite inject_Z_plus, inject_Z_opp, Emin. ring. }
    cbv zeta. rewrite Hh6, Hh1, !numbers_reals.
    split; [exact Hfit|]. split; [reflexivity|].
    split; [reflexivity|].
    cbn [Frame.rows]. apply Forall2_map_same. intros i.
    eexists _, _, _. split; [reflexivity|].
    assert (Sql.coalesce (Frame.max (map VInt zs)) 0 == inject_Z last) as E1.
    { unfold Frame.max. rewrite numbers_ints, Ezs. cbn [map Sql.coalesce].
      exact Emax. }
    assert (Sql.coalesce
              (Frame.max
                 (Engine.reals
                    (map (fun d => d - start) (map inject_Z zs)))) 0
            == inject_Z (last - first)) as E2.
    { unfold Frame.max. rewrite numbers_reals, Ezs. cbn [map Sql.coalesce].
      rewrite map_map.
      rewrite Emax'. unfold Zminus. rewrite inject_Z_plus, inject_Z_opp.
      rewrite Emin. ring. }
    split; [rewrite E1, inject_Z_plus; reflexivity|].
    split; [rewrite E2, inject_Z_plus; reflexivity|].
    reflexivity.
Qed.

Lemma revenue_forecast_report_witness :
  Engine.store Demo.engine = Ok Demo.db /\
  Engine.data_cache Demo.engine !! "time_series" = None /\
  match window_dates (Engine.now Demo.engine) Demo.db with
  | [] => Engine.revenue_forecasting 7 Demo.engine = Err ValueError
  | _ =>
      exists historical forecast score self' first last model days,
        Engine.revenue_forecasting 7 Demo.engine
          = Ok (Engine.CForecast historical forecast score, self') /\
        Engine.data_cache self' !! "revenue_forecast"
          = Some (Engine.CForecast historical forecast score) /\
        Frame.columns historical = daily_columns /\
        Frame.len historical
          = length (nodup Z.eq_dec
                      (window_dates (Engine.now Demo.engine) Demo.db)) /\
        least first (window_dates (Engine.now Demo.engine) Demo.db) /\
        greatest last (window_dates (Engine.now Demo.engine) Demo.db) /\
        List.NoDup days /\
        (forall z, In z days
                   <-> In z (window_dates (Engine.now Demo.engine) Demo.db)) /\
        Forall2
          (fun date row =>
             exists revenue day,
               Frame.cell 0 row = VInt date /\
               Frame.cell 1 row = VReal revenue /\
               Frame.cell 6 row = VReal day /\
               revenue
               == Qsum (map o_total_amount
                          (orders_on date
                             (recent_completed_orders
                                (Engine.now Demo.engine) Demo.db))) /\
               day == inject_Z (date - first))
          days (Frame.rows historical) /\
        let X :=
          Frame.numbers (map (Frame.cell 6) (Frame.rows historical)) in
        let y :=
          Frame.numbers (map (Frame.cell 1) (Frame.rows historical)) in
        Engine.fit X y = Ok model /\
        score = Engine.score model X y /\
        Frame.columns forecast
          = ["order_date"; "predicted_revenue"; "days_since_start"] /\
        Forall2
          (fun i row =>
             exists date revenue day,
               row = [VReal date; VReal revenue; VReal day] /\
               date == inject_Z (last + Z.of_nat i) /\
               day == inject_Z (last - first + Z.of_nat i) /\
               Engine.predict model [day] = [revenue])
          (seq 1 7) (Frame.rows forecast)
  end.
Proof.
  split; [reflexivity|]. split; [reflexivity|].
  exact (revenue_forecast_report 7 Demo.engine Demo.db eq_refl eq_refl).
Defined.
(** * The segment names of the segmented table *)


















